(** * NYC Motor Vehicle Collisions dashboard: the filter and analytics engine

    A shallow embedding of the helper functions of [app.py]
    ([parse_search_query], [get_dropdown_options], [apply_filters],
    [calculate_summary_stats] and the data parts of
    [create_all_visualizations]) together with the properties the
    specification states about them.

    Conventions of the embedding.
    - A Python [str] is a Rocq [string] read as a sequence of code points
      below 256 (Latin-1); code points above that range are outside the
      model.
    - A pandas number (int64 or float64) is a rational [Q]; [NaN] and
      [None] cells are [None : option _].
    - A Python [dict] is a [gmap] with [string] keys.
    - An exception is a value [Raise e] of the [result] type. *)

From Stdlib Require Import Ascii String QArith.
From stdpp Require Import gmap strings list fin_maps sorting.

Local Open Scope string_scope.
Local Open Scope list_scope.
Local Close Scope Q_scope.
Local Open Scope Z_scope.
Local Open Scope nat_scope.

(** ** Python values and exceptions *)

Inductive pyval :=
  | PNone
  | PBool (b : bool)
  | PInt (z : Z)
  | PFloat (q : Q)
  | PStr (s : string).

Inductive exn := KeyError | TypeError | ValueError | ZeroDivisionError.

Inductive result (A : Type) :=
  | Ok (a : A)
  | Raise (e : exn).
Arguments Ok {A} a.
Arguments Raise {A} e.

#[global] Instance result_ret : MRet result := fun A a => Ok a.
#[global] Instance result_bind : MBind result := fun A B f m =>
  match m with
  | Ok a => f a
  | Raise e => Raise e
  end.

(** [try: m except: d], the handler ignoring which exception it caught. *)
Definition try_except {A} (m : result A) (d : A) : A :=
  match m with
  | Ok a => a
  | Raise _ => d
  end.

(** Truth value of an object, as tested by [if x] and [x and y]. *)
Definition truthy (v : pyval) : bool :=
  match v with
  | PNone => false
  | PBool b => b
  | PInt z => negb (z =? 0)%Z
  | PFloat q => negb (Qeq_bool q 0)
  | PStr s => negb (String.eqb s "")
  end.

(** [a == b] on Python values: numbers compare by value across [bool],
    [int] and [float]; a string only equals the same string. *)
Definition py_num (v : pyval) : option Q :=
  match v with
  | PBool b => Some (if b then 1%Q else 0%Q)
  | PInt z => Some (inject_Z z)
  | PFloat q => Some q
  | PNone | PStr _ => None
  end.

Definition py_eq (a b : pyval) : bool :=
  match a, b with
  | PNone, PNone => true
  | PStr s, PStr t => String.eqb s t
  | _, _ =>
      match py_num a, py_num b with
      | Some x, Some y => Qeq_bool x y
      | _, _ => false
      end
  end.

(** [d.get(k)]: the value, or [None] for a missing key. *)
Definition dict_get (d : gmap string pyval) (k : string) : pyval :=
  default PNone (d !! k).

(** [d[k]]: raises [KeyError] for a missing key. *)
Definition dict_item (d : gmap string pyval) (k : string) : result pyval :=
  match d !! k with
  | Some v => Ok v
  | None => Raise KeyError
  end.

(** [isinstance(v, (int, float))]; [bool] is a subclass of [int]. *)
Definition is_int_or_float (v : pyval) : bool :=
  match v with
  | PBool _ | PInt _ | PFloat _ => true
  | PNone | PStr _ => false
  end.

(** ** Character classes and string methods *)

Module Str.

Definition code (c : ascii) : N := N_of_ascii c.

Definition between (lo hi : N) (c : ascii) : bool :=
  ((lo <=? code c) && (code c <=? hi))%N.

(** [c.isdecimal()], which is what [\d] matches: only [0-9] below 256. *)
Definition is_decimal (c : ascii) : bool := between 48 57 c.

(** [c.isdigit()]: the decimal digits and the superscripts 1, 2, 3. *)
Definition is_digit (c : ascii) : bool :=
  is_decimal c || (code c =? 178)%N || (code c =? 179)%N || (code c =? 185)%N.

(** [c.isalpha()]. *)
Definition is_alpha (c : ascii) : bool :=
  between 65 90 c || between 97 122 c
  || (code c =? 170)%N || (code c =? 181)%N || (code c =? 186)%N
  || between 192 214 c || between 216 246 c || between 248 255 c.

(** [c.isnumeric()] beyond the digits: the vulgar fractions. *)
Definition is_fraction (c : ascii) : bool := between 188 190 c.

(** The class [\w] of the [re] module on [str] patterns. *)
Definition is_word (c : ascii) : bool :=
  is_alpha c || is_digit c || is_fraction c || (code c =? 95)%N.

(** [c.isspace()]. *)
Definition is_space (c : ascii) : bool :=
  between 9 13 c || between 28 32 c || (code c =? 133)%N || (code c =? 160)%N.

Definition lower_char (c : ascii) : ascii :=
  if between 65 90 c
     || (between 192 222 c && negb (code c =? 215)%N)
  then ascii_of_N (code c + 32)
  else c.

(** [s.lower()]. *)
Fixpoint lower (s : string) : string :=
  match s with
  | EmptyString => EmptyString
  | String c rest => String (lower_char c) (lower rest)
  end.

(** [needle in hay]. *)
Fixpoint contains (needle hay : string) : bool :=
  String.prefix needle hay
  || match hay with
     | EmptyString => false
     | String _ rest => contains needle rest
     end.

(** [s.lstrip()], [s.rstrip()] and [s.strip()]. *)
Fixpoint lstrip (s : string) : string :=
  match s with
  | EmptyString => EmptyString
  | String c rest => if is_space c then lstrip rest else s
  end.

Fixpoint rstrip (s : string) : string :=
  match s with
  | EmptyString => EmptyString
  | String c rest =>
      match rstrip rest with
      | EmptyString => if is_space c then EmptyString else String c EmptyString
      | kept => String c kept
      end
  end.

Definition strip (s : string) : string := rstrip (lstrip s).

Fixpoint all_chars (p : ascii -> bool) (s : string) : bool :=
  match s with
  | EmptyString => true
  | String c rest => p c && all_chars p rest
  end.

Fixpoint count_chars (p : ascii -> bool) (s : string) : nat :=
  match s with
  | EmptyString => 0
  | String c rest => (if p c then 1 else 0) + count_chars p rest
  end.

(** [s.isdigit()]: false on the empty string. *)
Definition isdigit (s : string) : bool :=
  negb (String.eqb s "") && all_chars is_digit s.

(** [s.startswith(p)]. *)
Definition startswith (p s : string) : bool := String.prefix p s.

(** [s[0].isdigit()]; the source only evaluates it on a non-empty [s]. *)
Definition first_isdigit (s : string) : bool :=
  match s with
  | EmptyString => false
  | String c _ => is_digit c
  end.

(** [x <= y] on strings: lexicographic on code points. *)
Definition leb (x y : string) : bool := String.leb x y.

End Str.

(** [int(s)] for a string of decimal digits; anything else raises
    [ValueError] (signs, blanks and underscores never reach it here). *)
Fixpoint int_digits (acc : Z) (s : string) : result Z :=
  match s with
  | EmptyString => Ok acc
  | String c rest =>
      if Str.is_decimal c
      then int_digits (10 * acc + Z.of_N (Str.code c - 48))%Z rest
      else Raise ValueError
  end.

Definition py_int (s : string) : result Z :=
  match s with
  | EmptyString => Raise ValueError
  | _ => int_digits 0%Z s
  end.

(** ** The query parser ([parse_search_query]) *)

(** The regular expressions of the year extraction.  Both are a word
    boundary, four characters and a word boundary, so a match is decided
    by the character before, the four characters and the character after.
    [\b] holds between a word character and a non-word character or an end
    of the string. *)
Definition word_boundary (prev next : option ascii) : bool :=
  xorb (from_option Str.is_word false prev) (from_option Str.is_word false next).

Definition head_char (s : string) : option ascii :=
  match s with
  | EmptyString => None
  | String c _ => Some c
  end.

(** [\b(19|20)\d{2}\b] tried at one position: [prev] is the character
    before it, [s] the text from it on.  Returns the matched text. *)
Definition year_re_at (prev : option ascii) (s : string) : option string :=
  match s with
  | String a (String b (String c (String d rest))) =>
      if word_boundary prev (Some a)
         && ((Ascii.eqb a "1" && Ascii.eqb b "9") || (Ascii.eqb a "2" && Ascii.eqb b "0"))
         && Str.is_decimal c && Str.is_decimal d
         && word_boundary (Some d) (head_char rest)
      then Some (String a (String b (String c (String d EmptyString))))
      else None
  | _ => None
  end.

(** [\b(19\d{2}|20\d{2})\b] tried at one position. *)
Definition full_year_re_at (prev : option ascii) (s : string) : option string :=
  match s with
  | String a (String b (String c (String d rest))) =>
      if word_boundary prev (Some a)
         && ((Ascii.eqb a "1" && Ascii.eqb b "9" && Str.is_decimal c && Str.is_decimal d)
             || (Ascii.eqb a "2" && Ascii.eqb b "0" && Str.is_decimal c && Str.is_decimal d))
         && word_boundary (Some d) (head_char rest)
      then Some (String a (String b (String c (String d EmptyString))))
      else None
  | _ => None
  end.

(** [re.search]: the match at the leftmost position that has one. *)
Fixpoint re_search_from (re_at : option ascii -> string -> option string)
    (prev : option ascii) (s : string) : option string :=
  match re_at prev s with
  | Some m => Some m
  | None =>
      match s with
      | EmptyString => None
      | String c rest => re_search_from re_at (Some c) rest
      end
  end.

Definition re_search (re_at : option ascii -> string -> option string)
    (s : string) : option string :=
  re_search_from re_at None s.

(** [for key, value in table.items(): if key in query_lower: ...; break]:
    a dict literal iterates in the order it is written. *)
Fixpoint first_keyword (table : list (string * string)) (query_lower : string)
    : option string :=
  match table with
  | [] => None
  | (key, value) :: rest =>
      if Str.contains key query_lower then Some value
      else first_keyword rest query_lower
  end.

Definition boroughs : list (string * string) :=
  [ ("brooklyn", "BROOKLYN"); ("manhattan", "MANHATTAN");
    ("queens", "QUEENS"); ("bronx", "BRONX");
    ("staten island", "STATEN ISLAND") ].

Definition vehicle_keywords : list (string * string) :=
  [ ("sedan", "Sedan");
    ("suv", "Station Wagon/Sport Utility Vehicle");
    ("sport utility", "Station Wagon/Sport Utility Vehicle");
    ("truck", "Truck"); ("pickup", "Pick-up Truck");
    ("motorcycle", "Motorcycle"); ("moped", "Moped");
    ("bicycle", "Bicycle"); ("bike", "Bicycle");
    ("bus", "Bus");
    ("van", "Van");
    ("taxi", "Taxi");
    ("ambulance", "Ambulance") ].

Definition factor_keywords : list (string * string) :=
  [ ("speeding", "Unsafe Speed"); ("speed", "Unsafe Speed");
    ("alcohol", "Alcohol Involvement"); ("drunk", "Alcohol Involvement");
    ("distraction", "Driver Inattention/Distraction");
    ("inattention", "Driver Inattention/Distraction");
    ("red light", "Traffic Control Disregarded");
    ("stop sign", "Traffic Control Disregarded") ].

(** The dict with every filter unset. *)
Definition no_filters : gmap string pyval :=
  <["borough" := PNone]> (<["year" := PNone]> (<["vehicle_type" := PNone]>
    (<["contributing_factor" := PNone]> (<["injury_type" := PNone]> ∅)))).

Definition set_if_found (k : string) (found : option string)
    (filters : gmap string pyval) : gmap string pyval :=
  match found with
  | Some value => <[k := PStr value]> filters
  | None => filters
  end.

Definition parse_search_query (query : string) : gmap string pyval :=
  if negb (truthy (PStr query)) then no_filters
  else
    let filters := no_filters in
    let query_lower := Str.lower query in
    (* Extract borough *)
    let filters := set_if_found "borough" (first_keyword boroughs query_lower) filters in
    (* Extract year (4-digit years) *)
    let filters :=
      match re_search year_re_at query with
      | Some _ =>
          match re_search full_year_re_at query with
          | Some group =>
              try_except (year ← py_int group; mret (<["year" := PInt year]> filters))
                         filters
          | None => filters
          end
      | None => filters
      end in
    (* Extract vehicle type keywords *)
    let filters :=
      set_if_found "vehicle_type" (first_keyword vehicle_keywords query_lower) filters in
    (* Extract injury type *)
    let filters :=
      if Str.contains "pedestrian" query_lower
      then <["injury_type" := PStr "Pedestrian"]> filters
      else if Str.contains "cyclist" query_lower || Str.contains "bicycle" query_lower
      then <["injury_type" := PStr "Cyclist"]> filters
      else if Str.contains "motorist" query_lower || Str.contains "driver" query_lower
      then <["injury_type" := PStr "Motorist"]> filters
      else filters in
    (* Extract contributing factors *)
    set_if_found "contributing_factor" (first_keyword factor_keywords query_lower) filters.

(** ** Data frames

    A data frame has its column labels and its rows in order.  A row holds
    the text cells and the number cells it has a value for, keyed by column
    label; a cell without an entry is missing ([NaN] or [None]).  The
    loader types the columns: [BOROUGH], the vehicle-type and the
    contributing-factor columns hold text, the year, the coordinates and
    the casualty counts hold numbers. *)

Record Row := mkRow {
  strs : gmap string string;
  nums : gmap string Q
}.

Record DataFrame := mkDataFrame {
  columns : list string;
  rows : list Row
}.

(** [col in df.columns]. *)
Definition has_column (df : DataFrame) (col : string) : bool :=
  bool_decide (col ∈ columns df).

(** [df[col]] for a text column and for a number column: the cells in row
    order, [KeyError] when there is no such column. *)
Definition getitem_str (df : DataFrame) (col : string) : result (list (option string)) :=
  if has_column df col then Ok (map (fun r => strs r !! col) (rows df))
  else Raise KeyError.

Definition getitem_num (df : DataFrame) (col : string) : result (list (option Q)) :=
  if has_column df col then Ok (map (fun r => nums r !! col) (rows df))
  else Raise KeyError.

(** [len(df)] and [df.empty] (no rows or no columns). *)
Definition len (df : DataFrame) : nat := length (rows df).

Definition empty (df : DataFrame) : bool :=
  match rows df, columns df with
  | [], _ | _, [] => true
  | _, _ => false
  end.

(** Element-wise comparisons of a column; a missing cell compares false. *)
Definition str_cell_eq (v : pyval) (c : option string) : bool :=
  match c, v with
  | Some s, PStr t => String.eqb s t
  | _, _ => false
  end.

Definition num_cell_eq (v : pyval) (c : option Q) : bool :=
  match c, py_num v with
  | Some q, Some x => Qeq_bool q x
  | _, _ => false
  end.

Definition num_cell_gt0 (c : option Q) : bool :=
  match c with
  | Some q => negb (Qle_bool q 0)
  | None => false
  end.

Definition num_cell_ne0 (c : option Q) : bool :=
  match c with
  | Some q => negb (Qeq_bool q 0)
  | None => true
  end.

Definition notna {A} (c : option A) : bool :=
  match c with
  | Some _ => true
  | None => false
  end.

(** [m1 | m2] and [m1 & m2] on boolean columns. *)
Definition mask_or (m1 m2 : list bool) : list bool := zip_with orb m1 m2.
Definition mask_and (m1 m2 : list bool) : list bool := zip_with andb m1 m2.

(** [df[mask]]: the rows whose mask entry is true, in order. *)
Fixpoint mask_select {A} (mask : list bool) (l : list A) : list A :=
  match mask, l with
  | b :: mask', x :: l' =>
      if b then x :: mask_select mask' l' else mask_select mask' l'
  | _, _ => []
  end.

Definition boolean_index (df : DataFrame) (mask : list bool) : DataFrame :=
  mkDataFrame (columns df) (mask_select mask (rows df)).

(** [s.dropna()]. *)
Fixpoint dropna {A} (s : list (option A)) : list A :=
  match s with
  | [] => []
  | Some x :: s' => x :: dropna s'
  | None :: s' => dropna s'
  end.

(** [s.unique()]: the distinct values in order of first appearance. *)
Fixpoint unique_from {A} (eqb : A -> A -> bool) (seen l : list A) : list A :=
  match l with
  | [] => []
  | x :: l' =>
      if existsb (eqb x) seen then unique_from eqb seen l'
      else x :: unique_from eqb (x :: seen) l'
  end.

Definition unique {A} (eqb : A -> A -> bool) (l : list A) : list A :=
  unique_from eqb [] l.

(** [sorted(l)] by insertion; [before x y] says that [x] may stand before
    [y].  An element is placed in front of the elements it ties with, so
    the sort is stable. *)
Fixpoint insert_sorted {A} (before : A -> A -> bool) (x : A) (l : list A) : list A :=
  match l with
  | [] => [x]
  | y :: l' => if before x y then x :: l else y :: insert_sorted before x l'
  end.

Definition sorted {A} (before : A -> A -> bool) (l : list A) : list A :=
  foldr (insert_sorted before) [] l.

(** Number of cells of [l] equal to [v]. *)
Definition occurrences (v : string) (l : list string) : nat :=
  length (List.filter (String.eqb v) l).

(** [s.value_counts()]: each distinct value with its count, the most
    frequent first; values that tie keep their order of first appearance. *)
Definition value_counts (l : list string) : list (string * nat) :=
  sorted (fun a b => snd b <=? snd a)
         (map (fun v => (v, occurrences v l)) (unique String.eqb l)).

(** ** The filter engine ([apply_filters]) *)

(** The test [filters.get(k) and filters[k] != 'All']. *)
Definition selected (filters : gmap string pyval) (k : string) : result bool :=
  if truthy (dict_get filters k)
  then v ← dict_item filters k; mret (negb (py_eq v (PStr "All")))
  else mret false.

(** [df[(df[c1] == v) | (df[c2] == v)]]. *)
Definition either_equals (df : DataFrame) (c1 c2 : string) (v : pyval) : result DataFrame :=
  s1 ← getitem_str df c1;
  s2 ← getitem_str df c2;
  mret (boolean_index df (mask_or (map (str_cell_eq v) s1) (map (str_cell_eq v) s2))).

(** [df[(df[c1] > 0) | (df[c2] > 0)]]. *)
Definition either_positive (df : DataFrame) (c1 c2 : string) : result DataFrame :=
  s1 ← getitem_num df c1;
  s2 ← getitem_num df c2;
  mret (boolean_index df (mask_or (map num_cell_gt0 s1) (map num_cell_gt0 s2))).

(** The five blocks of [apply_filters], each from the frame the block
    before it left. *)

(* Borough filter *)
Definition borough_filter (filters : gmap string pyval) (filtered_df : DataFrame)
    : result DataFrame :=
  sel ← selected filters "borough";
  if sel : bool then
    v ← dict_item filters "borough";
    s ← getitem_str filtered_df "BOROUGH";
    mret (boolean_index filtered_df (map (str_cell_eq v) s))
  else mret filtered_df.

(* Year filter *)
Definition year_filter (filters : gmap string pyval) (filtered_df : DataFrame)
    : result DataFrame :=
  sel ← selected filters "year";
  if sel : bool then
    v ← dict_item filters "year";
    if is_int_or_float v then
      s ← getitem_num filtered_df "CRASH_YEAR";
      mret (boolean_index filtered_df (map (num_cell_eq v) s))
    else mret filtered_df
  else mret filtered_df.

(* Vehicle type filter *)
Definition vehicle_type_filter (filters : gmap string pyval) (filtered_df : DataFrame)
    : result DataFrame :=
  sel ← selected filters "vehicle_type";
  if sel : bool then
    v ← dict_item filters "vehicle_type";
    either_equals filtered_df "VEHICLE_TYPE_CODE_1" "VEHICLE_TYPE_CODE_2" v
  else mret filtered_df.

(* Contributing factor filter *)
Definition contributing_factor_filter (filters : gmap string pyval)
    (filtered_df : DataFrame) : result DataFrame :=
  sel ← selected filters "contributing_factor";
  if sel : bool then
    v ← dict_item filters "contributing_factor";
    either_equals filtered_df
      "CONTRIBUTING_FACTOR_VEHICLE_1" "CONTRIBUTING_FACTOR_VEHICLE_2" v
  else mret filtered_df.

(* Injury type filter *)
Definition injury_type_filter (filters : gmap string pyval) (filtered_df : DataFrame)
    : result DataFrame :=
  sel ← selected filters "injury_type";
  if sel : bool then
    v ← dict_item filters "injury_type";
    if py_eq v (PStr "Pedestrian") then
      either_positive filtered_df
        "NUMBER_OF_PEDESTRIANS_INJURED" "NUMBER_OF_PEDESTRIANS_KILLED"
    else if py_eq v (PStr "Cyclist") then
      either_positive filtered_df
        "NUMBER_OF_CYCLIST_INJURED" "NUMBER_OF_CYCLIST_KILLED"
    else if py_eq v (PStr "Motorist") then
      either_positive filtered_df
        "NUMBER_OF_MOTORIST_INJURED" "NUMBER_OF_MOTORIST_KILLED"
    else mret filtered_df
  else mret filtered_df.

Definition apply_filters (df : DataFrame) (filters : gmap string pyval) : result DataFrame :=
  let filtered_df := df in
  filtered_df ← borough_filter filters filtered_df;
  filtered_df ← year_filter filters filtered_df;
  filtered_df ← vehicle_type_filter filters filtered_df;
  filtered_df ← contributing_factor_filter filters filtered_df;
  filtered_df ← injury_type_filter filters filtered_df;
  mret filtered_df.

(** ** The categorical normalizer ([get_dropdown_options]) *)

(** The returned dict, one field per key. *)
Record Options := mkOptions {
  opt_boroughs : list string;
  opt_years : list Z;
  opt_vehicle_types : list string;
  opt_contributing_factors : list string;
  opt_injury_types : list string
}.

Definition injury_types : list string := ["All"; "Pedestrian"; "Cyclist"; "Motorist"].

Definition member (x : string) (l : list string) : bool := existsb (String.eqb x) l.

(** [int(x)] of a float: truncation towards zero. *)
Definition int_of_float (q : Q) : Z := Z.quot (Qnum q) (Z.pos (Qden q)).

Definition vehicle_invalid_patterns : list string :=
  [""; "nan"; "None"; "Unknown"; "-"; ".";
   "0"; "1"; "2"; "3"; "4"; "5"; "6"; "7"; "8"; "9"].

(** The test a stripped vehicle type has to pass. *)
Definition valid_vehicle (v_str : string) : bool :=
  negb (String.eqb v_str "")
  && negb (member v_str vehicle_invalid_patterns)
  && (4 <=? String.length v_str)
  && negb (Str.isdigit v_str)
  && negb (Str.startswith "'" v_str)
  && negb (Str.startswith "(" v_str)
  && negb (Str.first_isdigit v_str)
  && (2 <=? Str.count_chars Str.is_alpha v_str).

Definition factor_invalid_patterns : list string :=
  [""; "nan"; "None"; "Unspecified"; "Unknown"; "-"; "."; "0"; "1"; "2"].

(** The test a stripped contributing factor has to pass. *)
Definition valid_factor (f_str : string) : bool :=
  negb (String.eqb f_str "")
  && negb (member f_str factor_invalid_patterns)
  && (3 <? String.length f_str)
  && negb (Str.isdigit f_str)
  && negb (Str.all_chars (fun c => negb (Str.is_alpha c)) f_str).

(** [l.remove(x)]: drops the first [x], [ValueError] when there is none. *)
Fixpoint list_remove (x : string) (l : list string) : result (list string) :=
  match l with
  | [] => Raise ValueError
  | y :: l' =>
      if String.eqb y x then Ok l'
      else l'' ← list_remove x l'; mret (y :: l'')
  end.

(** One round of the loop that removes case-insensitive duplicates; the
    state is [seen_lower] and [deduplicated]. *)
Definition dedup_step (count : string -> nat)
    (st : gmap string string * list string) (v_type : string)
    : result (gmap string string * list string) :=
  let '(seen_lower, deduplicated) := st in
  let v_lower := Str.lower v_type in
  match seen_lower !! v_lower with
  | None => mret (<[v_lower := v_type]> seen_lower, deduplicated ++ [v_type])
  | Some existing =>
      if count existing <? count v_type then
        deduplicated ← list_remove existing deduplicated;
        mret (<[v_lower := v_type]> seen_lower, deduplicated ++ [v_type])
      else mret st
  end.

Fixpoint dedup_loop (count : string -> nat)
    (st : gmap string string * list string) (l : list string)
    : result (gmap string string * list string) :=
  match l with
  | [] => mret st
  | v_type :: l' => st' ← dedup_step count st v_type; dedup_loop count st' l'
  end.

(** [(count x, x) <= (count y, y)] on tuples. *)
Definition key_leb (count : string -> nat) (x y : string) : bool :=
  (count x <? count y) || ((count x =? count y) && Str.leb x y).

Definition vehicle_options (df : DataFrame) : result (list string) :=
  s1 ← getitem_str df "VEHICLE_TYPE_CODE_1";
  s2 ← getitem_str df "VEHICLE_TYPE_CODE_2";
  let all_vehicles := dropna (s1 ++ s2) in
  let vehicle_counts := value_counts all_vehicles in
  let count x := occurrences x all_vehicles in
  let valid_vehicle_types :=
    List.filter valid_vehicle (map (fun vc => Str.strip (fst vc)) vehicle_counts) in
  '(_, deduplicated) ← dedup_loop count (∅, []) valid_vehicle_types;
  let sorted_types :=
    take 50 (sorted (fun x y => key_leb count y x) deduplicated) in
  mret (sorted Str.leb sorted_types).

Definition factor_options (df : DataFrame) : result (list string) :=
  s1 ← getitem_str df "CONTRIBUTING_FACTOR_VEHICLE_1";
  let f1 := unique String.eqb (dropna s1) in
  f2 ← (if has_column df "CONTRIBUTING_FACTOR_VEHICLE_2"
        then s2 ← getitem_str df "CONTRIBUTING_FACTOR_VEHICLE_2";
             mret (unique String.eqb (dropna s2))
        else mret []);
  let factors :=
    List.filter (fun f_encoded => negb (String.eqb f_encoded ""))
      (List.filter valid_factor (map Str.strip (unique String.eqb (f1 ++ f2)))) in
  mret (sorted Str.leb (unique String.eqb factors)).

Definition borough_options (df : DataFrame) : result (list string) :=
  s ← getitem_str df "BOROUGH";
  let boroughs :=
    List.filter (fun b => negb (String.eqb b "") && negb (String.eqb (Str.strip b) ""))
      (unique String.eqb (dropna s)) in
  mret (sorted Str.leb boroughs).

Definition year_options (df : DataFrame) : result (list Z) :=
  s ← getitem_num df "CRASH_YEAR";
  let years_list :=
    map int_of_float
      (List.filter (fun year_val => Qle_bool 1900 year_val && Qle_bool year_val 2100)
         (unique Qeq_bool (dropna s))) in
  mret (sorted Z.leb (unique Z.eqb years_list)).

Definition get_dropdown_options (df : DataFrame) : result Options :=
  if empty df then mret (mkOptions [] [] [] [] injury_types)
  else
    boroughs ← (if has_column df "BOROUGH" then borough_options df else mret []);
    years ← (if has_column df "CRASH_YEAR" then year_options df else mret []);
    vehicle_types ←
      (if has_column df "VEHICLE_TYPE_CODE_1" then vehicle_options df else mret []);
    contributing_factors ←
      (if has_column df "CONTRIBUTING_FACTOR_VEHICLE_1" then factor_options df
       else mret []);
    mret (mkOptions boroughs years vehicle_types contributing_factors injury_types).

(** ** Summary statistics ([calculate_summary_stats]) *)

(** The numbers shown on the stat cards. *)
Record Stats := mkStats {
  total_crashes : nat;
  total_injured : Q;
  total_killed : Q;
  avg_injured : Q;
  avg_killed : Q
}.

(** [s.sum()]: missing cells are skipped; the empty sum is 0. *)
Definition series_sum (s : list (option Q)) : Q :=
  foldr Qplus 0%Q (dropna s).

(** [a / b]: [ZeroDivisionError] on a zero divisor. *)
Definition truediv (a b : Q) : result Q :=
  if Qeq_bool b 0 then Raise ZeroDivisionError else Ok (a / b)%Q.

(** The total of [col], of [fallback] when [col] is not a column, else 0. *)
Definition column_total (df : DataFrame) (col fallback : string) : result Q :=
  if has_column df col then s ← getitem_num df col; mret (series_sum s)
  else if has_column df fallback then s ← getitem_num df fallback; mret (series_sum s)
  else mret 0%Q.

(** The body of the [try]; the handler leaves the list of cards empty,
    which is [None] here. *)
Definition summary_stats_body (filtered_df : DataFrame) : result Stats :=
  let total_crashes := len filtered_df in
  total_injured ← column_total filtered_df "TOTAL_INJURED" "NUMBER_OF_PERSONS_INJURED";
  total_killed ← column_total filtered_df "TOTAL_KILLED" "NUMBER_OF_PERSONS_KILLED";
  avg_injured ←
    (if 0 <? total_crashes then truediv total_injured (inject_Z (Z.of_nat total_crashes))
     else mret 0%Q);
  avg_killed ←
    (if 0 <? total_crashes then truediv total_killed (inject_Z (Z.of_nat total_crashes))
     else mret 0%Q);
  mret (mkStats total_crashes total_injured total_killed avg_injured avg_killed).

Definition calculate_summary_stats (filtered_df : DataFrame) : option Stats :=
  try_except (stats ← summary_stats_body filtered_df; mret (Some stats)) None.

(** ** The data behind the charts ([create_all_visualizations]) *)

(** [df[col] = values]: sets the cell of every row, adding the column label
    when it is new; a [NaN] value leaves the cell missing. *)
Definition assign_num (df : DataFrame) (col : string) (value : Row -> option Q) : DataFrame :=
  mkDataFrame
    (if has_column df col then columns df else columns df ++ [col])
    (map (fun r => mkRow (strs r)
                     (match value r with
                      | Some v => <[col := v]> (nums r)
                      | None => delete col (nums r)
                      end))
         (rows df)).

(** [TOTAL_INJURED + map_df.get('TOTAL_KILLED', 0) * 10 + 1] on one row. *)
Definition severity_size (df : DataFrame) (r : Row) : option Q :=
  injured ← nums r !! "TOTAL_INJURED";
  killed ← (if has_column df "TOTAL_KILLED" then nums r !! "TOTAL_KILLED" else Some 0%Q);
  Some (injured + killed * 10 + 1)%Q.

Definition max_points : nat := 2000.

Section Sampling.
(** [DataFrame.sample(n, random_state)] belongs to pandas and is a
    parameter here: [sample n random_state g l] draws [n] of the rows [l],
    [g] being the state of the global random generator. *)
Context {rng : Type}.
Variable sample : nat -> option Z -> rng -> list Row -> list Row.

(** The body of the [try] of chart 6 up to the frame handed to the map. *)
Definition map_df_body (g : rng) (filtered_df : DataFrame) : result (option DataFrame) :=
  lat ← getitem_num filtered_df "LATITUDE";
  lon ← getitem_num filtered_df "LONGITUDE";
  let map_df :=
    boolean_index filtered_df
      (mask_and (mask_and (mask_and (map notna lat) (map notna lon))
                          (map num_cell_ne0 lat))
                (map num_cell_ne0 lon)) in
  if 0 <? len map_df then
    let map_df :=
      if max_points <? len map_df
      then mkDataFrame (columns map_df) (sample max_points (Some 42%Z) g (rows map_df))
      else map_df in
    let map_df :=
      if has_column map_df "TOTAL_INJURED"
      then assign_num map_df "size" (severity_size map_df)
      else assign_num map_df "size" (fun _ => Some 3%Q) in
    mret (Some map_df)
  else mret None.

(** The geolocation series: the frame of the map, [None] when the chart
    is left out. *)
Definition map_df (g : rng) (filtered_df : DataFrame) : option DataFrame :=
  if has_column filtered_df "LATITUDE" && has_column filtered_df "LONGITUDE"
  then try_except (map_df_body g filtered_df) None
  else None.
End Sampling.

(** The records that qualify for the map: both coordinates present and
    not zero. *)
Definition has_location (r : Row) : bool :=
  notna (nums r !! "LATITUDE") && notna (nums r !! "LONGITUDE")
  && num_cell_ne0 (nums r !! "LATITUDE") && num_cell_ne0 (nums r !! "LONGITUDE").

(** The body of the [try] of chart 7 up to [factor_counts]. *)
Definition factor_counts_body (filtered_df : DataFrame) : result (option (list (string * nat))) :=
  s1 ← getitem_str filtered_df "CONTRIBUTING_FACTOR_VEHICLE_1";
  s2 ← getitem_str filtered_df "CONTRIBUTING_FACTOR_VEHICLE_2";
  let factors := dropna (s1 ++ s2) in
  let factors := List.filter (fun f => negb (String.eqb f "Unspecified")) factors in
  if 0 <? length factors
  then mret (Some (take 10 (value_counts factors)))
  else mret None.

(** The contributing-factor series, [None] when the chart is left out. *)
Definition factor_counts (filtered_df : DataFrame) : option (list (string * nat)) :=
  if has_column filtered_df "CONTRIBUTING_FACTOR_VEHICLE_1"
  then try_except (factor_counts_body filtered_df) None
  else None.

(** The cells of the two factor columns, the first column's before the
    second's, as [pd.concat] lays them out. *)
Definition pooled_factors (df : DataFrame) : list string :=
  dropna (map (fun r => strs r !! "CONTRIBUTING_FACTOR_VEHICLE_1") (rows df)
          ++ map (fun r => strs r !! "CONTRIBUTING_FACTOR_VEHICLE_2") (rows df)).

(** ** Auxiliary definitions of the statements *)

(** What ends up under each key of the parsed dict. *)
Definition found_value (found : option string) : pyval :=
  match found with
  | Some value => PStr value
  | None => PNone
  end.

Definition injury_of (query_lower : string) : pyval :=
  if Str.contains "pedestrian" query_lower then PStr "Pedestrian"
  else if Str.contains "cyclist" query_lower || Str.contains "bicycle" query_lower
  then PStr "Cyclist"
  else if Str.contains "motorist" query_lower || Str.contains "driver" query_lower
  then PStr "Motorist"
  else PNone.

Definition year_of (query : string) : pyval :=
  match re_search year_re_at query with
  | Some _ =>
      match re_search full_year_re_at query with
      | Some group =>
          match py_int group with
          | Ok year => PInt year
          | Raise _ => PNone
          end
      | None => PNone
      end
  | None => PNone
  end.

(** The pattern [(19|20)\d\d] on a text of four characters. *)
Definition year_pattern (t : string) : bool :=
  match t with
  | String a (String b (String c (String d EmptyString))) =>
      ((Ascii.eqb a "1" && Ascii.eqb b "9") || (Ascii.eqb a "2" && Ascii.eqb b "0"))
      && Str.is_decimal c && Str.is_decimal d
  | _ => false
  end.

(** Whether there is a character and it is a word character. *)
Definition is_word_opt (c : option ascii) : bool := from_option Str.is_word false c.

(** Position [i] of [s] starts four characters that match the pattern and
    have no word character next to them on either side; [prev] is the
    character before [s]. *)
Definition bounded_from (prev : option ascii) (s : string) (i : nat) : bool :=
  year_pattern (substring i 4 s)
  && negb (is_word_opt (match i with 0 => prev | S j => String.get j s end))
  && negb (is_word_opt (String.get (i + 4) s)).

(** The same for a whole query. *)
Definition bounded_year_at (query : string) (i : nat) : bool :=
  bounded_from None query i.

(** The year extraction as the specification words it: the first four
    characters of the query that match the pattern, delimited or not. *)
Fixpoint spec_first_year (query : string) : option string :=
  if year_pattern (substring 0 4 query) then Some (substring 0 4 query)
  else match query with
       | EmptyString => None
       | String _ rest => spec_first_year rest
       end.

(** The value of a filter that takes part: truthy and not "All". *)
Definition active (filters : gmap string pyval) (k : string) : option pyval :=
  match filters !! k with
  | Some v => if truthy v && negb (py_eq v (PStr "All")) then Some v else None
  | None => None
  end.

(** A filtering step as a test on rows: the columns it reads and the rows
    it keeps. *)
Definition row_step (cols : list string) (keep : Row -> bool) (df : DataFrame)
    : result DataFrame :=
  if forallb (has_column df) cols
  then Ok (mkDataFrame (columns df) (List.filter keep (rows df)))
  else Raise KeyError.

Definition str_equals (col : string) (v : pyval) (r : Row) : bool :=
  str_cell_eq v (strs r !! col).
Definition num_equals (col : string) (v : pyval) (r : Row) : bool :=
  num_cell_eq v (nums r !! col).
Definition positive (col : string) (r : Row) : bool :=
  num_cell_gt0 (nums r !! col).

Definition plan := (list string * (Row -> bool))%type.
Definition no_constraint : plan := ([], fun _ => true).

Definition borough_plan (filters : gmap string pyval) : plan :=
  match active filters "borough" with
  | Some v => (["BOROUGH"], str_equals "BOROUGH" v)
  | None => no_constraint
  end.

Definition year_plan (filters : gmap string pyval) : plan :=
  match active filters "year" with
  | Some v =>
      if is_int_or_float v then (["CRASH_YEAR"], num_equals "CRASH_YEAR" v)
      else no_constraint
  | None => no_constraint
  end.

Definition either_plan (filters : gmap string pyval) (k c1 c2 : string) : plan :=
  match active filters k with
  | Some v => ([c1; c2], fun r => str_equals c1 v r || str_equals c2 v r)
  | None => no_constraint
  end.

Definition casualty_plan (c1 c2 : string) : plan :=
  ([c1; c2], fun r => positive c1 r || positive c2 r).

Definition injury_plan (filters : gmap string pyval) : plan :=
  match active filters "injury_type" with
  | Some v =>
      if py_eq v (PStr "Pedestrian") then
        casualty_plan "NUMBER_OF_PEDESTRIANS_INJURED" "NUMBER_OF_PEDESTRIANS_KILLED"
      else if py_eq v (PStr "Cyclist") then
        casualty_plan "NUMBER_OF_CYCLIST_INJURED" "NUMBER_OF_CYCLIST_KILLED"
      else if py_eq v (PStr "Motorist") then
        casualty_plan "NUMBER_OF_MOTORIST_INJURED" "NUMBER_OF_MOTORIST_KILLED"
      else no_constraint
  | None => no_constraint
  end.

Definition filter_plans (filters : gmap string pyval) : list plan :=
  [ borough_plan filters; year_plan filters;
    either_plan filters "vehicle_type" "VEHICLE_TYPE_CODE_1" "VEHICLE_TYPE_CODE_2";
    either_plan filters "contributing_factor"
      "CONTRIBUTING_FACTOR_VEHICLE_1" "CONTRIBUTING_FACTOR_VEHICLE_2";
    injury_plan filters ].

(** The columns a criteria record reads and the rows it keeps. *)
Definition columns_read (filters : gmap string pyval) : list string :=
  concat (map fst (filter_plans filters)).

Definition row_matches (filters : gmap string pyval) (r : Row) : bool :=
  forallb (fun p : plan => snd p r) (filter_plans filters).

(** Filtering steps run one after the other. *)
Fixpoint run_steps (steps : list (DataFrame -> result DataFrame)) (df : DataFrame)
    : result DataFrame :=
  match steps with
  | [] => mret df
  | step :: steps' => df' ← step df; run_steps steps' df'
  end.

(** A criteria field that imposes no constraint: missing, [None] or "All". *)
Definition unconstrained (filters : gmap string pyval) (k : string) : Prop :=
  filters !! k = None \/ filters !! k = Some PNone \/ filters !! k = Some (PStr "All").

Definition criteria_keys : list string :=
  ["borough"; "year"; "vehicle_type"; "contributing_factor"; "injury_type"].

(** The columns [apply_filters] may read. *)
Definition filter_columns : list string :=
  [ "BOROUGH"; "CRASH_YEAR"; "VEHICLE_TYPE_CODE_1"; "VEHICLE_TYPE_CODE_2";
    "CONTRIBUTING_FACTOR_VEHICLE_1"; "CONTRIBUTING_FACTOR_VEHICLE_2";
    "NUMBER_OF_PEDESTRIANS_INJURED"; "NUMBER_OF_PEDESTRIANS_KILLED";
    "NUMBER_OF_CYCLIST_INJURED"; "NUMBER_OF_CYCLIST_KILLED";
    "NUMBER_OF_MOTORIST_INJURED"; "NUMBER_OF_MOTORIST_KILLED" ].

(** A small data set: three crashes in Brooklyn in 2021 and two in Queens
    in 2022. *)
Definition crash (borough : string) (year : Z) (vehicle factor : string)
    (pedestrians_injured : Z) : Row :=
  mkRow
    (<["BOROUGH" := borough]> (<["VEHICLE_TYPE_CODE_1" := vehicle]>
      (<["CONTRIBUTING_FACTOR_VEHICLE_1" := factor]> ∅)))
    (<["CRASH_YEAR" := inject_Z year]>
      (<["NUMBER_OF_PEDESTRIANS_INJURED" := inject_Z pedestrians_injured]> ∅)).

Definition five_crashes : DataFrame :=
  mkDataFrame filter_columns
    [ crash "BROOKLYN" 2021 "Sedan" "Unsafe Speed" 1;
      crash "QUEENS" 2022 "Sedan" "Unspecified" 0;
      crash "BROOKLYN" 2021 "Taxi" "Alcohol Involvement" 0;
      crash "QUEENS" 2022 "Bike" "Unsafe Speed" 2;
      crash "BROOKLYN" 2021 "Sedan" "Unspecified" 0 ].

(** The injury types the filter knows. *)
Definition known_injury_type (v : pyval) : bool :=
  py_eq v (PStr "Pedestrian") || py_eq v (PStr "Cyclist") || py_eq v (PStr "Motorist").

(** The cells of a number column, in row order. *)
Definition num_cells (df : DataFrame) (col : string) : list (option Q) :=
  map (fun r => nums r !! col) (rows df).

(** The total of [col], falling back on [fallback] and then on 0, as a
    function of the columns present. *)
Definition total_of (df : DataFrame) (col fallback : string) : Q :=
  if has_column df col then series_sum (num_cells df col)
  else if has_column df fallback then series_sum (num_cells df fallback)
  else 0%Q.

(** Two crashes with 3 and 2 injured. *)
Definition two_crashes : DataFrame :=
  mkDataFrame ["TOTAL_INJURED"; "TOTAL_KILLED"]
    [ mkRow ∅ (<["TOTAL_INJURED" := 3%Q]> (<["TOTAL_KILLED" := 0%Q]> ∅));
      mkRow ∅ (<["TOTAL_INJURED" := 2%Q]> (<["TOTAL_KILLED" := 1%Q]> ∅)) ].

(** The factor cells that are counted: the pooled cells other than
    "Unspecified". *)
Definition counted_factors (df : DataFrame) : list string :=
  List.filter (fun f => negb (String.eqb f "Unspecified")) (pooled_factors df).

(** The non-missing cells of a text column, in row order. *)
Definition str_cells (df : DataFrame) (col : string) : list string :=
  dropna (map (fun r => strs r !! col) (rows df)).

(** The order of a ranking by count, the most frequent first. *)
Definition by_count_desc (a b : string * nat) : Prop := snd b <= snd a.

(** The [size] column of the map frame. *)
Definition assign_size (map_df : DataFrame) : DataFrame :=
  if has_column map_df "TOTAL_INJURED"
  then assign_num map_df "size" (severity_size map_df)
  else assign_num map_df "size" (fun _ => Some 3%Q).

(** A sampler to try the contract of [DataFrame.sample] on: the generator
    state is an integer, a seed replaces it, and the sample is the first
    [n] rows after rotating the frame by that integer. *)
Definition rotating_sample (n : nat) (random_state : option Z) (g : Z)
    (l : list Row) : list Row :=
  take n (rotate (Z.to_nat (default g random_state)) l).

(** Three thousand crashes at one street corner. *)
Definition located_crash : Row :=
  mkRow (<["BOROUGH" := "MANHATTAN"]> ∅)
        (<["LATITUDE" := (407128 # 10000)%Q]> (<["LONGITUDE" := (-740060 # 10000)%Q]> ∅)).

Definition three_thousand_crashes : DataFrame :=
  mkDataFrame ["BOROUGH"; "LATITUDE"; "LONGITUDE"] (replicate 3000 located_crash).

(** The state of the duplicate-removal loop is sound when every label
    recorded in [seen_lower] is in [deduplicated] and stands under its own
    lower-cased form. *)
Definition dedup_sound (st : gmap string string * list string) : Prop :=
  forall k v, st.1 !! k = Some v -> In v st.2 /\ Str.lower v = k.

(** A frame that only has the first contributing-factor column, and one
    that only has the first vehicle-type column. *)
Definition first_factor_only : DataFrame :=
  mkDataFrame ["CONTRIBUTING_FACTOR_VEHICLE_1"]
    [ mkRow (<["CONTRIBUTING_FACTOR_VEHICLE_1" := "Unsafe Speed"]> ∅) ∅ ].

Definition first_vehicle_only : DataFrame :=
  mkDataFrame ["VEHICLE_TYPE_CODE_1"]
    [ mkRow (<["VEHICLE_TYPE_CODE_1" := "Sedan"]> ∅) ∅ ].

(** ** The search callback ([apply_search]) *)

(** [v if v else 'All']. *)
Definition or_all (v : pyval) : pyval := if truthy v then v else PStr "All".

(** The values the callback puts in the five dropdowns; [n_clicks] is not
    looked at. *)
Definition apply_search (n_clicks : pyval) (search_query : string)
    : result (pyval * pyval * pyval * pyval * pyval) :=
  if negb (truthy (PStr search_query))
  then mret (PStr "All", PStr "All", PStr "All", PStr "All", PStr "All")
  else
    let filters := parse_search_query search_query in
    borough ← dict_item filters "borough";
    year ← dict_item filters "year";
    vehicle_type ← dict_item filters "vehicle_type";
    contributing_factor ← dict_item filters "contributing_factor";
    injury_type ← dict_item filters "injury_type";
    mret (or_all borough, or_all year, or_all vehicle_type,
          or_all contributing_factor, or_all injury_type).

(** The dict [update_visualizations] collects from the five dropdowns. *)
Definition collect_filters (borough year vehicle_type contributing_factor
    injury_type : pyval) : gmap string pyval :=
  <["borough" := borough]> (<["year" := year]> (<["vehicle_type" := vehicle_type]>
    (<["contributing_factor" := contributing_factor]>
      (<["injury_type" := injury_type]> ∅)))).

(** The words the injury-type chain looks for. *)
Definition injury_keywords : list string :=
  ["pedestrian"; "cyclist"; "bicycle"; "motorist"; "driver"].

(** The labels a keyword table can give. *)
Definition labels (table : list (string * string)) : list string := map snd table.

(** A frame without the borough column. *)
Definition no_borough_column : DataFrame :=
  mkDataFrame ["CRASH_YEAR"] [ mkRow ∅ (<["CRASH_YEAR" := 2021%Q]> ∅) ].

(** A frame whose year column holds a duplicate, a year out of range and a
    missing cell. *)
Definition noisy_years : DataFrame :=
  mkDataFrame ["CRASH_YEAR"]
    [ mkRow ∅ (<["CRASH_YEAR" := 2022%Q]> ∅);
      mkRow ∅ (<["CRASH_YEAR" := 1492%Q]> ∅);
      mkRow ∅ ∅;
      mkRow ∅ (<["CRASH_YEAR" := 2019%Q]> ∅);
      mkRow ∅ (<["CRASH_YEAR" := 2022%Q]> ∅) ].

(** The state of the duplicate-removal loop over the labels [input] keeps
    this invariant: [seen_lower] maps the lower-cased form of each label of
    [deduplicated] to that label and holds nothing else, the labels of
    [deduplicated] come from [input], and no two of them have the same
    lower-cased form. *)
Definition dedup_invariant (input : list string)
    (st : gmap string string * list string) : Prop :=
  (forall k v, st.1 !! k = Some v -> In v st.2 /\ Str.lower v = k)
  /\ (forall v, In v st.2 -> st.1 !! Str.lower v = Some v /\ In v input)
  /\ NoDup (map Str.lower st.2).

(** The vehicle types of the specification's example: "SEDAN" ten times,
    "Sedan" seven times, "sedan" three times, one "4" and one empty cell. *)
Definition sedan_spellings : DataFrame :=
  mkDataFrame ["VEHICLE_TYPE_CODE_1"; "VEHICLE_TYPE_CODE_2"]
    (replicate 10 (mkRow (<["VEHICLE_TYPE_CODE_1" := "SEDAN"]> ∅) ∅)
     ++ replicate 3 (mkRow (<["VEHICLE_TYPE_CODE_1" := "sedan"]> ∅) ∅)
     ++ [mkRow (<["VEHICLE_TYPE_CODE_1" := "4"]> ∅) ∅;
         mkRow (<["VEHICLE_TYPE_CODE_1" := ""]> ∅) ∅]
     ++ replicate 7 (mkRow (<["VEHICLE_TYPE_CODE_1" := "Sedan"]> ∅) ∅)).

(** ** Charts 1 and 4 of [create_all_visualizations] *)

(** Chart 1: [filtered_df['BOROUGH'].value_counts()], which leaves missing
    cells out; [None] when the chart is left out. *)
Definition borough_counts (filtered_df : DataFrame) : option (list (string * nat)) :=
  if has_column filtered_df "BOROUGH"
     && (0 <? length (dropna (map (fun r => strs r !! "BOROUGH") (rows filtered_df))))
  then try_except
         (s ← getitem_str filtered_df "BOROUGH"; mret (Some (value_counts (dropna s))))
         None
  else None.

(** [((df[c1] > 0) | (df[c2] > 0)).sum()]: the number of true entries. *)
Definition count_either_positive (df : DataFrame) (c1 c2 : string) : result nat :=
  s1 ← getitem_num df c1;
  s2 ← getitem_num df c2;
  mret (length (List.filter id (mask_or (map num_cell_gt0 s1) (map num_cell_gt0 s2)))).

(** One [if] block of chart 4: when the injured column of the type exists,
    count and append the type if the count is positive. *)
Definition add_injury_type (filtered_df : DataFrame) (label injured killed : string)
    (injury_data : list (string * nat)) : result (list (string * nat)) :=
  if has_column filtered_df injured then
    count ← count_either_positive filtered_df injured killed;
    if 0 <? count then mret (injury_data ++ [(label, count)]) else mret injury_data
  else mret injury_data.

(** Chart 4: the rows of [injury_df]; [None] when the chart is left out,
    for lack of data or because the [try] caught an exception. *)
Definition injury_data (filtered_df : DataFrame) : option (list (string * nat)) :=
  try_except
    (injury_data ← add_injury_type filtered_df "Pedestrian"
                     "NUMBER_OF_PEDESTRIANS_INJURED" "NUMBER_OF_PEDESTRIANS_KILLED" [];
     injury_data ← add_injury_type filtered_df "Cyclist"
                     "NUMBER_OF_CYCLIST_INJURED" "NUMBER_OF_CYCLIST_KILLED" injury_data;
     injury_data ← add_injury_type filtered_df "Motorist"
                     "NUMBER_OF_MOTORIST_INJURED" "NUMBER_OF_MOTORIST_KILLED" injury_data;
     mret (match injury_data with [] => None | _ => Some injury_data end))
    None.

(** The sum of the counts of a series. *)
Definition total_count (series : list (string * nat)) : nat :=
  foldr (fun vc acc => snd vc + acc) 0 series.

(** Two crashes with a location, one with latitude 0 and one without
    coordinates; the injured column gives the sizes of the points. *)
Definition four_places : DataFrame :=
  mkDataFrame ["LATITUDE"; "LONGITUDE"; "TOTAL_INJURED"]
    [ mkRow ∅ (<["LATITUDE" := (407128 # 10000)%Q]>
                 (<["LONGITUDE" := (-740060 # 10000)%Q]> (<["TOTAL_INJURED" := 2%Q]> ∅)));
      mkRow ∅ (<["LATITUDE" := 0%Q]> (<["LONGITUDE" := (-740060 # 10000)%Q]> ∅));
      mkRow ∅ ∅;
      mkRow ∅ (<["LATITUDE" := (406782 # 10000)%Q]>
                 (<["LONGITUDE" := (-739442 # 10000)%Q]> ∅)) ].

(** The columns the stat cards add up. *)
Definition casualty_columns : list string :=
  ["TOTAL_INJURED"; "NUMBER_OF_PERSONS_INJURED"; "TOTAL_KILLED"; "NUMBER_OF_PERSONS_KILLED"].

(** A borough with three injured, and one with two injured and one killed. *)
Definition borough_casualties : DataFrame :=
  mkDataFrame ["BOROUGH"; "TOTAL_INJURED"; "TOTAL_KILLED"]
    [ mkRow (<["BOROUGH" := "QUEENS"]> ∅)
            (<["TOTAL_INJURED" := 3%Q]> (<["TOTAL_KILLED" := 0%Q]> ∅));
      mkRow (<["BOROUGH" := "BROOKLYN"]> ∅)
            (<["TOTAL_INJURED" := 2%Q]> (<["TOTAL_KILLED" := 1%Q]> ∅)) ].

(** ** The report callback ([update_visualizations]) *)

(** What the callback returns: one of its three messages, each with an
    empty list of stat cards, or the report.  The report stands here for
    the frame handed to [create_all_visualizations] together with the
    numbers of [calculate_summary_stats]; [df] is the global data set. *)
Inductive page :=
  | NoDataAvailable
  | ErrorApplyingFilters (e : exn)
  | NoDataMatchesFilters
  | Report (filtered_df : DataFrame) (summary_stats : option Stats).

Definition update_visualizations (df : DataFrame)
    (n_clicks borough year vehicle_type contributing_factor injury_type : pyval) : page :=
  if empty df || (len df =? 0) then NoDataAvailable
  else
    let filters :=
      collect_filters borough year vehicle_type contributing_factor injury_type in
    match apply_filters df filters with
    | Raise e => ErrorApplyingFilters e
    | Ok filtered_df =>
        if len filtered_df =? 0 then NoDataMatchesFilters
        else Report filtered_df (calculate_summary_stats filtered_df)
    end.

(** ** Chart 2 of [create_all_visualizations] *)

(** Chart 2: [filtered_df.groupby('CRASH_YEAR').size()]: one entry per
    distinct year in ascending order of the years, with the number of
    records of that year; records without a year belong to no group.
    [None] when the chart is left out. *)
Definition year_counts (filtered_df : DataFrame) : option (list (Q * nat)) :=
  if has_column filtered_df "CRASH_YEAR"
     && (0 <? length (dropna (map (fun r => nums r !! "CRASH_YEAR") (rows filtered_df))))
  then try_except
         (s ← getitem_num filtered_df "CRASH_YEAR";
          let years := dropna s in
          mret (Some (map (fun year => (year, length (List.filter (Qeq_bool year) years)))
                          (sorted Qle_bool (unique Qeq_bool years)))))
         None
  else None.

(** The sum of the counts of a year series. *)
Definition total_size (series : list (Q * nat)) : nat :=
  foldr (fun yc acc => snd yc + acc) 0 series.

(** * Properties *)

(** ** The query parser *)

Lemma contains_empty_hay needle :
  needle ≠ "" -> Str.contains needle "" = false.
Proof. destruct needle; [congruence | reflexivity]. Qed.

Lemma first_keyword_split table query_lower earlier key value later :
  table = earlier ++ (key, value) :: later ->
  Forall (fun kv => Str.contains kv.1 query_lower = false) earlier ->
  Str.contains key query_lower = true ->
  first_keyword table query_lower = Some value.
Proof.
  intros -> Hearlier Hkey.
  induction Hearlier as [|[k v] earlier Hk _ IH]; simpl.
  - by rewrite Hkey.
  - simpl in Hk. by rewrite Hk.
Qed.

Lemma first_keyword_none table query_lower :
  Forall (fun kv => Str.contains kv.1 query_lower = false) table ->
  first_keyword table query_lower = None.
Proof.
  induction 1 as [|[k v] table Hk _ IH]; simpl; [done|].
  simpl in Hk. by rewrite Hk.
Qed.

Lemma parse_search_query_fields query :
  parse_search_query query
  = <["borough" := found_value (first_keyword boroughs (Str.lower query))]>
      (<["year" := year_of query]>
        (<["vehicle_type" := found_value (first_keyword vehicle_keywords (Str.lower query))]>
          (<["contributing_factor" :=
               found_value (first_keyword factor_keywords (Str.lower query))]>
            (<["injury_type" := injury_of (Str.lower query)]> ∅)))).
Proof.
  destruct query as [|c query]; [reflexivity|].
  unfold parse_search_query, year_of, injury_of, no_filters.
  change (truthy (PStr (String c query))) with true. cbv beta iota delta [negb].
  generalize (Str.lower (String c query)) as query_lower.
  generalize (String c query) as q. clear. intros q query_lower.
  destruct (first_keyword boroughs query_lower),
    (first_keyword vehicle_keywords query_lower),
    (first_keyword factor_keywords query_lower),
    (re_search year_re_at q),
    (re_search full_year_re_at q) as [group|];
    try destruct (py_int group);
    destruct (Str.contains "pedestrian" query_lower),
      (Str.contains "cyclist" query_lower || Str.contains "bicycle" query_lower),
      (Str.contains "motorist" query_lower || Str.contains "driver" query_lower);
    reflexivity.
Qed.

Lemma parse_borough query :
  parse_search_query query !! "borough"
  = Some (found_value (first_keyword boroughs (Str.lower query))).
Proof. rewrite parse_search_query_fields. reflexivity. Qed.

Lemma parse_year query :
  parse_search_query query !! "year" = Some (year_of query).
Proof. rewrite parse_search_query_fields. reflexivity. Qed.

Lemma parse_vehicle_type query :
  parse_search_query query !! "vehicle_type"
  = Some (found_value (first_keyword vehicle_keywords (Str.lower query))).
Proof. rewrite parse_search_query_fields. reflexivity. Qed.

Lemma parse_injury_type query :
  parse_search_query query !! "injury_type" = Some (injury_of (Str.lower query)).
Proof. rewrite parse_search_query_fields. reflexivity. Qed.

Lemma is_decimal_word c : Str.is_decimal c = true -> Str.is_word c = true.
Proof.
  intros H. unfold Str.is_word, Str.is_digit. rewrite H.
  by rewrite !orb_true_r.
Qed.

Lemma year_re_at_bounded prev s :
  year_re_at prev s
  = if bounded_from prev s 0 then Some (substring 0 4 s) else None.
Proof.
  unfold bounded_from.
  destruct s as [|a [|b [|c [|d rest]]]]; try reflexivity.
  replace (substring 0 4 (String a (String b (String c (String d rest)))))
    with (String a (String b (String c (String d "")))) by (by destruct rest).
  change (String.get (0 + 4) (String a (String b (String c (String d rest)))))
    with (String.get 0 rest).
  unfold year_re_at, year_pattern, word_boundary, is_word_opt.
  replace (String.get 0 rest) with (head_char rest) by (by destruct rest).
  cbn [from_option].
  destruct (Str.is_decimal d) eqn:Hd; [|by rewrite !andb_false_r].
  rewrite (is_decimal_word d Hd).
  destruct (Ascii.eqb a "1") eqn:Ha1.
  { apply Ascii.eqb_eq in Ha1 as ->. cbn.
    by destruct (from_option Str.is_word false prev), (Ascii.eqb b "9"),
      (Str.is_decimal c), (from_option Str.is_word false (head_char rest)). }
  destruct (Ascii.eqb a "2") eqn:Ha2.
  { apply Ascii.eqb_eq in Ha2 as ->. cbn.
    by destruct (from_option Str.is_word false prev), (Ascii.eqb b "0"),
      (Str.is_decimal c), (from_option Str.is_word false (head_char rest)). }
  cbn. by rewrite !andb_false_r.
Qed.

Lemma full_year_re_at_eq prev s : full_year_re_at prev s = year_re_at prev s.
Proof.
  destruct s as [|a [|b [|c [|d rest]]]]; try reflexivity.
  unfold full_year_re_at, year_re_at.
  by destruct (word_boundary prev (Some a)), (Ascii.eqb a "1"), (Ascii.eqb b "9"),
    (Ascii.eqb a "2"), (Ascii.eqb b "0"), (Str.is_decimal c), (Str.is_decimal d).
Qed.

Lemma re_search_from_unfold re_at prev s :
  re_search_from re_at prev s
  = match re_at prev s with
    | Some m => Some m
    | None =>
        match s with
        | EmptyString => None
        | String c rest => re_search_from re_at (Some c) rest
        end
    end.
Proof. by destruct s. Qed.

Lemma re_search_from_ext re1 re2 prev s :
  (forall p t, re1 p t = re2 p t) ->
  re_search_from re1 prev s = re_search_from re2 prev s.
Proof.
  intros Hext. revert prev.
  induction s as [|c s IH]; intros prev;
    rewrite (re_search_from_unfold re1), (re_search_from_unfold re2), Hext; [done|].
  by rewrite IH.
Qed.

Lemma bounded_from_shift prev c rest i :
  bounded_from prev (String c rest) (S i) = bounded_from (Some c) rest i.
Proof. unfold bounded_from. by destruct i. Qed.

Lemma bounded_from_empty prev i : bounded_from prev "" i = false.
Proof. unfold bounded_from. by destruct i. Qed.

Lemma re_search_from_first prev s i :
  bounded_from prev s i = true ->
  (forall j, j < i -> bounded_from prev s j = false) ->
  re_search_from year_re_at prev s = Some (substring i 4 s).
Proof.
  revert prev s. induction i as [|i IH]; intros prev s Hi Hbefore.
  - by rewrite re_search_from_unfold, year_re_at_bounded, Hi.
  - destruct s as [|c rest]; [by rewrite bounded_from_empty in Hi|].
    rewrite re_search_from_unfold, year_re_at_bounded, (Hbefore 0) by lia.
    rewrite bounded_from_shift in Hi. apply IH; [done|].
    intros j Hj. rewrite <- (bounded_from_shift prev). apply Hbefore. lia.
Qed.

Lemma re_search_from_none prev s :
  (forall i, bounded_from prev s i = false) ->
  re_search_from year_re_at prev s = None.
Proof.
  revert prev. induction s as [|c rest IH]; intros prev Hnone;
    rewrite re_search_from_unfold, year_re_at_bounded, (Hnone 0); [done|].
  apply IH. intros i. rewrite <- (bounded_from_shift prev). apply Hnone.
Qed.

Lemma year_pattern_int t :
  year_pattern t = true ->
  exists year, py_int t = Ok year /\ (1900 <= year <= 2099)%Z.
Proof.
  destruct t as [|a [|b [|c [|d [|]]]]]; try done.
  unfold year_pattern. intros H.
  apply andb_prop in H as [H Hd]. apply andb_prop in H as [H Hc].
  assert (Hrange : forall x, Str.is_decimal x = true ->
            Str.is_decimal x = true /\ (0 <= Z.of_N (Str.code x - 48) <= 9)%Z).
  { intros x Hx. split; [done|]. unfold Str.is_decimal, Str.between in Hx.
    apply andb_prop in Hx as [H1 H2].
    apply N.leb_le in H1, H2. lia. }
  apply Hrange in Hc as [Hc Hc'], Hd as [Hd Hd'].
  apply orb_prop in H as [H|H]; apply andb_prop in H as [Ha Hb];
    apply Ascii.eqb_eq in Ha as ->, Hb as ->;
    cbn; rewrite Hc, Hd; eexists; (split; [reflexivity|lia]).
Qed.

Lemma year_of_first query i :
  bounded_year_at query i = true ->
  (forall j, j < i -> bounded_year_at query j = false) ->
  exists year, py_int (substring i 4 query) = Ok year
            /\ (1900 <= year <= 2099)%Z /\ year_of query = PInt year.
Proof.
  intros Hi Hbefore. unfold year_of, re_search.
  rewrite (re_search_from_ext full_year_re_at year_re_at) by apply full_year_re_at_eq.
  rewrite (re_search_from_first None query i Hi Hbefore).
  destruct (year_pattern_int (substring i 4 query)) as (year & Hint & Hrange).
  { unfold bounded_year_at, bounded_from in Hi.
    by apply andb_prop in Hi as [[? _]%andb_prop _]. }
  exists year. by rewrite Hint.
Qed.

Lemma year_of_none query :
  (forall i, bounded_year_at query i = false) -> year_of query = PNone.
Proof.
  intros Hnone. unfold year_of, re_search.
  by rewrite (re_search_from_none None query Hnone).
Qed.

(** C9. When the lower-cased query contains the keyword of an entry of the
    borough table and the keyword of no entry written before it, the parsed
    borough is that entry's label, wherever the keywords stand in the text. *)
Theorem borough_first_in_table_order query earlier key value later :
  boroughs = earlier ++ (key, value) :: later ->
  Forall (fun kv => Str.contains kv.1 (Str.lower query) = false) earlier ->
  Str.contains key (Str.lower query) = true ->
  parse_search_query query !! "borough" = Some (PStr value).
Proof.
  intros Htable Hearlier Hkey. rewrite parse_borough.
  by rewrite (first_keyword_split _ _ _ _ _ _ Htable Hearlier Hkey).
Qed.

(** The query "staten island brooklyn": "staten island" comes first in the
    text, "brooklyn" first in the table, and the borough is BROOKLYN. *)
Lemma borough_staten_island_brooklyn :
  Str.contains "staten island" (Str.lower "staten island brooklyn") = true
  /\ Str.contains "brooklyn" (Str.lower "staten island brooklyn") = true
  /\ parse_search_query "staten island brooklyn" !! "borough" = Some (PStr "BROOKLYN").
Proof.
  split; [reflexivity|]. split; [reflexivity|].
  apply (borough_first_in_table_order "staten island brooklyn"
           [] "brooklyn" "BROOKLYN" (tail boroughs)).
  - reflexivity.
  - constructor.
  - reflexivity.
Defined.

(** C10. A query whose lower-cased text contains "bicycle" gets two fields
    from that one word: the vehicle type is Bicycle when no entry written
    before ("bicycle", "Bicycle") in the vehicle table matches, and the
    label of the first such entry when one does; the injury type is Cyclist
    when the text does not contain "pedestrian", and Pedestrian when it
    does. *)
Theorem bicycle_sets_vehicle_and_injury query earlier later :
  vehicle_keywords = earlier ++ ("bicycle", "Bicycle") :: later ->
  Str.contains "bicycle" (Str.lower query) = true ->
  (Forall (fun kv => Str.contains kv.1 (Str.lower query) = false) earlier ->
   parse_search_query query !! "vehicle_type" = Some (PStr "Bicycle"))
  /\ (forall before key value after,
        earlier = before ++ (key, value) :: after ->
        Forall (fun kv => Str.contains kv.1 (Str.lower query) = false) before ->
        Str.contains key (Str.lower query) = true ->
        parse_search_query query !! "vehicle_type" = Some (PStr value))
  /\ (Str.contains "pedestrian" (Str.lower query) = false ->
      parse_search_query query !! "injury_type" = Some (PStr "Cyclist"))
  /\ (Str.contains "pedestrian" (Str.lower query) = true ->
      parse_search_query query !! "injury_type" = Some (PStr "Pedestrian")).
Proof.
  intros Htable Hbicycle. rewrite parse_vehicle_type, parse_injury_type.
  split; [|split; [|split]].
  - intros Hearlier.
    by rewrite (first_keyword_split _ _ _ _ _ _ Htable Hearlier Hbicycle).
  - intros before key value after -> Hbefore Hkey.
    rewrite <- app_assoc in Htable. simpl in Htable.
    by rewrite (first_keyword_split _ _ _ _ _ _ Htable Hbefore Hkey).
  - intros Hped. unfold injury_of. rewrite Hped, Hbicycle.
    by rewrite orb_true_r.
  - intros Hped. unfold injury_of. by rewrite Hped.
Qed.

Lemma bicycle_lane_crash :
  parse_search_query "Bicycle lane crash" !! "vehicle_type" = Some (PStr "Bicycle")
  /\ parse_search_query "Bicycle lane crash" !! "injury_type" = Some (PStr "Cyclist").
Proof.
  pose proof (bicycle_sets_vehicle_and_injury "Bicycle lane crash"
                (take 7 vehicle_keywords) (drop 8 vehicle_keywords)
                eq_refl eq_refl) as (Hvehicle & _ & Hinjury & _).
  split.
  - apply Hvehicle. repeat constructor.
  - apply Hinjury. reflexivity.
Defined.

(** C4, as the specification states it, fails: in "a2021 1999" the first
    four characters that match [(19|20)\d\d] are "2021", but they follow a
    letter, and the parsed year is 1999. *)
Lemma year_first_substring_counterexample :
  spec_first_year "a2021 1999" = Some "2021"
  /\ py_int "2021" = Ok 2021%Z
  /\ parse_search_query "a2021 1999" !! "year" = Some (PInt 1999).
Proof. split; [reflexivity|]. split; reflexivity. Qed.

(** C4, amended.  The year is the integer value of the first four
    characters of the query that match [(19|20)\d\d] and have no word
    character (letter, digit or underscore) directly before or after them;
    it is unset when the query has no such delimited match, in particular
    when no four characters of it match the pattern at all. *)
Theorem year_first_delimited_match query :
  (forall i,
     bounded_year_at query i = true ->
     (forall j, j < i -> bounded_year_at query j = false) ->
     exists year,
       py_int (substring i 4 query) = Ok year
       /\ (1900 <= year <= 2099)%Z
       /\ parse_search_query query !! "year" = Some (PInt year))
  /\ ((forall i, bounded_year_at query i = false) ->
      parse_search_query query !! "year" = Some PNone)
  /\ ((forall i, year_pattern (substring i 4 query) = false) ->
      parse_search_query query !! "year" = Some PNone).
Proof.
  rewrite parse_year. split; [|split].
  - intros i Hi Hbefore.
    destruct (year_of_first query i Hi Hbefore) as (year & Hint & Hrange & Hyear).
    exists year. by rewrite Hyear.
  - intros Hnone. by rewrite year_of_none.
  - intros Hnone. rewrite year_of_none; [done|].
    intros i. unfold bounded_year_at, bounded_from. by rewrite Hnone.
Qed.

Lemma year_of_docstring_query :
  bounded_year_at "Brooklyn 2022 pedestrian crashes" 9 = true
  /\ exists year,
       py_int (substring 9 4 "Brooklyn 2022 pedestrian crashes") = Ok year
       /\ (1900 <= year <= 2099)%Z
       /\ parse_search_query "Brooklyn 2022 pedestrian crashes" !! "year"
          = Some (PInt year).
Proof.
  split; [reflexivity|].
  apply (proj1 (year_first_delimited_match "Brooklyn 2022 pedestrian crashes") 9).
  - reflexivity.
  - intros j Hj. do 9 (destruct j as [|j]; [reflexivity|]). lia.
Defined.

(** ** The filter engine *)

Lemma mask_select_map {A} (keep : A -> bool) (l : list A) :
  mask_select (map keep l) l = List.filter keep l.
Proof. induction l as [|x l IH]; simpl; [done|]. by rewrite IH. Qed.

Lemma mask_or_map {A} (f g : A -> bool) (l : list A) :
  mask_or (map f l) (map g l) = map (fun x => f x || g x) l.
Proof. unfold mask_or. induction l as [|x l IH]; simpl; [done|]. by rewrite IH. Qed.

Lemma mask_and_map {A} (f g : A -> bool) (l : list A) :
  mask_and (map f l) (map g l) = map (fun x => f x && g x) l.
Proof. unfold mask_and. induction l as [|x l IH]; simpl; [done|]. by rewrite IH. Qed.

Lemma filter_true {A} (l : list A) : List.filter (fun _ => true) l = l.
Proof. induction l as [|x l IH]; simpl; [done|]. by rewrite IH. Qed.

Lemma filter_filter {A} (f g : A -> bool) (l : list A) :
  List.filter g (List.filter f l) = List.filter (fun x => f x && g x) l.
Proof.
  induction l as [|x l IH]; simpl; [done|].
  destruct (f x); simpl; [destruct (g x)|]; by rewrite IH.
Qed.

Lemma filter_ext_in {A} (f g : A -> bool) (l : list A) :
  (forall x, In x l -> f x = g x) -> List.filter f l = List.filter g l.
Proof.
  induction l as [|x l IH]; simpl; intros H; [done|].
  rewrite (H x) by auto. rewrite IH by auto. done.
Qed.

Lemma selected_active filters k :
  selected filters k = Ok (bool_decide (is_Some (active filters k))).
Proof.
  unfold selected, active, dict_get, dict_item.
  destruct (filters !! k) as [v|]; simpl; [|done].
  destruct (truthy v); simpl; [|done].
  by destruct (py_eq v (PStr "All")).
Qed.

Lemma dict_item_active filters k v :
  active filters k = Some v -> dict_item filters k = Ok v.
Proof.
  unfold active, dict_item. destruct (filters !! k) as [w|]; [|done].
  destruct (truthy w && negb (py_eq w (PStr "All"))); congruence.
Qed.

Lemma row_step_no_constraint df : row_step [] (fun _ => true) df = Ok df.
Proof. unfold row_step. simpl. rewrite filter_true. by destruct df. Qed.

Lemma str_equals_step df col v :
  (s ← getitem_str df col; mret (boolean_index df (map (str_cell_eq v) s)))
  = row_step [col] (str_equals col v) df.
Proof.
  unfold getitem_str, row_step, boolean_index. simpl.
  destruct (has_column df col); simpl; [|done].
  by rewrite map_map, mask_select_map.
Qed.

Lemma num_equals_step df col v :
  (s ← getitem_num df col; mret (boolean_index df (map (num_cell_eq v) s)))
  = row_step [col] (num_equals col v) df.
Proof.
  unfold getitem_num, row_step, boolean_index. simpl.
  destruct (has_column df col); simpl; [|done].
  by rewrite map_map, mask_select_map.
Qed.

Lemma either_equals_step df c1 c2 v :
  either_equals df c1 c2 v
  = row_step [c1; c2] (fun r => str_equals c1 v r || str_equals c2 v r) df.
Proof.
  unfold either_equals, getitem_str, row_step, boolean_index. simpl.
  destruct (has_column df c1); simpl; [|done].
  destruct (has_column df c2); simpl; [|done].
  by rewrite !map_map, mask_or_map, mask_select_map.
Qed.

Lemma either_positive_step df c1 c2 :
  either_positive df c1 c2
  = row_step [c1; c2] (fun r => positive c1 r || positive c2 r) df.
Proof.
  unfold either_positive, getitem_num, row_step, boolean_index. simpl.
  destruct (has_column df c1); simpl; [|done].
  destruct (has_column df c2); simpl; [|done].
  by rewrite !map_map, mask_or_map, mask_select_map.
Qed.

Lemma borough_filter_step filters df :
  borough_filter filters df
  = row_step (borough_plan filters).1 (borough_plan filters).2 df.
Proof.
  unfold borough_filter, borough_plan. rewrite selected_active.
  destruct (active filters "borough") as [v|] eqn:Hv; simpl.
  - rewrite (dict_item_active _ _ _ Hv). apply str_equals_step.
  - by rewrite row_step_no_constraint.
Qed.

Lemma year_filter_step filters df :
  year_filter filters df
  = row_step (year_plan filters).1 (year_plan filters).2 df.
Proof.
  unfold year_filter, year_plan. rewrite selected_active.
  destruct (active filters "year") as [v|] eqn:Hv; simpl.
  - rewrite (dict_item_active _ _ _ Hv). simpl.
    destruct (is_int_or_float v); simpl.
    + apply num_equals_step.
    + by rewrite row_step_no_constraint.
  - by rewrite row_step_no_constraint.
Qed.

Lemma vehicle_type_filter_step filters df :
  vehicle_type_filter filters df
  = let p := either_plan filters "vehicle_type"
               "VEHICLE_TYPE_CODE_1" "VEHICLE_TYPE_CODE_2" in
    row_step p.1 p.2 df.
Proof.
  unfold vehicle_type_filter, either_plan. rewrite selected_active.
  destruct (active filters "vehicle_type") as [v|] eqn:Hv; simpl.
  - rewrite (dict_item_active _ _ _ Hv). apply either_equals_step.
  - by rewrite row_step_no_constraint.
Qed.

Lemma contributing_factor_filter_step filters df :
  contributing_factor_filter filters df
  = let p := either_plan filters "contributing_factor"
               "CONTRIBUTING_FACTOR_VEHICLE_1" "CONTRIBUTING_FACTOR_VEHICLE_2" in
    row_step p.1 p.2 df.
Proof.
  unfold contributing_factor_filter, either_plan. rewrite selected_active.
  destruct (active filters "contributing_factor") as [v|] eqn:Hv; simpl.
  - rewrite (dict_item_active _ _ _ Hv). apply either_equals_step.
  - by rewrite row_step_no_constraint.
Qed.

Lemma injury_type_filter_step filters df :
  injury_type_filter filters df
  = row_step (injury_plan filters).1 (injury_plan filters).2 df.
Proof.
  unfold injury_type_filter, injury_plan. rewrite selected_active.
  destruct (active filters "injury_type") as [v|] eqn:Hv; simpl.
  - rewrite (dict_item_active _ _ _ Hv). simpl.
    destruct (py_eq v (PStr "Pedestrian")); [apply either_positive_step|].
    destruct (py_eq v (PStr "Cyclist")); [apply either_positive_step|].
    destruct (py_eq v (PStr "Motorist")); [apply either_positive_step|].
    by rewrite row_step_no_constraint.
  - by rewrite row_step_no_constraint.
Qed.

Lemma row_step_bind cols1 keep1 cols2 keep2 df :
  row_step cols1 keep1 df ≫= row_step cols2 keep2
  = row_step (cols1 ++ cols2) (fun r => keep1 r && keep2 r) df.
Proof.
  unfold row_step. rewrite forallb_app.
  destruct (forallb (has_column df) cols1); simpl; [|done].
  unfold has_column at 1. simpl. fold (has_column df).
  destruct (forallb _ cols2); [|done].
  by rewrite filter_filter.
Qed.

Lemma run_steps_plans steps (plans : list plan) :
  Forall2 (fun step p => forall d, step d = row_step p.1 p.2 d) steps plans ->
  forall df,
    run_steps steps df
    = row_step (concat (map fst plans))
               (fun r => forallb (fun p : plan => snd p r) plans) df.
Proof.
  induction 1 as [|step p steps plans Hstep _ IH]; intros df; simpl.
  - symmetry. apply row_step_no_constraint.
  - rewrite Hstep, <- row_step_bind.
    destruct (row_step p.1 p.2 df); simpl; [apply IH|done].
Qed.

(** [apply_filters] keeps the rows that pass every active test, and raises
    [KeyError] when a column it reads is missing. *)
Lemma apply_filters_rows df filters :
  apply_filters df filters
  = row_step (columns_read filters) (row_matches filters) df.
Proof.
  change (apply_filters df filters)
    with (run_steps [borough_filter filters; year_filter filters;
                     vehicle_type_filter filters; contributing_factor_filter filters;
                     injury_type_filter filters] df).
  apply run_steps_plans. repeat constructor.
  - apply borough_filter_step.
  - apply year_filter_step.
  - apply vehicle_type_filter_step.
  - apply contributing_factor_filter_step.
  - apply injury_type_filter_step.
Qed.

Lemma row_step_idempotent cols keep df :
  row_step cols keep df ≫= row_step cols keep = row_step cols keep df.
Proof.
  rewrite row_step_bind. unfold row_step. rewrite forallb_app.
  destruct (forallb (has_column df) cols); simpl; [|done].
  f_equal. f_equal. apply filter_ext_in. intros r _. by destruct (keep r).
Qed.

Lemma unconstrained_active filters k :
  unconstrained filters k -> active filters k = None.
Proof. unfold active. by intros [->|[->| ->]]. Qed.

(** C1. With every criteria field missing, [None] or "All",
    [apply_filters] returns the data frame it was given: the same columns
    and the same rows in the same order. *)
Theorem apply_filters_identity df filters :
  Forall (unconstrained filters) criteria_keys ->
  apply_filters df filters = Ok df.
Proof.
  intros H. rewrite apply_filters_rows.
  unfold columns_read, row_matches, filter_plans,
    borough_plan, year_plan, either_plan, injury_plan.
  repeat (apply Forall_cons in H as [?%unconstrained_active H]).
  repeat match goal with Hk : active _ _ = None |- _ => rewrite Hk; clear Hk end.
  apply row_step_no_constraint.
Qed.

(** C5. Applying the same criteria to the result of [apply_filters] gives
    that result again (and a [KeyError] of the first application is the
    outcome of the whole). *)
Theorem apply_filters_idempotent df filters :
  (filtered_df ← apply_filters df filters; apply_filters filtered_df filters)
  = apply_filters df filters.
Proof.
  rewrite apply_filters_rows.
  destruct (row_step (columns_read filters) (row_matches filters) df) as [d|e] eqn:Hd;
    simpl; [|done].
  rewrite apply_filters_rows.
  pose proof (row_step_idempotent (columns_read filters) (row_matches filters) df) as Hi.
  rewrite Hd in Hi. exact Hi.
Qed.

Lemma active_delete_ne filters k k' :
  k <> k' -> active (delete k filters) k' = active filters k'.
Proof. intros Hne. unfold active. by rewrite lookup_delete_ne. Qed.

Lemma active_delete_eq filters k : active (delete k filters) k = None.
Proof. unfold active. by rewrite lookup_delete_eq. Qed.

Lemma member_In x l : member x l = true -> In x l.
Proof.
  unfold member. intros (y & Hy & Heq)%existsb_exists.
  by apply String.eqb_eq in Heq as ->.
Qed.

Lemma columns_read_filter_columns filters :
  forallb (fun c => member c filter_columns) (columns_read filters) = true.
Proof.
  unfold columns_read, filter_plans, borough_plan, year_plan, either_plan,
    injury_plan, casualty_plan, no_constraint.
  destruct (active filters "borough"), (active filters "year") as [year|],
    (active filters "vehicle_type"), (active filters "contributing_factor"),
    (active filters "injury_type") as [injury|];
    try destruct (is_int_or_float year);
    try destruct (py_eq injury (PStr "Pedestrian"));
    try destruct (py_eq injury (PStr "Cyclist"));
    try destruct (py_eq injury (PStr "Motorist"));
    reflexivity.
Qed.

Lemma columns_read_present df filters :
  Forall (fun c => has_column df c = true) filter_columns ->
  forallb (has_column df) (columns_read filters) = true.
Proof.
  intros Hcols. apply forallb_forall. intros c Hc.
  pose proof (columns_read_filter_columns filters) as Hread.
  rewrite forallb_forall in Hread. apply Hread, member_In in Hc.
  rewrite List.Forall_forall in Hcols. auto.
Qed.

Lemma plans_without_year filters v :
  filters !! "year" = Some v -> is_int_or_float v = false ->
  filter_plans (delete "year" filters) = filter_plans filters.
Proof.
  intros Hv Hnum.
  assert (Hplan : year_plan filters = no_constraint).
  { unfold year_plan, active. rewrite Hv.
    destruct (truthy v && negb (py_eq v (PStr "All"))); by rewrite ?Hnum. }
  unfold filter_plans. rewrite Hplan.
  unfold borough_plan, year_plan, either_plan, injury_plan.
  rewrite active_delete_eq. by rewrite !active_delete_ne by done.
Qed.

Lemma plans_without_injury_type filters v :
  filters !! "injury_type" = Some v -> known_injury_type v = false ->
  filter_plans (delete "injury_type" filters) = filter_plans filters.
Proof.
  intros Hv Hknown.
  assert (Hplan : injury_plan filters = no_constraint).
  { unfold injury_plan, active. rewrite Hv.
    unfold known_injury_type in Hknown.
    apply orb_false_elim in Hknown as [[H1 H2]%orb_false_elim H3].
    destruct (truthy v && negb (py_eq v (PStr "All"))); by rewrite ?H1, ?H2, ?H3. }
  unfold filter_plans. rewrite Hplan.
  unfold borough_plan, year_plan, either_plan, injury_plan.
  rewrite active_delete_eq. by rewrite !active_delete_ne by done.
Qed.

Lemma row_matches_borough filters b r :
  active filters "borough" = Some (PStr b) ->
  row_matches filters r = true -> strs r !! "BOROUGH" = Some b.
Proof.
  intros Hb. unfold row_matches, filter_plans, borough_plan. rewrite Hb.
  simpl. intros [H _]%andb_prop. unfold str_equals, str_cell_eq in H.
  destruct (strs r !! "BOROUGH") as [s|]; [|done].
  by apply String.eqb_eq in H as ->.
Qed.

(** C2 as stated fails: "ATLANTIS" is not a borough of the Option Set of
    the five crashes, yet as the borough criterion it empties the result
    instead of leaving the data set as the remaining (no) criteria do. *)
Lemma unknown_borough_counterexample :
  (exists options, get_dropdown_options five_crashes = Ok options
                   /\ ~ In "ATLANTIS" (opt_boroughs options))
  /\ apply_filters five_crashes (<["borough" := PStr "ATLANTIS"]> ∅)
     = Ok (mkDataFrame (columns five_crashes) [])
  /\ apply_filters five_crashes (delete "borough" (<["borough" := PStr "ATLANTIS"]> ∅))
     = Ok five_crashes.
Proof.
  split; [|split].
  - eexists. split; [vm_compute; reflexivity|].
    simpl. intros [H|[H|[]]]; discriminate H.
  - vm_compute; reflexivity.
  - vm_compute; reflexivity.
Qed.

(** C2, amended.  On a data frame that has the columns the filters read,
    [apply_filters] never raises and returns the rows that pass every
    active test, in order.  A year that is not a number and an injury type
    other than Pedestrian, Cyclist and Motorist impose no constraint: the
    result is that of the remaining criteria.  A borough (and likewise a
    vehicle type, a contributing factor or a numeric year) is an exact-match
    test whether or not it belongs to the Option Set: every row kept has
    that borough. *)
Theorem apply_filters_total_and_lenient df filters :
  Forall (fun c => has_column df c = true) filter_columns ->
  (exists filtered_df,
      apply_filters df filters = Ok filtered_df
      /\ columns filtered_df = columns df
      /\ rows filtered_df = List.filter (row_matches filters) (rows df))
  /\ (forall v, filters !! "year" = Some v -> is_int_or_float v = false ->
        apply_filters df filters = apply_filters df (delete "year" filters))
  /\ (forall v, filters !! "injury_type" = Some v -> known_injury_type v = false ->
        apply_filters df filters = apply_filters df (delete "injury_type" filters))
  /\ (forall b filtered_df r,
        active filters "borough" = Some (PStr b) ->
        apply_filters df filters = Ok filtered_df ->
        In r (rows filtered_df) -> strs r !! "BOROUGH" = Some b).
Proof.
  intros Hcols. split; [|split; [|split]].
  - rewrite apply_filters_rows. unfold row_step.
    rewrite (columns_read_present df filters Hcols). by eexists.
  - intros v Hv Hnum. rewrite !apply_filters_rows.
    unfold columns_read, row_matches.
    by rewrite (plans_without_year filters v Hv Hnum).
  - intros v Hv Hknown. rewrite !apply_filters_rows.
    unfold columns_read, row_matches.
    by rewrite (plans_without_injury_type filters v Hv Hknown).
  - intros b filtered_df r Hb Hfiltered Hr.
    rewrite apply_filters_rows in Hfiltered. unfold row_step in Hfiltered.
    destruct (forallb _ _); [|done]. injection Hfiltered as <-.
    simpl in Hr. apply filter_In in Hr as [_ Hr].
    by apply (row_matches_borough filters b r Hb).
Qed.

Lemma year_in_words_is_no_constraint :
  apply_filters five_crashes (<["year" := PStr "twenty"]> (<["borough" := PStr "QUEENS"]> ∅))
  = apply_filters five_crashes
      (delete "year" (<["year" := PStr "twenty"]> (<["borough" := PStr "QUEENS"]> ∅))).
Proof.
  refine (proj1 (proj2 (apply_filters_total_and_lenient five_crashes
            (<["year" := PStr "twenty"]> (<["borough" := PStr "QUEENS"]> ∅)) _))
            (PStr "twenty") _ _).
  - repeat constructor.
  - reflexivity.
  - reflexivity.
Defined.

Lemma no_criteria_on_five_crashes :
  apply_filters five_crashes
    (<["borough" := PStr "All"]> (<["year" := PNone]> (<["injury_type" := PStr "All"]> ∅)))
  = Ok five_crashes.
Proof.
  apply apply_filters_identity.
  repeat constructor; unfold unconstrained; vm_compute; tauto.
Defined.

(** The scenario of the specification: borough Brooklyn and year 2021 keep
    exactly the three Brooklyn crashes; borough Bronx keeps none and does
    not raise. *)
Lemma brooklyn_2021_of_five_crashes :
  apply_filters five_crashes
    (<["borough" := PStr "BROOKLYN"]> (<["year" := PInt 2021]> ∅))
  = Ok (mkDataFrame filter_columns
          [ crash "BROOKLYN" 2021 "Sedan" "Unsafe Speed" 1;
            crash "BROOKLYN" 2021 "Taxi" "Alcohol Involvement" 0;
            crash "BROOKLYN" 2021 "Sedan" "Unspecified" 0 ])
  /\ apply_filters five_crashes (<["borough" := PStr "BRONX"]> ∅)
     = Ok (mkDataFrame filter_columns []).
Proof. split; vm_compute; reflexivity. Qed.

(** ** Summary statistics *)

Lemma column_total_ok df col fallback :
  column_total df col fallback = Ok (total_of df col fallback).
Proof.
  unfold column_total, total_of, getitem_num, num_cells.
  destruct (has_column df col); [done|].
  by destruct (has_column df fallback).
Qed.

Lemma truediv_count total n :
  0 < n -> truediv total (inject_Z (Z.of_nat n)) = Ok (total / inject_Z (Z.of_nat n))%Q.
Proof.
  intros Hn. unfold truediv.
  destruct (Qeq_bool (inject_Z (Z.of_nat n)) 0) eqn:Hz; [|done].
  apply Qeq_bool_iff in Hz. unfold Qeq in Hz. simpl in Hz. lia.
Qed.

(** C6. [calculate_summary_stats] always produces its numbers; the average
    of injured per crash is the total injured divided by the number of
    records when there is a record, and 0 when there is none, the division
    being evaluated only in the first case. *)
Theorem average_injured_guarded filtered_df :
  exists stats,
    calculate_summary_stats filtered_df = Some stats
    /\ total_crashes stats = len filtered_df
    /\ total_injured stats
       = total_of filtered_df "TOTAL_INJURED" "NUMBER_OF_PERSONS_INJURED"
    /\ avg_injured stats
       = (if 0 <? len filtered_df
          then total_injured stats / inject_Z (Z.of_nat (len filtered_df))
          else 0)%Q
    /\ truediv (total_injured stats) (inject_Z (Z.of_nat (len filtered_df)))
       = (if 0 <? len filtered_df then Ok (avg_injured stats)
          else Raise ZeroDivisionError).
Proof.
  unfold calculate_summary_stats, summary_stats_body.
  rewrite !column_total_ok. cbn [mbind result_bind].
  destruct (0 <? len filtered_df) eqn:Hlen.
  - apply Nat.ltb_lt in Hlen. rewrite !truediv_count by done.
    eexists. split; [reflexivity|]. cbn [total_crashes total_injured avg_injured].
    by rewrite truediv_count.
  - apply Nat.ltb_ge in Hlen. assert (len filtered_df = 0) as -> by lia.
    eexists. split; [reflexivity|]. done.
Qed.

Lemma average_of_two_crashes :
  exists stats, calculate_summary_stats two_crashes = Some stats
                /\ Qeq (avg_injured stats) (5 # 2).
Proof.
  eexists. split; [vm_compute; reflexivity|]. reflexivity.
Qed.

Lemma average_of_no_crash :
  exists stats, calculate_summary_stats (mkDataFrame ["TOTAL_INJURED"] []) = Some stats
                /\ avg_injured stats = 0%Q.
Proof. eexists. split; reflexivity. Qed.

(** ** Sorting, distinct values and counts *)

Lemma insert_sorted_perm {A} (before : A -> A -> bool) x l :
  insert_sorted before x l ≡ₚ x :: l.
Proof.
  induction l as [|y l IH]; simpl; [done|].
  destruct (before x y); [done|]. by rewrite IH, Permutation_swap.
Qed.

Lemma sorted_perm {A} (before : A -> A -> bool) l : sorted before l ≡ₚ l.
Proof.
  induction l as [|x l IH]; simpl; [done|].
  unfold sorted in IH. by rewrite insert_sorted_perm, IH.
Qed.

Lemma sorted_In {A} (before : A -> A -> bool) l x : In x (sorted before l) <-> In x l.
Proof.
  split; apply Permutation_in; [|symmetry]; apply sorted_perm.
Qed.

Section InsertionSort.
Context {A : Type} (before : A -> A -> bool).
Hypothesis before_total : forall x y, before x y = true \/ before y x = true.
Hypothesis before_trans :
  forall x y z, before x y = true -> before y z = true -> before x z = true.

Lemma insert_sorted_strongly x l :
  StronglySorted (fun a b => before a b = true) l ->
  StronglySorted (fun a b => before a b = true) (insert_sorted before x l).
Proof.
  induction 1 as [|y l Hl IH Hy]; simpl.
  - by repeat constructor.
  - destruct (before x y) eqn:Hxy.
    + constructor; [by constructor|]. constructor; [done|].
      eapply Forall_impl; [exact Hy|]. intros z Hz. by eapply before_trans.
    + constructor; [done|].
      rewrite insert_sorted_perm. constructor; [|done].
      destruct (before_total x y) as [H|H]; [congruence|done].
Qed.

Lemma sorted_strongly l :
  StronglySorted (fun a b => before a b = true) (sorted before l).
Proof.
  induction l as [|x l IH]; simpl; [constructor|].
  by apply insert_sorted_strongly.
Qed.
End InsertionSort.

Lemma StronglySorted_impl {A} (R1 R2 : A -> A -> Prop) l :
  (forall x y, R1 x y -> R2 x y) -> StronglySorted R1 l -> StronglySorted R2 l.
Proof.
  intros Himpl. induction 1 as [|x l _ IH Hx]; constructor; [done|].
  eapply Forall_impl; [exact Hx|]. auto.
Qed.

Lemma StronglySorted_take {A} (R : A -> A -> Prop) n l :
  StronglySorted R l -> StronglySorted R (take n l).
Proof.
  intros Hl. revert n. induction Hl as [|x l Hl IH Hx]; intros [|n]; simpl;
    try constructor; [apply IH|by apply Forall_take].
Qed.

Lemma existsb_eqb_In x seen : existsb (String.eqb x) seen = true <-> In x seen.
Proof.
  rewrite existsb_exists. split.
  - by intros (y & Hy & ->%String.eqb_eq).
  - intros Hx. exists x. by rewrite String.eqb_refl.
Qed.

Lemma unique_from_In seen l x :
  In x (unique_from String.eqb seen l) <-> In x l /\ ~ In x seen.
Proof.
  revert seen. induction l as [|y l IH]; intros seen; simpl; [tauto|].
  destruct (existsb (String.eqb y) seen) eqn:Hy.
  - apply existsb_eqb_In in Hy. rewrite IH. split; [tauto|].
    intros [[->|Hx] Hseen]; tauto.
  - assert (~ In y seen) as Hy' by (rewrite <- existsb_eqb_In; congruence).
    simpl. rewrite IH. simpl.
    destruct (decide (y = x)) as [->|Hne]; tauto.
Qed.

Lemma unique_from_NoDup seen l : NoDup (unique_from String.eqb seen l).
Proof.
  revert seen. induction l as [|y l IH]; intros seen; simpl; [constructor|].
  destruct (existsb (String.eqb y) seen); [apply IH|].
  constructor; [|apply IH].
  rewrite list_elem_of_In, unique_from_In. simpl. tauto.
Qed.

Lemma unique_In l x : In x (unique String.eqb l) <-> In x l.
Proof. unfold unique. rewrite unique_from_In. simpl. tauto. Qed.

Lemma occurrences_pos v l : In v l <-> 0 < occurrences v l.
Proof.
  unfold occurrences. induction l as [|x l IH]; simpl; [lia|].
  destruct (String.eqb v x) eqn:Hx; simpl.
  - apply String.eqb_eq in Hx as ->. split; [lia|tauto].
  - apply String.eqb_neq in Hx. rewrite <- IH. split; [|tauto].
    intros [->|H]; [done|tauto].
Qed.

Lemma occurrences_filter keep v l :
  keep v = true -> occurrences v (List.filter keep l) = occurrences v l.
Proof.
  intros Hv. unfold occurrences. rewrite filter_filter. f_equal.
  apply filter_ext_in. intros x _. cbv beta.
  destruct (String.eqb v x) eqn:Hx; [|by rewrite andb_false_r].
  apply String.eqb_eq in Hx as <-. by rewrite Hv.
Qed.

Lemma occurrences_app v l1 l2 :
  occurrences v (l1 ++ l2) = occurrences v l1 + occurrences v l2.
Proof. unfold occurrences. by rewrite List.filter_app, length_app. Qed.

Lemma value_counts_In l v c :
  In (v, c) (value_counts l) <-> In v l /\ c = occurrences v l.
Proof.
  unfold value_counts. rewrite sorted_In, in_map_iff. split.
  - intros (w & [= <- <-] & Hw). split; [by apply unique_In|done].
  - intros [Hv ->]. exists v. split; [done|]. by apply unique_In.
Qed.

Lemma value_counts_labels l : map fst (value_counts l) ≡ₚ unique String.eqb l.
Proof.
  unfold value_counts. rewrite sorted_perm, map_map. simpl. by rewrite map_id.
Qed.

Lemma value_counts_sorted l : StronglySorted by_count_desc (value_counts l).
Proof.
  unfold value_counts.
  eapply (StronglySorted_impl
            (fun a b : string * nat => (snd b <=? snd a) = true)).
  { intros a b H. by apply Nat.leb_le in H. }
  apply (sorted_strongly (fun a b : string * nat => snd b <=? snd a)).
  - intros a b. rewrite !Nat.leb_le. lia.
  - intros a b c. rewrite !Nat.leb_le. lia.
Qed.

(** ** The contributing-factor series *)

Lemma dropna_app {A} (s1 s2 : list (option A)) :
  dropna (s1 ++ s2) = dropna s1 ++ dropna s2.
Proof.
  induction s1 as [|[x|] s1 IH]; simpl; [done| |done]. by rewrite IH.
Qed.

Lemma factor_counts_some df series :
  factor_counts df = Some series ->
  series = take 10 (value_counts (counted_factors df)).
Proof.
  unfold factor_counts, factor_counts_body, getitem_str, counted_factors, pooled_factors.
  destruct (has_column df "CONTRIBUTING_FACTOR_VEHICLE_1"); [|done].
  destruct (has_column df "CONTRIBUTING_FACTOR_VEHICLE_2"); [|done].
  cbn [mbind result_bind try_except].
  destruct (0 <? _); [|done]. cbn. by intros [= <-].
Qed.

Lemma factor_counts_nonempty df :
  has_column df "CONTRIBUTING_FACTOR_VEHICLE_1" = true ->
  has_column df "CONTRIBUTING_FACTOR_VEHICLE_2" = true ->
  counted_factors df <> [] ->
  factor_counts df = Some (take 10 (value_counts (counted_factors df))).
Proof.
  unfold factor_counts, factor_counts_body, getitem_str, counted_factors, pooled_factors.
  intros -> -> Hne. cbn [mbind result_bind try_except].
  destruct (List.filter _ _) as [|f factors]; [done|]. reflexivity.
Qed.

Lemma counted_factors_In df v :
  In v (counted_factors df) <-> In v (pooled_factors df) /\ v <> "Unspecified".
Proof.
  unfold counted_factors. rewrite filter_In, negb_true_iff, String.eqb_neq. tauto.
Qed.

Lemma counted_factors_occurrences df v :
  v <> "Unspecified" ->
  occurrences v (counted_factors df)
  = occurrences v (str_cells df "CONTRIBUTING_FACTOR_VEHICLE_1")
    + occurrences v (str_cells df "CONTRIBUTING_FACTOR_VEHICLE_2").
Proof.
  intros Hv. unfold counted_factors, pooled_factors, str_cells.
  rewrite occurrences_filter by (by rewrite negb_true_iff, String.eqb_neq).
  by rewrite dropna_app, occurrences_app.
Qed.

(** C8. Whenever the contributing-factor series is produced, it has at most
    10 entries with distinct labels, ranked by count, the largest first;
    no label is "Unspecified"; the count of a label is the number of cells
    of the first factor column plus the number of cells of the second that
    hold it; and a factor left out of the series is no more frequent than
    any entry of it, the series then being full.  The series is produced
    whenever both factor columns exist and some cell holds a factor other
    than "Unspecified". *)
Theorem factor_series_top_ten df :
  (forall series,
     factor_counts df = Some series ->
     length series <= 10
     /\ NoDup (map fst series)
     /\ StronglySorted by_count_desc series
     /\ (forall v c, In (v, c) series ->
           v <> "Unspecified"
           /\ 0 < c
           /\ c = occurrences v (str_cells df "CONTRIBUTING_FACTOR_VEHICLE_1")
                  + occurrences v (str_cells df "CONTRIBUTING_FACTOR_VEHICLE_2"))
     /\ (forall v, In v (pooled_factors df) -> v <> "Unspecified" ->
           ~ In v (map fst series) ->
           length series = 10
           /\ forall w c, In (w, c) series ->
                occurrences v (str_cells df "CONTRIBUTING_FACTOR_VEHICLE_1")
                + occurrences v (str_cells df "CONTRIBUTING_FACTOR_VEHICLE_2") <= c))
  /\ (has_column df "CONTRIBUTING_FACTOR_VEHICLE_1" = true ->
      has_column df "CONTRIBUTING_FACTOR_VEHICLE_2" = true ->
      (exists v, In v (pooled_factors df) /\ v <> "Unspecified") ->
      exists series, factor_counts df = Some series).
Proof.
  split.
  - intros series ->%factor_counts_some.
    set (counts := value_counts (counted_factors df)).
    assert (Hsorted : StronglySorted by_count_desc counts)
      by apply value_counts_sorted.
    assert (Hlabels : NoDup (map fst counts)).
    { unfold counts. rewrite value_counts_labels. apply unique_from_NoDup. }
    assert (Hin : forall v c, In (v, c) counts ->
              In v (counted_factors df) /\ c = occurrences v (counted_factors df))
      by (intros v c; apply value_counts_In).
    split; [|split; [|split; [|split]]].
    + rewrite length_take. lia.
    + rewrite <- (take_drop 10 counts), map_app in Hlabels.
      by apply NoDup_app in Hlabels as [? _].
    + by apply StronglySorted_take.
    + intros v c Hvc.
      assert (In (v, c) counts) as [Hv ->]%Hin.
      { rewrite <- (take_drop 10 counts). apply in_or_app. by left. }
      apply counted_factors_In in Hv as [Hv Hne].
      split; [done|]. split.
      * apply occurrences_pos, counted_factors_In. done.
      * by apply counted_factors_occurrences.
    + intros v Hv Hne Hout.
      assert (Hvc : In (v, occurrences v (counted_factors df)) counts).
      { apply value_counts_In. split; [|done]. by apply counted_factors_In. }
      rewrite <- (take_drop 10 counts) in Hvc, Hsorted.
      apply in_app_or in Hvc as [Hvc|Hvc].
      { exfalso. apply Hout. apply in_map_iff. by exists (v, occurrences v (counted_factors df)). }
      split.
      * rewrite length_take. apply Nat.min_l.
        destruct (decide (10 <= length counts)) as [|Hshort]; [done|].
        rewrite drop_ge in Hvc by lia. destruct Hvc.
      * intros w c Hwc.
        rewrite <- counted_factors_occurrences by done.
        apply list_elem_of_In in Hwc, Hvc.
        apply (StronglySorted_app_1_elem_of _ _ _ _ _ Hsorted Hwc Hvc).
  - intros H1 H2 (v & Hv & Hne).
    eexists. apply factor_counts_nonempty; [done..|].
    intros Hempty.
    assert (In v (counted_factors df)) as Hin by (by apply counted_factors_In).
    rewrite Hempty in Hin. destruct Hin.
Qed.

Lemma factor_series_of_five_crashes :
  factor_counts five_crashes
  = Some [("Unsafe Speed", 2); ("Alcohol Involvement", 1)]
  /\ length [("Unsafe Speed", 2); ("Alcohol Involvement", 1)] <= 10
  /\ StronglySorted by_count_desc [("Unsafe Speed", 2); ("Alcohol Involvement", 1)].
Proof.
  assert (H : factor_counts five_crashes
              = Some [("Unsafe Speed", 2); ("Alcohol Involvement", 1)])
    by (vm_compute; reflexivity).
  split; [exact H|].
  destruct (proj1 (factor_series_top_ten five_crashes) _ H) as (Hlen & _ & Hsorted & _).
  by split.
Defined.

(** ** The geolocation series *)

Section SamplingProperties.
Context {rng : Type}.
Variable sample : nat -> option Z -> rng -> list Row -> list Row.

(** What the documentation of [DataFrame.sample] promises: [n] rows, and,
    for an integer [random_state], a generator of its own seeded with it,
    so that the state of the global generator plays no part. *)
Hypothesis sample_length : forall n random_state g l,
  n <= length l -> length (sample n random_state g l) = n.
Hypothesis sample_seeded : forall n seed g g' l,
  sample n (Some seed) g l = sample n (Some seed) g' l.

Lemma map_df_located g df :
  has_column df "LATITUDE" = true ->
  has_column df "LONGITUDE" = true ->
  map_df sample g df
  = let located := List.filter has_location (rows df) in
    if 0 <? length located then
      Some (assign_size
              (mkDataFrame (columns df)
                 (if max_points <? length located
                  then sample max_points (Some 42%Z) g located
                  else located)))
    else None.
Proof.
  intros Hlat Hlon. unfold map_df, map_df_body, getitem_num.
  rewrite Hlat, Hlon. cbn [andb mbind result_bind].
  rewrite !map_map, !mask_and_map. unfold boolean_index, len. cbn [rows columns].
  rewrite mask_select_map.
  change (List.filter _ (rows df)) with (List.filter has_location (rows df)).
  cbv zeta. destruct (0 <? _); [|done]. cbn [mbind result_bind try_except].
  unfold assign_size. cbn [rows columns]. by destruct (max_points <? _).
Qed.

Lemma assign_size_len d : len (assign_size d) = len d.
Proof.
  unfold assign_size, assign_num, len.
  destruct (has_column d "TOTAL_INJURED"); simpl; by rewrite length_map.
Qed.

(** C7. For a subset with more than 2000 records that have both
    coordinates present and not zero, the frame of the map has exactly
    2000 points, and it is the same frame whatever the state of the
    global random generator: the sample is drawn with the fixed seed
    42. *)
Theorem map_sample_of_two_thousand g df :
  has_column df "LATITUDE" = true ->
  has_column df "LONGITUDE" = true ->
  max_points < length (List.filter has_location (rows df)) ->
  exists points,
    map_df sample g df = Some points
    /\ len points = 2000
    /\ forall g', map_df sample g' df = Some points.
Proof.
  intros Hlat Hlon Hmany.
  pose proof (map_df_located g df Hlat Hlon) as Hmap. cbv zeta in Hmap.
  assert ((0 <? length (List.filter has_location (rows df))) = true) as Hpos
    by (apply Nat.ltb_lt; lia).
  assert ((max_points <? length (List.filter has_location (rows df))) = true) as Hcap
    by (by apply Nat.ltb_lt).
  rewrite Hpos, Hcap in Hmap.
  eexists. split; [exact Hmap|]. split.
  - rewrite assign_size_len. unfold len. cbn [rows].
    apply (sample_length max_points). lia.
  - intros g'. rewrite (map_df_located g' df Hlat Hlon). cbv zeta.
    rewrite Hpos, Hcap. by rewrite (sample_seeded _ _ g' g).
Qed.
End SamplingProperties.

Lemma rotating_sample_length n random_state g l :
  n <= length l -> length (rotating_sample n random_state g l) = n.
Proof.
  intros Hn. unfold rotating_sample. rewrite length_take, length_rotate. lia.
Qed.

Lemma map_of_three_thousand_crashes :
  exists points,
    map_df rotating_sample 7%Z three_thousand_crashes = Some points
    /\ len points = 2000
    /\ forall g', map_df rotating_sample g' three_thousand_crashes = Some points.
Proof.
  apply (map_sample_of_two_thousand rotating_sample rotating_sample_length).
  - reflexivity.
  - reflexivity.
  - reflexivity.
  - apply Nat.ltb_lt. vm_compute. reflexivity.
Defined.

(** ** The categorical normalizer *)

Lemma list_remove_ok x l :
  In x l ->
  exists l', list_remove x l = Ok l' /\ forall y, In y l -> y <> x -> In y l'.
Proof.
  induction l as [|z l IH]; simpl; [done|].
  destruct (String.eqb z x) eqn:Hz.
  - apply String.eqb_eq in Hz as ->. intros _. exists l. split; [done|].
    intros y [->|Hy] Hne; [done|done].
  - apply String.eqb_neq in Hz. intros [->|Hx]; [done|].
    destruct (IH Hx) as (l' & -> & Hl'). exists (z :: l'). split; [done|].
    intros y [->|Hy] Hne; simpl; auto.
Qed.

Lemma dedup_step_ok count st v_type :
  dedup_sound st ->
  exists st', dedup_step count st v_type = Ok st' /\ dedup_sound st'.
Proof.
  destruct st as [seen_lower deduplicated]. unfold dedup_sound, dedup_step.
  cbn [fst snd]. intros Hsound.
  assert (Hadd : forall d : list string,
            (forall y, In y deduplicated -> Str.lower y <> Str.lower v_type -> In y d) ->
            forall k v, <[Str.lower v_type := v_type]> seen_lower !! k = Some v ->
                        In v (d ++ [v_type]) /\ Str.lower v = k).
  { intros d Hd k v. rewrite lookup_insert. case_decide as Hk.
    - intros [= <-]. split; [|done]. apply in_or_app. right. by left.
    - intros Hv. destruct (Hsound k v Hv) as [Hin Hlow]. split; [|done].
      apply in_or_app. left. apply Hd; [done|]. congruence. }
  destruct (seen_lower !! Str.lower v_type) as [existing|] eqn:Hseen.
  - destruct (count existing <? count v_type).
    + destruct (Hsound _ _ Hseen) as [Hin Hlow].
      destruct (list_remove_ok existing deduplicated Hin) as (d & -> & Hd).
      eexists. split; [reflexivity|]. cbn [fst snd]. apply Hadd.
      intros y Hy Hne. apply Hd; [done|]. intros ->. by rewrite Hlow in Hne.
    + eexists. split; [reflexivity|]. done.
  - eexists. split; [reflexivity|]. cbn [fst snd]. apply Hadd. auto.
Qed.

Lemma dedup_loop_ok count st l :
  dedup_sound st -> exists st', dedup_loop count st l = Ok st'.
Proof.
  revert st. induction l as [|v_type l IH]; intros st Hsound; simpl.
  - by eexists.
  - destruct (dedup_step_ok count st v_type Hsound) as (st' & -> & Hsound').
    apply (IH st' Hsound').
Qed.

Lemma vehicle_options_ok df :
  has_column df "VEHICLE_TYPE_CODE_1" = true ->
  has_column df "VEHICLE_TYPE_CODE_2" = true ->
  exists vehicle_types, vehicle_options df = Ok vehicle_types.
Proof.
  intros H1 H2. unfold vehicle_options, getitem_str. rewrite H1, H2.
  cbn [mbind result_bind].
  match goal with
  | |- context [dedup_loop ?count ?st ?l] =>
      destruct (dedup_loop_ok count st l) as ([seen_lower deduplicated] & ->)
  end.
  - intros k v. cbn [fst]. by rewrite lookup_empty.
  - by eexists.
Qed.

Lemma vehicle_options_second_missing df :
  has_column df "VEHICLE_TYPE_CODE_1" = true ->
  has_column df "VEHICLE_TYPE_CODE_2" = false ->
  vehicle_options df = Raise KeyError.
Proof. intros H1 H2. unfold vehicle_options, getitem_str. by rewrite H1, H2. Qed.

Lemma valid_factor_nonempty f : valid_factor f = true -> f <> "".
Proof.
  unfold valid_factor. intros H. repeat apply andb_prop in H as [H _].
  by apply negb_true_iff, String.eqb_neq in H.
Qed.

Lemma dropna_In {A} (s : list (option A)) x : In x (dropna s) <-> In (Some x) s.
Proof.
  induction s as [|[y|] s IH]; simpl; [tauto| |].
  - rewrite IH. split; intros [H|H]; auto; left; congruence.
  - rewrite IH. split; [auto|]. by intros [?|?].
Qed.

Lemma factor_options_first_only df :
  has_column df "CONTRIBUTING_FACTOR_VEHICLE_1" = true ->
  has_column df "CONTRIBUTING_FACTOR_VEHICLE_2" = false ->
  exists factors,
    factor_options df = Ok factors
    /\ forall label,
         In label factors
         <-> valid_factor label = true
             /\ exists f, In f (str_cells df "CONTRIBUTING_FACTOR_VEHICLE_1")
                          /\ label = Str.strip f.
Proof.
  intros H1 H2. unfold factor_options, getitem_str. rewrite H1, H2.
  cbn [mbind result_bind mret result_ret]. eexists. split; [reflexivity|].
  intros label. rewrite sorted_In, unique_In, !filter_In, in_map_iff.
  rewrite app_nil_r. unfold str_cells. split.
  - intros [[(f & <- & Hf) Hvalid] _]. split; [done|].
    exists f. by rewrite !unique_In in Hf.
  - intros [Hvalid (f & Hf & ->)]. split; [split; [|done]|].
    + exists f. by rewrite !unique_In.
    + by apply negb_true_iff, String.eqb_neq, valid_factor_nonempty.
Qed.

Lemma factor_options_ok df :
  has_column df "CONTRIBUTING_FACTOR_VEHICLE_1" = true ->
  exists factors, factor_options df = Ok factors.
Proof.
  intros H1. unfold factor_options, getitem_str. rewrite H1.
  destruct (has_column df "CONTRIBUTING_FACTOR_VEHICLE_2"); by eexists.
Qed.

(** C3 as stated fails: with only the second contributing-factor column
    missing, the Option Set of the factors is not empty; it is made from
    the first column. *)
Lemma second_factor_column_missing_counterexample :
  has_column first_factor_only "CONTRIBUTING_FACTOR_VEHICLE_2" = false
  /\ exists options,
       get_dropdown_options first_factor_only = Ok options
       /\ opt_contributing_factors options = ["Unsafe Speed"].
Proof. split; [reflexivity|]. eexists. split; vm_compute; reflexivity. Qed.

(** With only the second vehicle-type column missing, the unguarded read of
    that column raises [KeyError] out of [get_dropdown_options]. *)
Lemma second_vehicle_column_missing_raises :
  has_column first_vehicle_only "VEHICLE_TYPE_CODE_2" = false
  /\ get_dropdown_options first_vehicle_only = Raise KeyError.
Proof. split; vm_compute; reflexivity. Qed.

(** C3, amended.  Unless the first vehicle-type column is there without
    the second, [get_dropdown_options] does not raise; the Option Set of a
    dimension whose (first) source column is missing is empty; and when
    only the second contributing-factor column is missing, the factors are
    the valid stripped labels of the first column. *)
Theorem missing_column_options df :
  (has_column df "VEHICLE_TYPE_CODE_1" = true ->
   has_column df "VEHICLE_TYPE_CODE_2" = true) ->
  exists options,
    get_dropdown_options df = Ok options
    /\ opt_injury_types options = injury_types
    /\ (has_column df "BOROUGH" = false -> opt_boroughs options = [])
    /\ (has_column df "CRASH_YEAR" = false -> opt_years options = [])
    /\ (has_column df "VEHICLE_TYPE_CODE_1" = false -> opt_vehicle_types options = [])
    /\ (has_column df "CONTRIBUTING_FACTOR_VEHICLE_1" = false ->
        opt_contributing_factors options = [])
    /\ (empty df = false ->
        has_column df "CONTRIBUTING_FACTOR_VEHICLE_1" = true ->
        has_column df "CONTRIBUTING_FACTOR_VEHICLE_2" = false ->
        forall label,
          In label (opt_contributing_factors options)
          <-> valid_factor label = true
              /\ exists f, In f (str_cells df "CONTRIBUTING_FACTOR_VEHICLE_1")
                           /\ label = Str.strip f).
Proof.
  intros Hvehicle. unfold get_dropdown_options.
  destruct (empty df) eqn:Hempty.
  { eexists. split; [reflexivity|]. repeat split; done. }
  assert (exists boroughs,
            (if has_column df "BOROUGH" then borough_options df else mret [])
            = Ok boroughs
            /\ (has_column df "BOROUGH" = false -> boroughs = []))
    as (boroughs & -> & Hboroughs).
  { unfold borough_options, getitem_str.
    destruct (has_column df "BOROUGH"); by eexists. }
  assert (exists years,
            (if has_column df "CRASH_YEAR" then year_options df else mret [])
            = Ok years
            /\ (has_column df "CRASH_YEAR" = false -> years = []))
    as (years & -> & Hyears).
  { unfold year_options, getitem_num.
    destruct (has_column df "CRASH_YEAR"); by eexists. }
  assert (exists vehicle_types,
            (if has_column df "VEHICLE_TYPE_CODE_1" then vehicle_options df else mret [])
            = Ok vehicle_types
            /\ (has_column df "VEHICLE_TYPE_CODE_1" = false -> vehicle_types = []))
    as (vehicle_types & -> & Hvehicles).
  { destruct (has_column df "VEHICLE_TYPE_CODE_1") eqn:H1; [|by eexists].
    destruct (vehicle_options_ok df H1 (Hvehicle eq_refl)) as (v & ->). by eexists. }
  assert (exists factors,
            (if has_column df "CONTRIBUTING_FACTOR_VEHICLE_1"
             then factor_options df else mret [])
            = Ok factors
            /\ (has_column df "CONTRIBUTING_FACTOR_VEHICLE_1" = false -> factors = [])
            /\ (has_column df "CONTRIBUTING_FACTOR_VEHICLE_1" = true ->
                has_column df "CONTRIBUTING_FACTOR_VEHICLE_2" = false ->
                forall label,
                  In label factors
                  <-> valid_factor label = true
                      /\ exists f, In f (str_cells df "CONTRIBUTING_FACTOR_VEHICLE_1")
                                   /\ label = Str.strip f))
    as (factors & -> & Hnone & Hfirst).
  { destruct (has_column df "CONTRIBUTING_FACTOR_VEHICLE_1") eqn:H1; [|by eexists].
    destruct (has_column df "CONTRIBUTING_FACTOR_VEHICLE_2") eqn:H2.
    - destruct (factor_options_ok df H1) as (f & ->). by eexists.
    - destruct (factor_options_first_only df H1 H2) as (f & -> & Hf).
      eexists. split; [reflexivity|]. split; [done|]. intros _ _. exact Hf. }
  eexists. split; [reflexivity|]. cbn.
  split; [done|]. split; [done|]. split; [done|]. split; [done|]. split; [done|].
  intros _. exact Hfirst.
Qed.

Lemma options_without_second_factor_column :
  exists options,
    get_dropdown_options first_factor_only = Ok options
    /\ opt_boroughs options = []
    /\ opt_vehicle_types options = []
    /\ In "Unsafe Speed" (opt_contributing_factors options).
Proof.
  destruct (missing_column_options first_factor_only)
    as (options & Hoptions & _ & Hboroughs & _ & Hvehicles & _ & Hfactors).
  { discriminate. }
  exists options. split; [exact Hoptions|].
  split; [by apply Hboroughs|]. split; [by apply Hvehicles|].
  apply Hfactors; [reflexivity..|].
  split; [reflexivity|]. exists "Unsafe Speed". split; [|reflexivity].
  vm_compute. by left.
Defined.

(** ** More on the query parser *)

Lemma lower_char_idem c : Str.lower_char (Str.lower_char c) = Str.lower_char c.
Proof. destruct c as [[] [] [] [] [] [] [] []]; reflexivity. Qed.

Lemma is_word_lower_char c : Str.is_word (Str.lower_char c) = Str.is_word c.
Proof. destruct c as [[] [] [] [] [] [] [] []]; reflexivity. Qed.

Lemma is_decimal_lower_char c : Str.is_decimal (Str.lower_char c) = Str.is_decimal c.
Proof. destruct c as [[] [] [] [] [] [] [] []]; reflexivity. Qed.

Lemma lower_char_decimal c : Str.is_decimal c = true -> Str.lower_char c = c.
Proof. destruct c as [[] [] [] [] [] [] [] []]; (reflexivity || discriminate). Qed.

Lemma lower_idem s : Str.lower (Str.lower s) = Str.lower s.
Proof. induction s as [|c s IH]; simpl; [done|]. by rewrite lower_char_idem, IH. Qed.

Lemma eqb_lower_char_decimal c d :
  Str.is_decimal d = true -> Ascii.eqb (Str.lower_char c) d = Ascii.eqb c d.
Proof.
  intros Hd.
  destruct (Ascii.eqb_spec (Str.lower_char c) d) as [Hl|Hl],
    (Ascii.eqb_spec c d) as [Hc|Hc]; try done.
  - exfalso. apply Hc. rewrite <- Hl. symmetry. apply lower_char_decimal.
    by rewrite <- is_decimal_lower_char, Hl.
  - exfalso. apply Hl. subst. by apply lower_char_decimal.
Qed.

Lemma word_boundary_lower prev next :
  word_boundary (Str.lower_char <$> prev) (Str.lower_char <$> next)
  = word_boundary prev next.
Proof.
  unfold word_boundary. destruct prev, next; simpl; by rewrite ?is_word_lower_char.
Qed.

Lemma head_char_lower s : head_char (Str.lower s) = Str.lower_char <$> head_char s.
Proof. by destruct s. Qed.

Lemma year_re_at_lower prev s :
  year_re_at (Str.lower_char <$> prev) (Str.lower s) = year_re_at prev s.
Proof.
  destruct s as [|a [|b [|c [|d rest]]]]; try reflexivity.
  unfold year_re_at. cbn [Str.lower].
  rewrite head_char_lower.
  change (Some (Str.lower_char a)) with (Str.lower_char <$> Some a).
  change (Some (Str.lower_char d)) with (Str.lower_char <$> Some d).
  rewrite !word_boundary_lower, !is_decimal_lower_char.
  rewrite !eqb_lower_char_decimal by reflexivity.
  match goal with |- (if ?cond then _ else _) = _ => destruct cond eqn:Hcond end;
    [|done].
  apply andb_prop in Hcond as [Hcond _]. apply andb_prop in Hcond as [Hcond Hd].
  apply andb_prop in Hcond as [Hcond Hc]. apply andb_prop in Hcond as [_ Hab].
  rewrite (lower_char_decimal c Hc), (lower_char_decimal d Hd).
  apply orb_prop in Hab as [Hab|Hab]; apply andb_prop in Hab as [Ha Hb];
    apply Ascii.eqb_eq in Ha as ->, Hb as ->; reflexivity.
Qed.

Lemma re_search_from_lower prev s :
  re_search_from year_re_at (Str.lower_char <$> prev) (Str.lower s)
  = re_search_from year_re_at prev s.
Proof.
  revert prev. induction s as [|c s IH]; intros prev;
    rewrite (re_search_from_unfold _ _ (Str.lower _)), (re_search_from_unfold _ prev);
    rewrite year_re_at_lower; [done|].
  destruct (year_re_at prev (String c s)); [done|]. cbn [Str.lower]. apply (IH (Some c)).
Qed.

Lemma year_of_lower query : year_of (Str.lower query) = year_of query.
Proof.
  unfold year_of, re_search.
  rewrite !(re_search_from_ext full_year_re_at year_re_at) by apply full_year_re_at_eq.
  by rewrite (re_search_from_lower None).
Qed.

(** X1. Parsing ignores the case of the whole query, the year included: two
    queries with the same lower-cased text parse to the same dict. *)
Theorem parse_ignores_case query1 query2 :
  Str.lower query1 = Str.lower query2 ->
  parse_search_query query1 = parse_search_query query2.
Proof.
  intros Hlower. rewrite !parse_search_query_fields.
  by rewrite <- (year_of_lower query1), <- (year_of_lower query2), Hlower.
Qed.

Lemma parse_ignores_case_brooklyn :
  parse_search_query "BROOKLYN Taxi 2019" = parse_search_query "brooklyn taxi 2019".
Proof. apply parse_ignores_case. reflexivity. Defined.

Lemma parse_contributing_factor query :
  parse_search_query query !! "contributing_factor"
  = Some (found_value (first_keyword factor_keywords (Str.lower query))).
Proof. rewrite parse_search_query_fields. reflexivity. Qed.

Lemma first_keyword_some table query_lower value :
  first_keyword table query_lower = Some value ->
  exists key, In (key, value) table /\ Str.contains key query_lower = true.
Proof.
  induction table as [|[k v] table IH]; simpl; [done|].
  destruct (Str.contains k query_lower) eqn:Hk.
  - intros [= <-]. exists k. auto.
  - intros (key & Hin & Hkey)%IH. exists key. auto.
Qed.

Lemma found_value_label table query_lower :
  found_value (first_keyword table query_lower) = PNone
  \/ exists label, found_value (first_keyword table query_lower) = PStr label
                   /\ In label (labels table).
Proof.
  destruct (first_keyword table query_lower) as [value|] eqn:Hfound; [|by left].
  right. exists value. split; [done|].
  apply first_keyword_some in Hfound as (key & Hin & _).
  unfold labels. apply in_map_iff. by exists (key, value).
Qed.

Lemma re_search_from_pattern prev s m :
  re_search_from year_re_at prev s = Some m -> year_pattern m = true.
Proof.
  revert prev. induction s as [|c s IH]; intros prev;
    rewrite re_search_from_unfold, year_re_at_bounded.
  - by rewrite bounded_from_empty.
  - destruct (bounded_from prev (String c s) 0) eqn:Hb; [|apply IH].
    intros [= <-]. unfold bounded_from in Hb.
    by apply andb_prop in Hb as [[? _]%andb_prop _].
Qed.

Lemma year_of_range query :
  year_of query = PNone
  \/ exists year, year_of query = PInt year /\ (1900 <= year <= 2099)%Z.
Proof.
  unfold year_of, re_search.
  destruct (re_search_from year_re_at None query); [|by left].
  destruct (re_search_from full_year_re_at None query) as [group|] eqn:Hfull;
    [|by left].
  rewrite (re_search_from_ext full_year_re_at year_re_at) in Hfull
    by apply full_year_re_at_eq.
  apply re_search_from_pattern, year_pattern_int in Hfull as (year & -> & Hrange).
  right. by exists year.
Qed.

(** X2. The parsed dict always is a dict of exactly the five criteria
    keys, and every value is [None] or from a closed vocabulary: a label of
    the borough, vehicle or factor table, a year from 1900 to 2099, or one
    of Pedestrian, Cyclist and Motorist. *)
Theorem parse_vocabulary query :
  exists borough year vehicle_type contributing_factor injury_type,
    parse_search_query query
    = collect_filters borough year vehicle_type contributing_factor injury_type
    /\ (borough = PNone
        \/ exists label, borough = PStr label /\ In label (labels boroughs))
    /\ (year = PNone
        \/ exists y, year = PInt y /\ (1900 <= y <= 2099)%Z)
    /\ (vehicle_type = PNone
        \/ exists label, vehicle_type = PStr label /\ In label (labels vehicle_keywords))
    /\ (contributing_factor = PNone
        \/ exists label, contributing_factor = PStr label
                         /\ In label (labels factor_keywords))
    /\ In injury_type [PNone; PStr "Pedestrian"; PStr "Cyclist"; PStr "Motorist"].
Proof.
  exists (found_value (first_keyword boroughs (Str.lower query))), (year_of query),
    (found_value (first_keyword vehicle_keywords (Str.lower query))),
    (found_value (first_keyword factor_keywords (Str.lower query))),
    (injury_of (Str.lower query)).
  split; [apply parse_search_query_fields|].
  split; [apply found_value_label|]. split; [apply year_of_range|].
  split; [apply found_value_label|]. split; [apply found_value_label|].
  unfold injury_of.
  repeat match goal with |- context [if ?b then _ else _] => destruct b end;
    cbn [In]; tauto.
Qed.

(** X3. A query without any keyword of the three tables, without any word
    of the injury chain and without a delimited year parses to the dict with
    every field unset, as the empty query does. *)
Theorem parse_without_keywords query :
  Forall (fun kv => Str.contains kv.1 (Str.lower query) = false)
         (boroughs ++ vehicle_keywords ++ factor_keywords) ->
  Forall (fun word => Str.contains word (Str.lower query) = false) injury_keywords ->
  (forall i, bounded_year_at query i = false) ->
  parse_search_query query = no_filters.
Proof.
  intros Htables Hinjury Hyear. rewrite parse_search_query_fields.
  apply Forall_app in Htables as [Hb Htables].
  apply Forall_app in Htables as [Hv Hf].
  rewrite !first_keyword_none by done. rewrite (year_of_none query Hyear).
  unfold injury_of, injury_keywords in *.
  repeat (apply Forall_cons in Hinjury as [Hword Hinjury]; rewrite Hword; clear Hword).
  reflexivity.
Qed.

Lemma parse_crash_near_the_park :
  parse_search_query "Crash near the park in 20225" = no_filters.
Proof.
  apply parse_without_keywords.
  - repeat constructor.
  - repeat constructor.
  - intros i. do 29 (destruct i as [|i]; [reflexivity|]). reflexivity.
Defined.

(** ** The search callback *)

Lemma apply_filters_active_ext df filters1 filters2 :
  Forall (fun k => active filters1 k = active filters2 k) criteria_keys ->
  apply_filters df filters1 = apply_filters df filters2.
Proof.
  intros Hactive. rewrite !apply_filters_rows.
  unfold columns_read, row_matches, filter_plans,
    borough_plan, year_plan, either_plan, injury_plan.
  repeat (apply Forall_cons in Hactive as [Hk Hactive]; rewrite Hk; clear Hk).
  reflexivity.
Qed.

Lemma active_or_all v :
  (if truthy (or_all v) && negb (py_eq (or_all v) (PStr "All"))
   then Some (or_all v) else None)
  = (if truthy v && negb (py_eq v (PStr "All")) then Some v else None).
Proof. unfold or_all. destruct (truthy v) eqn:Hv; [by rewrite Hv|done]. Qed.

Lemma apply_search_values n_clicks query :
  apply_search n_clicks query
  = Ok (or_all (found_value (first_keyword boroughs (Str.lower query))),
        or_all (year_of query),
        or_all (found_value (first_keyword vehicle_keywords (Str.lower query))),
        or_all (found_value (first_keyword factor_keywords (Str.lower query))),
        or_all (injury_of (Str.lower query))).
Proof.
  destruct query as [|c query]; [reflexivity|].
  unfold apply_search, dict_item.
  change (truthy (PStr (String c query))) with true. cbv beta iota delta [negb].
  rewrite parse_borough, parse_year, parse_vehicle_type,
    parse_contributing_factor, parse_injury_type.
  reflexivity.
Qed.

(** X4. The search callback never raises, and the values it puts in the
    dropdowns select the same records as the parsed dict itself: replacing
    an unset field by "All" changes nothing for [apply_filters]. *)
Theorem search_then_filter df n_clicks query :
  exists borough year vehicle_type contributing_factor injury_type,
    apply_search n_clicks query
    = Ok (borough, year, vehicle_type, contributing_factor, injury_type)
    /\ apply_filters df
         (collect_filters borough year vehicle_type contributing_factor injury_type)
       = apply_filters df (parse_search_query query).
Proof.
  do 5 eexists. split; [apply apply_search_values|].
  rewrite parse_search_query_fields. apply apply_filters_active_ext.
  repeat constructor; unfold active, collect_filters;
    rewrite ?lookup_insert_eq;
    repeat (rewrite lookup_insert_ne by done; rewrite ?lookup_insert_eq);
    apply active_or_all.
Qed.

(** ** More on the filter engine *)

Lemma row_step_ext cols1 keep1 cols2 keep2 df :
  (forall c, In c cols1 <-> In c cols2) ->
  (forall r, keep1 r = keep2 r) ->
  row_step cols1 keep1 df = row_step cols2 keep2 df.
Proof.
  intros Hcols Hkeep. unfold row_step.
  assert (forallb (has_column df) cols1 = forallb (has_column df) cols2) as ->.
  { apply eq_true_iff_eq. rewrite !forallb_forall.
    split; intros H c Hc; apply H, Hcols, Hc. }
  destruct (forallb _ cols2); [|done].
  f_equal. f_equal. apply filter_ext_in. auto.
Qed.

Lemma apply_filters_twice df filters1 filters2 :
  (filtered_df ← apply_filters df filters1; apply_filters filtered_df filters2)
  = row_step (columns_read filters1 ++ columns_read filters2)
             (fun r => row_matches filters1 r && row_matches filters2 r) df.
Proof.
  rewrite <- row_step_bind, apply_filters_rows.
  destruct (row_step (columns_read filters1) (row_matches filters1) df); [|done].
  simpl. apply apply_filters_rows.
Qed.

Lemma filter_sublist {A} (keep : A -> bool) l : sublist (List.filter keep l) l.
Proof.
  induction l as [|x l IH]; simpl; [constructor|].
  destruct (keep x); by constructor.
Qed.

Lemma forallb_false {A} (f : A -> bool) l :
  forallb f l = false -> exists x, In x l /\ f x = false.
Proof.
  induction l as [|x l IH]; simpl; [done|].
  destruct (f x) eqn:Hx; simpl.
  - intros (y & Hy & Hfy)%IH. eauto.
  - intros _. eauto.
Qed.

(** X5. [apply_filters] raises nothing but [KeyError], and raises it exactly
    when a column read by an active criterion is missing from the frame. *)
Theorem apply_filters_key_error df filters :
  (forall e, apply_filters df filters = Raise e ->
     e = KeyError
     /\ exists col, In col (columns_read filters) /\ has_column df col = false)
  /\ (forall col, In col (columns_read filters) -> has_column df col = false ->
        apply_filters df filters = Raise KeyError).
Proof.
  rewrite apply_filters_rows. unfold row_step. split.
  - intros e. destruct (forallb _ _) eqn:Hcols; [done|]. intros [= <-].
    split; [done|]. by apply forallb_false.
  - intros col Hcol Hmissing.
    destruct (forallb _ _) eqn:Hcols; [|done].
    rewrite forallb_forall in Hcols. by rewrite (Hcols col Hcol) in Hmissing.
Qed.

Lemma borough_criterion_without_column :
  apply_filters no_borough_column (<["borough" := PStr "QUEENS"]> ∅) = Raise KeyError.
Proof.
  apply (proj2 (apply_filters_key_error no_borough_column
                  (<["borough" := PStr "QUEENS"]> ∅)) "BOROUGH").
  - vm_compute. tauto.
  - reflexivity.
Defined.

(** X6. The result of [apply_filters] has the columns of the input, and its
    rows are rows of the input in their original order: nothing is added,
    changed or reordered. *)
Theorem apply_filters_sublist df filters filtered_df :
  apply_filters df filters = Ok filtered_df ->
  columns filtered_df = columns df /\ sublist (rows filtered_df) (rows df).
Proof.
  rewrite apply_filters_rows. unfold row_step.
  destruct (forallb _ _); [|done]. intros [= <-]. split; [done|].
  apply filter_sublist.
Qed.

Lemma queens_of_five_crashes_sublist :
  exists filtered_df,
    apply_filters five_crashes (<["borough" := PStr "QUEENS"]> ∅) = Ok filtered_df
    /\ columns filtered_df = columns five_crashes
    /\ sublist (rows filtered_df) (rows five_crashes).
Proof.
  eexists. split; [vm_compute; reflexivity|].
  apply (apply_filters_sublist five_crashes (<["borough" := PStr "QUEENS"]> ∅)).
  vm_compute; reflexivity.
Defined.

(** X7. A criterion whose value is falsy (0, the empty string, [False]) or
    "All" is ignored as if its key were missing. *)
Theorem apply_filters_ignores_falsy df filters k v :
  filters !! k = Some v ->
  truthy v = false \/ py_eq v (PStr "All") = true ->
  apply_filters df filters = apply_filters df (delete k filters).
Proof.
  intros Hk Hv. apply apply_filters_active_ext.
  assert (Hnone : active filters k = None).
  { unfold active. rewrite Hk. by destruct Hv as [-> | ->]; rewrite ?andb_false_r. }
  apply List.Forall_forall. intros k' _.
  destruct (decide (k = k')) as [<-|Hne].
  - by rewrite active_delete_eq.
  - by rewrite active_delete_ne.
Qed.

Lemma year_zero_is_ignored :
  apply_filters five_crashes (<["year" := PInt 0]> (<["borough" := PStr "QUEENS"]> ∅))
  = apply_filters five_crashes
      (delete "year" (<["year" := PInt 0]> (<["borough" := PStr "QUEENS"]> ∅))).
Proof.
  apply (apply_filters_ignores_falsy _ _ "year" (PInt 0)).
  - reflexivity.
  - left. reflexivity.
Defined.

(** X8. Two criteria records can be applied in either order: the outcome,
    frame or [KeyError], is the same. *)
Theorem apply_filters_commute df filters1 filters2 :
  (filtered_df ← apply_filters df filters1; apply_filters filtered_df filters2)
  = (filtered_df ← apply_filters df filters2; apply_filters filtered_df filters1).
Proof.
  rewrite !apply_filters_twice. apply row_step_ext.
  - intros c. rewrite !in_app_iff. tauto.
  - intros r. apply andb_comm.
Qed.

Lemma active_insert_eq filters k v :
  active (<[k := v]> filters) k = active (<[k := v]> ∅) k.
Proof. unfold active. by rewrite !lookup_insert_eq. Qed.

Lemma active_insert_ne filters k v k' :
  k <> k' -> active (<[k := v]> filters) k' = active filters k'.
Proof. intros Hne. unfold active. by rewrite lookup_insert_ne. Qed.

Lemma active_singleton_ne k v k' : k <> k' -> active (<[k := v]> ∅) k' = None.
Proof. intros Hne. unfold active. by rewrite lookup_insert_ne, lookup_empty. Qed.

Ltac split_plans :=
  apply row_step_ext;
  [ intros col; cbn [map concat fst no_constraint]; rewrite !in_app_iff; cbn [In]; tauto
  | intros r; cbn [forallb snd no_constraint];
    repeat match goal with
           | |- context [snd ?p r] => is_var p; destruct (snd p r)
           end; reflexivity ].

Lemma row_step_one_more (p1 p2 p3 p4 p5 : plan) df :
  let all := [p1; p2; p3; p4; p5] in
  let step (old new : list plan) :=
    row_step (concat (map fst old) ++ concat (map fst new))
      (fun r => forallb (fun p : plan => snd p r) old
                && forallb (fun p : plan => snd p r) new) df in
  let none := no_constraint in
  let whole :=
    row_step (concat (map fst all)) (fun r => forallb (fun p : plan => snd p r) all) df in
  whole = step [none; p2; p3; p4; p5] [p1; none; none; none; none]
  /\ whole = step [p1; none; p3; p4; p5] [none; p2; none; none; none]
  /\ whole = step [p1; p2; none; p4; p5] [none; none; p3; none; none]
  /\ whole = step [p1; p2; p3; none; p5] [none; none; none; p4; none]
  /\ whole = step [p1; p2; p3; p4; none] [none; none; none; none; p5].
Proof. cbv zeta. repeat split; split_plans. Qed.

(** X9. Adding a criterion for a dimension that had none gives the same
    outcome as filtering first with the old criteria and then with the new
    criterion alone: criteria can be applied one at a time. *)
Theorem apply_filters_one_more df filters k v :
  In k criteria_keys ->
  active filters k = None ->
  apply_filters df (<[k := v]> filters)
  = (filtered_df ← apply_filters df filters;
     apply_filters filtered_df (<[k := v]> ∅)).
Proof.
  intros Hk Hnone. rewrite apply_filters_twice, apply_filters_rows.
  unfold columns_read, row_matches, filter_plans,
    borough_plan, year_plan, either_plan, injury_plan.
  unfold criteria_keys in Hk. cbn [In] in Hk.
  destruct Hk as [<-|[<-|[<-|[<-|[<-|[]]]]]];
    rewrite Hnone, active_insert_eq;
    repeat match goal with
           | |- context [active (<[?k := v]> filters) ?k'] =>
               rewrite (active_insert_ne filters k v k') by done
           | |- context [active (<[?k := v]> ∅) ?k'] =>
               rewrite (active_singleton_ne k v k') by done
           end;
    match goal with
    | |- row_step (concat (map fst [?p1; ?p2; ?p3; ?p4; ?p5])) _ _ = _ =>
        pose proof (row_step_one_more p1 p2 p3 p4 p5 df) as Hsplit
    end;
    cbv zeta in Hsplit; destruct Hsplit as (H1 & H2 & H3 & H4 & H5);
    first [exact H1 | exact H2 | exact H3 | exact H4 | exact H5].
Qed.

Lemma queens_then_year_of_five_crashes :
  apply_filters five_crashes (<["year" := PInt 2022]> (<["borough" := PStr "QUEENS"]> ∅))
  = (filtered_df ← apply_filters five_crashes (<["borough" := PStr "QUEENS"]> ∅);
     apply_filters filtered_df (<["year" := PInt 2022]> ∅)).
Proof.
  apply apply_filters_one_more.
  - unfold criteria_keys. cbn [In]. tauto.
  - reflexivity.
Defined.

(** ** More on the categorical normalizer *)

Section Unique.
Context {A : Type} (eqb : A -> A -> bool).

Lemma unique_from_subset seen l x :
  In x (unique_from eqb seen l) -> In x l.
Proof.
  revert seen. induction l as [|y l IH]; intros seen; simpl; [done|].
  destruct (existsb (eqb y) seen); simpl; [eauto|].
  intros [->|Hx]; eauto.
Qed.

Hypothesis eqb_eq : forall x y, eqb x y = true <-> x = y.

Lemma existsb_eqb_In_gen x seen : existsb (eqb x) seen = true <-> In x seen.
Proof.
  rewrite existsb_exists. split.
  - by intros (y & Hy & ->%eqb_eq).
  - intros Hx. exists x. split; [done|]. by apply eqb_eq.
Qed.

Lemma unique_from_In_gen seen l x :
  In x (unique_from eqb seen l) <-> In x l /\ ~ In x seen.
Proof.
  revert seen. induction l as [|y l IH]; intros seen; simpl; [tauto|].
  destruct (existsb (eqb y) seen) eqn:Hy.
  - apply existsb_eqb_In_gen in Hy. rewrite IH. split; [tauto|].
    intros [[->|Hx] Hseen]; tauto.
  - assert (~ In y seen) as Hy' by (rewrite <- existsb_eqb_In_gen; congruence).
    simpl. rewrite IH. simpl. split.
    + intros [->|[Hx Hseen]]; [tauto|]. split; [tauto|]. intros Hin. apply Hseen. by right.
    + intros [[->|Hx] Hseen]; [by left|]. 
      destruct (eqb y x) eqn:Hyx; [apply eqb_eq in Hyx; by left|].
      right. split; [done|]. intros [->|Hin]; [|done].
      assert (eqb x x = true) by (by apply eqb_eq). congruence.
Qed.

Lemma unique_from_NoDup_gen seen l : NoDup (unique_from eqb seen l).
Proof.
  revert seen. induction l as [|y l IH]; intros seen; simpl; [constructor|].
  destruct (existsb (eqb y) seen); [apply IH|].
  constructor; [|apply IH].
  rewrite list_elem_of_In, unique_from_In_gen. simpl. tauto.
Qed.
End Unique.

Lemma sorted_NoDup {A} (before : A -> A -> bool) l : NoDup l -> NoDup (sorted before l).
Proof. intros Hl. by rewrite sorted_perm. Qed.

Lemma int_of_float_range q :
  Qle_bool 1900 q = true -> Qle_bool q 2100 = true ->
  (1900 <= int_of_float q <= 2100)%Z.
Proof.
  rewrite !Qle_bool_iff. unfold Qle, int_of_float. destruct q as [num den]. simpl.
  intros Hlow Hhigh.
  rewrite Z.quot_div_nonneg by lia. split.
  - apply Z.div_le_lower_bound; lia.
  - apply Z.div_le_upper_bound; lia.
Qed.

Lemma get_dropdown_options_years df options :
  get_dropdown_options df = Ok options ->
  opt_years options = []
  \/ year_options df = Ok (opt_years options).
Proof.
  unfold get_dropdown_options.
  destruct (empty df); [intros [= <-]; by left|].
  destruct (if has_column df "BOROUGH" then _ else _) as [boroughs|]; [|done].
  cbn [mbind result_bind].
  destruct (has_column df "CRASH_YEAR").
  - destruct (year_options df) as [years|]; [|done]. cbn [mbind result_bind].
    destruct (if has_column df "VEHICLE_TYPE_CODE_1" then _ else _); [|done].
    cbn [mbind result_bind].
    destruct (if has_column df "CONTRIBUTING_FACTOR_VEHICLE_1" then _ else _); [|done].
    intros [= <-]. by right.
  - cbn [mbind result_bind mret result_ret].
    destruct (if has_column df "VEHICLE_TYPE_CODE_1" then _ else _); [|done].
    cbn [mbind result_bind].
    destruct (if has_column df "CONTRIBUTING_FACTOR_VEHICLE_1" then _ else _); [|done].
    intros [= <-]. by left.
Qed.

(** X10. The years offered are in strictly ascending order, each is between
    1900 and 2100, and each is the integer part of a cell of the year
    column that lies in that range. *)
Theorem year_options_sorted_in_range df options :
  get_dropdown_options df = Ok options ->
  StronglySorted Z.lt (opt_years options)
  /\ forall year, In year (opt_years options) ->
       (1900 <= year <= 2100)%Z
       /\ exists cell, In (Some cell) (num_cells df "CRASH_YEAR")
                       /\ year = int_of_float cell.
Proof.
  intros [->|Hyears]%get_dropdown_options_years; [split; [constructor|done]|].
  unfold year_options, getitem_num in Hyears.
  destruct (has_column df "CRASH_YEAR"); [|done].
  cbn [mbind result_bind mret result_ret] in Hyears. injection Hyears as <-.
  split.
  - match goal with |- StronglySorted _ (sorted _ ?l) => set (years := l) end.
    assert (Hnodup : NoDup (sorted Z.leb years)).
    { apply sorted_NoDup, unique_from_NoDup_gen. apply Z.eqb_eq. }
    assert (Hsorted : StronglySorted (fun a b => Z.leb a b = true) (sorted Z.leb years)).
    { apply sorted_strongly.
      - intros x y. rewrite !Z.leb_le. lia.
      - intros x y z. rewrite !Z.leb_le. lia. }
    induction Hsorted as [|y l Hl IH Hy]; [constructor|].
    apply NoDup_cons in Hnodup as [Hnotin Hnodup].
    constructor; [by apply IH|].
    rewrite List.Forall_forall in *. intros z Hz.
    specialize (Hy z Hz). apply Z.leb_le in Hy.
    assert (y <> z) by (intros ->; by apply Hnotin, list_elem_of_In). lia.
  - intros year. rewrite sorted_In.
    intros Hyear%unique_from_subset.
    apply in_map_iff in Hyear as (cell & <- & Hcell).
    apply filter_In in Hcell as [Hcell [Hlow Hhigh]%andb_prop].
    apply unique_from_subset in Hcell.
    split; [by apply int_of_float_range|].
    exists cell. split; [|done]. unfold num_cells. by apply dropna_In.
Qed.

Lemma year_options_of_noisy_years :
  exists options,
    get_dropdown_options noisy_years = Ok options
    /\ opt_years options = [2019; 2022]%Z
    /\ StronglySorted Z.lt (opt_years options).
Proof.
  eexists. split; [vm_compute; reflexivity|]. split; [reflexivity|].
  apply (year_options_sorted_in_range noisy_years). vm_compute; reflexivity.
Defined.

Lemma get_dropdown_options_inv df options :
  get_dropdown_options df = Ok options ->
  (empty df = true /\ options = mkOptions [] [] [] [] injury_types)
  \/ (empty df = false
      /\ (if has_column df "BOROUGH" then borough_options df else Ok [])
         = Ok (opt_boroughs options)
      /\ (if has_column df "CRASH_YEAR" then year_options df else Ok [])
         = Ok (opt_years options)
      /\ (if has_column df "VEHICLE_TYPE_CODE_1" then vehicle_options df else Ok [])
         = Ok (opt_vehicle_types options)
      /\ (if has_column df "CONTRIBUTING_FACTOR_VEHICLE_1"
          then factor_options df else Ok [])
         = Ok (opt_contributing_factors options)).
Proof.
  unfold get_dropdown_options.
  destruct (empty df); [intros [= <-]; by left|].
  change (@mret result _ (list string) []) with (@Ok (list string) []).
  change (@mret result _ (list Z) []) with (@Ok (list Z) []).
  destruct (if has_column df "BOROUGH" then _ else _); [|done].
  destruct (if has_column df "CRASH_YEAR" then _ else _); [|done].
  destruct (if has_column df "VEHICLE_TYPE_CODE_1" then _ else _); [|done].
  destruct (if has_column df "CONTRIBUTING_FACTOR_VEHICLE_1" then _ else _); [|done].
  cbn. intros [= <-]. by right.
Qed.

Lemma string_le_sorted l :
  StronglySorted (fun a b => Str.leb a b = true) (sorted Str.leb l).
Proof.
  apply sorted_strongly.
  - apply String.leb_total.
  - intros x y z Hxy Hyz.
    pose proof (@transitivity _ String.le _ x y z) as Htrans.
    unfold String.le in Htrans. unfold Str.leb in *.
    apply Is_true_true, Htrans; by apply Is_true_true.
Qed.

Lemma borough_options_In df options b :
  get_dropdown_options df = Ok options ->
  In b (opt_boroughs options)
  <-> empty df = false
      /\ has_column df "BOROUGH" = true
      /\ In b (str_cells df "BOROUGH")
      /\ b <> "" /\ Str.strip b <> "".
Proof.
  intros [[Hempty ->]|(Hempty & Hboroughs & _)]%get_dropdown_options_inv.
  { cbn. rewrite Hempty. split; [done|]. by intros [? _]. }
  destruct (has_column df "BOROUGH") eqn:Hcol.
  - unfold borough_options, getitem_str in Hboroughs. rewrite Hcol in Hboroughs.
    cbn [mbind result_bind mret result_ret] in Hboroughs.
    injection Hboroughs as <-.
    rewrite sorted_In, filter_In, unique_In. unfold str_cells.
    rewrite andb_true_iff, !negb_true_iff, !String.eqb_neq. tauto.
  - injection Hboroughs as <-. split; [done|]. by intros (_ & ? & _).
Qed.

(** X11. For a frame with rows and a borough column, the boroughs offered
    are exactly the cells of that column that are not empty and not blank,
    each once, in ascending order. *)
Theorem borough_options_exact df options :
  get_dropdown_options df = Ok options ->
  NoDup (opt_boroughs options)
  /\ StronglySorted (fun a b => Str.leb a b = true) (opt_boroughs options)
  /\ forall b, In b (opt_boroughs options)
       <-> empty df = false
           /\ has_column df "BOROUGH" = true
           /\ In b (str_cells df "BOROUGH")
           /\ b <> "" /\ Str.strip b <> "".
Proof.
  intros Hoptions.
  split; [|split]; [| |intros b; by apply borough_options_In].
  - apply get_dropdown_options_inv in Hoptions
      as [[Hempty ->]|(Hempty & Hboroughs & _)]; [constructor|].
    destruct (has_column df "BOROUGH") eqn:Hcol;
      [|injection Hboroughs as <-; constructor].
    unfold borough_options, getitem_str in Hboroughs. rewrite Hcol in Hboroughs.
    cbn [mbind result_bind mret result_ret] in Hboroughs.
    injection Hboroughs as <-.
    apply sorted_NoDup. apply NoDup_ListNoDup, List.NoDup_filter, NoDup_ListNoDup.
    apply unique_from_NoDup.
  - apply get_dropdown_options_inv in Hoptions
      as [[Hempty ->]|(Hempty & Hboroughs & _)]; [constructor|].
    destruct (has_column df "BOROUGH") eqn:Hcol;
      [|injection Hboroughs as <-; constructor].
    unfold borough_options, getitem_str in Hboroughs. rewrite Hcol in Hboroughs.
    cbn [mbind result_bind mret result_ret] in Hboroughs.
    injection Hboroughs as <-.
    apply string_le_sorted.
Qed.

Lemma borough_options_of_five_crashes :
  exists options,
    get_dropdown_options five_crashes = Ok options
    /\ opt_boroughs options = ["BROOKLYN"; "QUEENS"]
    /\ NoDup (opt_boroughs options).
Proof.
  eexists. split; [vm_compute; reflexivity|]. split; [reflexivity|].
  apply (borough_options_exact five_crashes). vm_compute; reflexivity.
Defined.

(** X13. For a frame with rows and the first factor column, the
    contributing factors offered are exactly the stripped cells of the two
    factor columns (of the first alone when the second is missing) that
    pass the validity test, each once, in ascending order; "Unspecified" is
    never offered. *)
Theorem factor_options_exact df options :
  get_dropdown_options df = Ok options ->
  NoDup (opt_contributing_factors options)
  /\ StronglySorted (fun a b => Str.leb a b = true) (opt_contributing_factors options)
  /\ ~ In "Unspecified" (opt_contributing_factors options)
  /\ forall label, In label (opt_contributing_factors options)
       <-> empty df = false
           /\ has_column df "CONTRIBUTING_FACTOR_VEHICLE_1" = true
           /\ valid_factor label = true
           /\ exists f,
                (In f (str_cells df "CONTRIBUTING_FACTOR_VEHICLE_1")
                 \/ has_column df "CONTRIBUTING_FACTOR_VEHICLE_2" = true
                    /\ In f (str_cells df "CONTRIBUTING_FACTOR_VEHICLE_2"))
                /\ label = Str.strip f.
Proof.
  intros Hoptions.
  assert (Hexact : NoDup (opt_contributing_factors options)
    /\ StronglySorted (fun a b => Str.leb a b = true) (opt_contributing_factors options)
    /\ forall label, In label (opt_contributing_factors options)
       <-> empty df = false
           /\ has_column df "CONTRIBUTING_FACTOR_VEHICLE_1" = true
           /\ valid_factor label = true
           /\ exists f,
                (In f (str_cells df "CONTRIBUTING_FACTOR_VEHICLE_1")
                 \/ has_column df "CONTRIBUTING_FACTOR_VEHICLE_2" = true
                    /\ In f (str_cells df "CONTRIBUTING_FACTOR_VEHICLE_2"))
                /\ label = Str.strip f).
  { apply get_dropdown_options_inv in Hoptions
      as [[Hempty ->]|(Hempty & _ & _ & _ & Hfactors)].
    { cbn. split; [constructor|]. split; [constructor|].
      intros label. rewrite Hempty. split; [done|]. by intros [? _]. }
    destruct (has_column df "CONTRIBUTING_FACTOR_VEHICLE_1") eqn:H1.
    - unfold factor_options, getitem_str in Hfactors. rewrite H1 in Hfactors.
      cbn [mbind result_bind mret result_ret] in Hfactors.
      assert (Hsecond : forall f,
                In f (if has_column df "CONTRIBUTING_FACTOR_VEHICLE_2"
                      then unique String.eqb
                             (dropna (map (fun r => strs r !! "CONTRIBUTING_FACTOR_VEHICLE_2")
                                          (rows df)))
                      else [])
                <-> has_column df "CONTRIBUTING_FACTOR_VEHICLE_2" = true
                    /\ In f (str_cells df "CONTRIBUTING_FACTOR_VEHICLE_2")).
      { intros f. destruct (has_column df "CONTRIBUTING_FACTOR_VEHICLE_2").
        - rewrite unique_In. unfold str_cells. tauto.
        - split; [done|]. by intros [? _]. }
      destruct (has_column df "CONTRIBUTING_FACTOR_VEHICLE_2");
        cbn [mbind result_bind mret result_ret] in Hfactors;
        injection Hfactors as <-;
        (split; [apply sorted_NoDup, unique_from_NoDup|]);
        (split; [apply string_le_sorted|]);
        intros label;
        rewrite sorted_In, unique_In, !filter_In, in_map_iff;
        setoid_rewrite unique_In; setoid_rewrite in_app_iff;
        setoid_rewrite unique_In; unfold str_cells in *; cbn [In];
        (split;
         [ intros [[(f & <- & Hf) Hvalid] _]; repeat split; try done;
           exists f; split; [|done]; destruct Hf as [Hf|Hf]; [by left|];
           first [right; by split | done]
         | intros (_ & _ & Hvalid & f & Hf & ->); split;
           [ split; [|done]; exists f; split; [done|];
             destruct Hf as [Hf|[Hcol Hf]]; [by left|]; first [by right | done]
           | by apply negb_true_iff, String.eqb_neq, valid_factor_nonempty ] ]).
    - injection Hfactors as <-. split; [constructor|]. split; [constructor|].
      intros label. split; [done|]. by intros (_ & ? & _). }
  destruct Hexact as (Hnodup & Hsorted & Hin).
  split; [done|]. split; [done|]. split; [|done].
  intros (_ & _ & Hvalid & _)%Hin. discriminate Hvalid.
Qed.

Lemma factor_options_of_five_crashes :
  exists options,
    get_dropdown_options five_crashes = Ok options
    /\ opt_contributing_factors options = ["Alcohol Involvement"; "Unsafe Speed"]
    /\ ~ In "Unspecified" (opt_contributing_factors options).
Proof.
  eexists. split; [vm_compute; reflexivity|]. split; [reflexivity|].
  apply (factor_options_exact five_crashes). vm_compute; reflexivity.
Defined.

Lemma sublist_map {A B} (f : A -> B) l1 l2 :
  sublist l1 l2 -> sublist (map f l1) (map f l2).
Proof. induction 1; simpl; by constructor. Qed.

Lemma list_remove_spec x l :
  In x l ->
  exists l',
    list_remove x l = Ok l'
    /\ sublist l' l
    /\ (forall y, In y l -> y <> x -> In y l')
    /\ (NoDup l -> ~ In x l').
Proof.
  induction l as [|z l IH]; simpl; [done|].
  destruct (String.eqb z x) eqn:Hz.
  - apply String.eqb_eq in Hz as ->. intros _. exists l.
    split; [done|]. split; [by constructor|]. split.
    + intros y [->|Hy] Hne; done.
    + intros [Hx _]%NoDup_cons. by rewrite <- list_elem_of_In.
  - apply String.eqb_neq in Hz. intros [->|Hx]; [done|].
    destruct (IH Hx) as (l' & -> & Hsub & Hother & Hgone). exists (z :: l').
    split; [done|]. split; [by constructor|]. split.
    + intros y [->|Hy] Hne; simpl; auto.
    + intros [_ Hl]%NoDup_cons [->|Hin]; [done|]. by apply Hgone.
Qed.

Lemma dedup_step_invariant count input st v_type :
  dedup_invariant input st -> In v_type input ->
  exists st', dedup_step count st v_type = Ok st' /\ dedup_invariant input st'.
Proof.
  destruct st as [seen_lower deduplicated]. unfold dedup_invariant, dedup_step.
  cbn [fst snd]. intros (Hseen & Hded & Hnodup) Hinput.
  assert (Hadd : forall d : list string,
            sublist d deduplicated ->
            (forall y, In y deduplicated -> Str.lower y <> Str.lower v_type -> In y d) ->
            (forall y, In y d -> Str.lower y <> Str.lower v_type) ->
            (forall k v, <[Str.lower v_type := v_type]> seen_lower !! k = Some v ->
                         In v (d ++ [v_type]) /\ Str.lower v = k)
            /\ (forall v, In v (d ++ [v_type]) ->
                  <[Str.lower v_type := v_type]> seen_lower !! Str.lower v = Some v
                  /\ In v input)
            /\ NoDup (map Str.lower (d ++ [v_type]))).
  { intros d Hsub Hkeep Hfresh. split; [|split].
    - intros k v. rewrite lookup_insert. case_decide as Hk.
      + intros [= <-]. split; [|done]. apply in_or_app. right. by left.
      + intros Hv. destruct (Hseen k v Hv) as [Hin Hlow]. split; [|done].
        apply in_or_app. left. apply Hkeep; [done|]. congruence.
    - intros v [Hv|[<-|[]]]%in_app_or.
      + rewrite lookup_insert_ne by (intros Heq; by apply (Hfresh v Hv)).
        apply Hded. apply list_elem_of_In. eapply elem_of_sublist; [|done].
        by apply list_elem_of_In.
      + by rewrite lookup_insert_eq.
    - rewrite map_app. apply NoDup_app. split; [|split].
      + eapply sublist_NoDup; [exact Hnodup|]. by apply sublist_map.
      + intros k Hk Hk'. apply list_elem_of_In in Hk, Hk'.
        apply in_map_iff in Hk as (y & <- & Hy).
        destruct Hk' as [Hk'|[]]. by apply (Hfresh y Hy).
      + apply NoDup_singleton. }
  destruct (seen_lower !! Str.lower v_type) as [existing|] eqn:Hexisting.
  - destruct (count existing <? count v_type).
    + destruct (Hseen _ _ Hexisting) as [Hin Hlow].
      destruct (list_remove_spec existing deduplicated Hin)
        as (d & -> & Hsub & Hother & Hgone).
      eexists. split; [reflexivity|]. cbn [fst snd]. apply Hadd; [done| |].
      * intros y Hy Hne. apply Hother; [done|]. intros ->. by rewrite Hlow in Hne.
      * intros y Hy Hlower. apply Hgone.
        { eapply NoDup_fmap_1. exact Hnodup. }
        assert (In y deduplicated) as Hy'.
        { apply list_elem_of_In. eapply elem_of_sublist; [|done].
          by apply list_elem_of_In. }
        destruct (Hded y Hy') as [Hlookup _]. rewrite Hlower in Hlookup.
        assert (y = existing) as -> by congruence. done.
    + eexists. split; [reflexivity|]. done.
  - eexists. split; [reflexivity|]. cbn [fst snd]. apply Hadd; [done|auto|].
    intros y Hy Hlower. destruct (Hded y Hy) as [Hlookup _].
    rewrite Hlower in Hlookup. congruence.
Qed.

Lemma dedup_invariant_weaken input input' st :
  (forall v, In v input -> In v input') ->
  dedup_invariant input st -> dedup_invariant input' st.
Proof.
  intros Hsub (Hseen & Hded & Hnodup). split; [done|]. split; [|done].
  intros v Hv. destruct (Hded v Hv). auto.
Qed.

Lemma dedup_loop_invariant count input st l :
  dedup_invariant input st -> (forall v, In v l -> In v input) ->
  exists st', dedup_loop count st l = Ok st' /\ dedup_invariant input st'.
Proof.
  revert st. induction l as [|v_type l IH]; intros st Hinv Hl; simpl.
  - by eexists.
  - destruct (dedup_step_invariant count input st v_type Hinv) as (st' & -> & Hinv').
    { apply Hl. by left. }
    apply (IH st' Hinv'). intros v Hv. apply Hl. by right.
Qed.

(** X12. The vehicle types offered are at most 50, in ascending order, and
    no two of them are equal when case is ignored; each passes the validity
    test and is the stripped form of a cell of one of the two vehicle-type
    columns. *)
Theorem vehicle_options_distinct df options :
  get_dropdown_options df = Ok options ->
  length (opt_vehicle_types options) <= 50
  /\ StronglySorted (fun a b => Str.leb a b = true) (opt_vehicle_types options)
  /\ NoDup (map Str.lower (opt_vehicle_types options))
  /\ forall v, In v (opt_vehicle_types options) ->
       valid_vehicle v = true
       /\ exists cell,
            (In cell (str_cells df "VEHICLE_TYPE_CODE_1")
             \/ In cell (str_cells df "VEHICLE_TYPE_CODE_2"))
            /\ v = Str.strip cell.
Proof.
  intros [[_ ->]|(_ & _ & _ & Hvehicles & _)]%get_dropdown_options_inv.
  { cbn. split; [lia|]. split; [constructor|]. split; [constructor|]. done. }
  destruct (has_column df "VEHICLE_TYPE_CODE_1") eqn:H1.
  2:{ injection Hvehicles as <-. cbn.
      split; [lia|]. split; [constructor|]. split; [constructor|]. done. }
  unfold vehicle_options, getitem_str in Hvehicles. rewrite H1 in Hvehicles.
  destruct (has_column df "VEHICLE_TYPE_CODE_2"); [|done].
  cbn [mbind result_bind] in Hvehicles.
  match type of Hvehicles with
  | context [dedup_loop ?count ?st ?input] =>
      destruct (dedup_loop_invariant count input st input)
        as ([seen_lower deduplicated] & Hloop & _ & Hded & Hnodup);
      [ | done | rewrite Hloop in Hvehicles ]
  end.
  { split; [|split]; cbn [fst snd].
    - intros k v. by rewrite lookup_empty.
    - done.
    - constructor. }
  cbn [fst snd] in Hded, Hnodup.
  cbn [mbind result_bind mret result_ret] in Hvehicles. injection Hvehicles as <-.
  split; [|split; [|split]].
  - rewrite sorted_perm, length_take. lia.
  - apply string_le_sorted.
  - rewrite sorted_perm.
    eapply sublist_NoDup; [|apply sublist_map, sublist_take].
    by rewrite sorted_perm.
  - intros v. rewrite sorted_In. intros Hv.
    assert (In v deduplicated) as [_ Hinput]%Hded.
    { eapply sorted_In.
      apply list_elem_of_In. eapply elem_of_sublist; [|apply sublist_take].
      apply list_elem_of_In. exact Hv. }
    apply filter_In in Hinput as [Hcell Hvalid]. split; [done|].
    apply in_map_iff in Hcell as ([cell n] & <- & Hcell).
    apply value_counts_In in Hcell as [Hcell _].
    rewrite dropna_app in Hcell. apply in_app_or in Hcell.
    exists cell. by split.
Qed.

Lemma vehicle_options_of_sedan_spellings :
  exists options,
    get_dropdown_options sedan_spellings = Ok options
    /\ opt_vehicle_types options = ["SEDAN"]
    /\ NoDup (map Str.lower (opt_vehicle_types options)).
Proof.
  eexists. split; [vm_compute; reflexivity|]. split; [reflexivity|].
  apply (vehicle_options_distinct sedan_spellings). vm_compute; reflexivity.
Defined.

Lemma str_cells_row df col cell :
  In cell (str_cells df col) -> exists r, In r (rows df) /\ strs r !! col = Some cell.
Proof.
  unfold str_cells. rewrite dropna_In, in_map_iff. intros (r & Hr & Hin). eauto.
Qed.

(** X14. A borough offered by [get_dropdown_options] always selects at
    least one record: filtering the same frame by it does not raise and
    gives a non-empty result. *)
Theorem offered_borough_selects_records df options b :
  get_dropdown_options df = Ok options ->
  In b (opt_boroughs options) ->
  exists filtered_df,
    apply_filters df (<["borough" := PStr b]> ∅) = Ok filtered_df
    /\ rows filtered_df <> [].
Proof.
  intros Hoptions Hb.
  apply (borough_options_In df options b Hoptions) in Hb
    as (_ & Hcol & (r & Hr & Hcell)%str_cells_row & Hne & _).
  rewrite apply_filters_rows.
  unfold row_step, columns_read, row_matches, filter_plans,
    borough_plan, year_plan, either_plan, injury_plan.
  rewrite (active_singleton_ne _ _ "year"), (active_singleton_ne _ _ "vehicle_type"),
    (active_singleton_ne _ _ "contributing_factor"),
    (active_singleton_ne _ _ "injury_type") by done.
  unfold active. rewrite lookup_insert_eq. cbn [truthy py_eq].
  apply String.eqb_neq in Hne. rewrite Hne. cbn [negb andb].
  destruct (negb (String.eqb b "All")); cbn [map concat fst snd app forallb no_constraint].
  - rewrite Hcol. cbn [andb]. eexists. split; [reflexivity|]. cbn [rows].
    intros Hnil.
    assert (In r (List.filter (fun r => str_equals "BOROUGH" (PStr b) r && true) (rows df)))
      as Hin.
    { apply filter_In. split; [done|]. unfold str_equals, str_cell_eq.
      by rewrite Hcell, String.eqb_refl. }
    cbn [andb] in *. by rewrite Hnil in Hin.
  - eexists. split; [reflexivity|]. cbn [rows]. rewrite filter_true.
    intros Hnil. by rewrite Hnil in Hr.
Qed.

Lemma queens_is_offered_and_selects :
  exists filtered_df,
    apply_filters five_crashes (<["borough" := PStr "QUEENS"]> ∅) = Ok filtered_df
    /\ rows filtered_df <> [].
Proof.
  eapply (offered_borough_selects_records five_crashes _ "QUEENS").
  - vm_compute. reflexivity.
  - cbn. tauto.
Defined.

(** ** The borough and injury-type series *)

Lemma total_count_perm series1 series2 :
  series1 ≡ₚ series2 -> total_count series1 = total_count series2.
Proof.
  unfold total_count. induction 1; simpl; lia.
Qed.

Lemma count_none x labels :
  ~ In x labels ->
  foldr (fun v acc => (if String.eqb v x then 1 else 0) + acc) 0 labels = 0.
Proof.
  induction labels as [|w labels IH]; simpl; [done|]. intros Hx.
  destruct (String.eqb_spec w x) as [->|Hne]; [tauto|]. apply IH. tauto.
Qed.

Lemma count_one x labels :
  NoDup labels -> In x labels ->
  foldr (fun v acc => (if String.eqb v x then 1 else 0) + acc) 0 labels = 1.
Proof.
  induction 1 as [|v labels Hv Hnodup IH]; simpl; [done|].
  rewrite list_elem_of_In in Hv.
  destruct (String.eqb_spec v x) as [->|Hne].
  - intros _. by rewrite count_none.
  - intros [->|Hx]; [done|]. by rewrite IH.
Qed.

Lemma occurrences_cover labels l :
  NoDup labels -> (forall x, In x l -> In x labels) ->
  foldr (fun v acc => occurrences v l + acc) 0 labels = length l.
Proof.
  intros Hnodup. induction l as [|x l IH]; intros Hcover.
  - clear. induction labels as [|v labels IH]; simpl; [done|]. exact IH.
  - transitivity
      (foldr (fun v acc => (if String.eqb v x then 1 else 0) + acc) 0 labels
       + foldr (fun v acc => occurrences v l + acc) 0 labels).
    + clear. induction labels as [|v labels IH]; simpl; [done|].
      rewrite IH. unfold occurrences. simpl. destruct (String.eqb v x); simpl; lia.
    + rewrite count_one by (by auto using in_eq). rewrite IH; [done|].
      intros y Hy. apply Hcover. by right.
Qed.

Lemma value_counts_total l : total_count (value_counts l) = length l.
Proof.
  unfold value_counts. rewrite (total_count_perm _ _ (sorted_perm _ _)).
  transitivity (foldr (fun v acc => occurrences v l + acc) 0 (unique String.eqb l)).
  { unfold total_count. induction (unique String.eqb l) as [|v vs IH]; simpl; [done|].
    by rewrite IH. }
  apply occurrences_cover.
  - apply unique_from_NoDup.
  - intros x. apply unique_In.
Qed.

(** X15. The borough series counts every record that has a borough cell
    exactly once: its labels are distinct, it is ranked by count, and its
    counts add up to the number of non-missing borough cells. *)
Theorem borough_counts_total filtered_df series :
  borough_counts filtered_df = Some series ->
  NoDup (map fst series)
  /\ StronglySorted by_count_desc series
  /\ total_count series = length (str_cells filtered_df "BOROUGH")
  /\ forall b n, In (b, n) series
       <-> In b (str_cells filtered_df "BOROUGH")
           /\ n = occurrences b (str_cells filtered_df "BOROUGH").
Proof.
  unfold borough_counts, getitem_str.
  destruct (has_column filtered_df "BOROUGH"); [|done].
  destruct (0 <? _); [|done].
  cbn [andb mbind result_bind mret result_ret try_except]. intros [= <-].
  fold (str_cells filtered_df "BOROUGH").
  split; [|split; [|split]].
  - rewrite value_counts_labels. apply unique_from_NoDup.
  - apply value_counts_sorted.
  - apply value_counts_total.
  - intros b n. apply value_counts_In.
Qed.

Lemma borough_counts_of_five_crashes :
  borough_counts five_crashes = Some [("BROOKLYN", 3); ("QUEENS", 2)]
  /\ total_count [("BROOKLYN", 3); ("QUEENS", 2)]
     = length (str_cells five_crashes "BOROUGH").
Proof.
  assert (H : borough_counts five_crashes = Some [("BROOKLYN", 3); ("QUEENS", 2)])
    by (vm_compute; reflexivity).
  split; [exact H|].
  by destruct (borough_counts_total five_crashes _ H) as (_ & _ & Htotal & _).
Defined.

Lemma length_filter_id_map {A} (keep : A -> bool) l :
  length (List.filter id (map keep l)) = length (List.filter keep l).
Proof.
  induction l as [|x l IH]; [done|].
  cbn [map List.filter]. unfold id at 1.
  destruct (keep x); cbn [length]; [f_equal|]; exact IH.
Qed.

Lemma count_either_positive_rows df c1 c2 :
  count_either_positive df c1 c2
  = (filtered_df ← row_step [c1; c2] (fun r => positive c1 r || positive c2 r) df;
     mret (len filtered_df)).
Proof.
  unfold count_either_positive, getitem_num, row_step, len. cbn [forallb].
  destruct (has_column df c1); cbn [andb mbind result_bind]; [|done].
  destruct (has_column df c2); cbn [andb mbind result_bind mret result_ret rows]; [|done].
  by rewrite !map_map, mask_or_map, length_filter_id_map.
Qed.

Lemma apply_injury_filter df label c1 c2 :
  injury_plan (<["injury_type" := PStr label]> ∅) = casualty_plan c1 c2 ->
  apply_filters df (<["injury_type" := PStr label]> ∅)
  = row_step [c1; c2] (fun r => positive c1 r || positive c2 r) df.
Proof.
  intros Hplan. rewrite apply_filters_rows.
  unfold columns_read, row_matches, filter_plans, borough_plan, year_plan, either_plan.
  rewrite Hplan.
  rewrite (active_singleton_ne _ _ "borough"), (active_singleton_ne _ _ "year"),
    (active_singleton_ne _ _ "vehicle_type"),
    (active_singleton_ne _ _ "contributing_factor") by done.
  apply row_step_ext.
  - intros c. cbn. tauto.
  - intros r. cbn. by rewrite andb_true_r.
Qed.

Lemma add_injury_type_forall (P : string * nat -> Prop) df label injured killed
    data data' :
  injury_plan (<["injury_type" := PStr label]> ∅) = casualty_plan injured killed ->
  (forall kept,
     apply_filters df (<["injury_type" := PStr label]> ∅) = Ok kept ->
     0 < len kept -> P (label, len kept)) ->
  Forall P data ->
  add_injury_type df label injured killed data = Ok data' ->
  Forall P data'.
Proof.
  intros Hplan Hentry Hdata. unfold add_injury_type.
  destruct (has_column df injured); [|by intros [= <-]].
  rewrite count_either_positive_rows, <- (apply_injury_filter df label _ _ Hplan).
  destruct (apply_filters df _) as [kept|]; [|done].
  cbn [mbind result_bind mret result_ret].
  destruct (0 <? len kept) eqn:Hpos; intros [= <-]; [|done].
  apply Forall_app. split; [done|]. constructor; [|constructor].
  apply Hentry; [done|]. by apply Nat.ltb_lt.
Qed.

(** X16. Every entry of the injury-type series is one of Pedestrian,
    Cyclist and Motorist with a positive count, and the count is the number
    of records [apply_filters] keeps for that injury type alone: the pie
    chart and the injury-type filter use the same test. *)
Theorem injury_data_matches_filter filtered_df data :
  injury_data filtered_df = Some data ->
  data <> []
  /\ forall label n, In (label, n) data ->
       In label ["Pedestrian"; "Cyclist"; "Motorist"]
       /\ 0 < n
       /\ exists kept,
            apply_filters filtered_df (<["injury_type" := PStr label]> ∅) = Ok kept
            /\ len kept = n.
Proof.
  unfold injury_data.
  destruct (add_injury_type filtered_df "Pedestrian" _ _ []) as [data1|] eqn:H1; [|done].
  cbn [mbind result_bind].
  destruct (add_injury_type filtered_df "Cyclist" _ _ data1) as [data2|] eqn:H2; [|done].
  cbn [mbind result_bind].
  destruct (add_injury_type filtered_df "Motorist" _ _ data2) as [data3|] eqn:H3; [|done].
  cbn [mbind result_bind mret result_ret try_except].
  intros Hdata.
  assert (data3 = data /\ data <> []) as [-> Hne].
  { destruct data3; [done|]. by injection Hdata as <-. }
  split; [done|].
  set (P := fun entry : string * nat =>
              In entry.1 ["Pedestrian"; "Cyclist"; "Motorist"]
              /\ 0 < entry.2
              /\ exists kept,
                   apply_filters filtered_df (<["injury_type" := PStr entry.1]> ∅) = Ok kept
                   /\ len kept = entry.2).
  assert (Forall P data) as Hall.
  { apply (add_injury_type_forall P filtered_df "Motorist" _ _ data2 data
             eq_refl); [| |exact H3].
    { intros kept Hkept Hpos. unfold P. cbn. eauto 10. }
    apply (add_injury_type_forall P filtered_df "Cyclist" _ _ data1 data2
             eq_refl); [| |exact H2].
    { intros kept Hkept Hpos. unfold P. cbn. eauto 10. }
    apply (add_injury_type_forall P filtered_df "Pedestrian" _ _ [] data1
             eq_refl); [| |exact H1].
    { intros kept Hkept Hpos. unfold P. cbn. eauto 10. }
    constructor. }
  intros label n Hin. rewrite List.Forall_forall in Hall. apply (Hall _ Hin).
Qed.

Lemma injury_data_of_five_crashes :
  injury_data five_crashes = Some [("Pedestrian", 2)]
  /\ exists kept,
       apply_filters five_crashes (<["injury_type" := PStr "Pedestrian"]> ∅) = Ok kept
       /\ len kept = 2.
Proof.
  assert (H : injury_data five_crashes = Some [("Pedestrian", 2)])
    by (vm_compute; reflexivity).
  split; [exact H|].
  apply (proj2 (injury_data_matches_filter five_crashes _ H) "Pedestrian" 2).
  by left.
Defined.

(** X17. The injury-type chart is left out altogether as soon as, for one
    of the three types, the injured column exists and the killed column
    does not: the unguarded read of the killed column raises inside the
    [try] that covers all three types. *)
Theorem injury_data_needs_killed_columns filtered_df :
  Exists (fun cols : string * string =>
            has_column filtered_df cols.1 = true
            /\ has_column filtered_df cols.2 = false)
         [ ("NUMBER_OF_PEDESTRIANS_INJURED", "NUMBER_OF_PEDESTRIANS_KILLED");
           ("NUMBER_OF_CYCLIST_INJURED", "NUMBER_OF_CYCLIST_KILLED");
           ("NUMBER_OF_MOTORIST_INJURED", "NUMBER_OF_MOTORIST_KILLED") ] ->
  injury_data filtered_df = None.
Proof.
  intros Hmissing.
  assert (Hblock : forall label injured killed data,
            has_column filtered_df injured = true ->
            has_column filtered_df killed = false ->
            add_injury_type filtered_df label injured killed data = Raise KeyError).
  { intros label injured killed data Hi Hk.
    unfold add_injury_type, count_either_positive, getitem_num. by rewrite Hi, Hk. }
  unfold injury_data.
  repeat (apply Exists_cons in Hmissing as [[Hi Hk]|Hmissing];
          [cbn [fst snd] in Hi, Hk;
           repeat match goal with
                  | |- context [add_injury_type ?df ?l ?i ?k ?d] =>
                      first [ rewrite (Hblock l i k d Hi Hk)
                            | destruct (add_injury_type df l i k d) ];
                      cbn [mbind result_bind try_except]
                  end; reflexivity|]).
  by apply Exists_nil in Hmissing.
Qed.

Lemma injury_data_without_cyclist_killed :
  injury_data
    (mkDataFrame [ "NUMBER_OF_PEDESTRIANS_INJURED"; "NUMBER_OF_PEDESTRIANS_KILLED";
                   "NUMBER_OF_CYCLIST_INJURED" ]
       (rows five_crashes))
  = None.
Proof.
  apply injury_data_needs_killed_columns.
  apply Exists_cons. right. apply Exists_cons. left. by split.
Defined.

(** ** The points of the map *)

Section MapPoints.
Context {rng : Type}.
Variable sample : nat -> option Z -> rng -> list Row -> list Row.

(** [DataFrame.sample] draws [n] rows, and draws them from the frame. *)
Hypothesis sample_length : forall n random_state g l,
  n <= length l -> length (sample n random_state g l) = n.
Hypothesis sample_rows : forall n random_state g l r,
  In r (sample n random_state g l) -> In r l.

(** X18. Whenever the map is drawn it has between 1 and 2000 points, and
    every point is a record of the subset with both coordinates present
    and not zero, unchanged but for its [size] cell, which is the
    severity [TOTAL_INJURED + TOTAL_KILLED * 10 + 1] when the frame has a
    [TOTAL_INJURED] column and 3 otherwise. *)
Theorem map_points_located g df points :
  map_df sample g df = Some points ->
  0 < len points <= max_points
  /\ forall p, In p (rows points) ->
       exists r, In r (rows df)
         /\ has_location r = true
         /\ strs p = strs r
         /\ (forall col, col <> "size" -> nums p !! col = nums r !! col)
         /\ nums p !! "size"
            = if has_column df "TOTAL_INJURED" then severity_size df r else Some 3%Q.
Proof.
  intros Hmap.
  assert (has_column df "LATITUDE" = true /\ has_column df "LONGITUDE" = true)
    as [Hlat Hlon].
  { unfold map_df in Hmap.
    destruct (has_column df "LATITUDE"), (has_column df "LONGITUDE"); done. }
  rewrite (map_df_located sample g df Hlat Hlon) in Hmap. cbv zeta in Hmap.
  set (located := List.filter has_location (rows df)) in *.
  destruct (0 <? length located) eqn:Hpos; [|done].
  apply Nat.ltb_lt in Hpos. injection Hmap as <-.
  set (drawn := if max_points <? length located
                then sample max_points (Some 42%Z) g located else located).
  assert (Hlen : 0 < length drawn <= max_points).
  { unfold drawn. destruct (max_points <? length located) eqn:Hcap.
    - apply Nat.ltb_lt in Hcap. rewrite sample_length by lia. unfold max_points. lia.
    - apply Nat.ltb_ge in Hcap. lia. }
  assert (Hdrawn : forall r, In r drawn -> In r (rows df) /\ has_location r = true).
  { intros r Hr. apply filter_In. fold located. unfold drawn in Hr.
    destruct (max_points <? length located); [by eapply sample_rows|done]. }
  split; [by rewrite assign_size_len|].
  intros p Hp. unfold assign_size in Hp.
  change (has_column {| columns := columns df; rows := drawn |} "TOTAL_INJURED")
    with (has_column df "TOTAL_INJURED") in Hp.
  change (severity_size {| columns := columns df; rows := drawn |})
    with (severity_size df) in Hp.
  destruct (has_column df "TOTAL_INJURED");
    unfold assign_num in Hp; cbn [rows columns] in Hp;
    apply in_map_iff in Hp as (r & <- & Hr);
    destruct (Hdrawn r Hr) as [Hin Hloc];
    exists r; cbn [strs nums]; (split; [done|]); (split; [done|]); (split; [done|]).
  - destruct (severity_size df r) as [v|]; split.
    + intros col Hcol. by rewrite lookup_insert_ne.
    + by rewrite lookup_insert_eq.
    + intros col Hcol. by rewrite lookup_delete_ne.
    + by rewrite lookup_delete_eq.
  - split.
    + intros col Hcol. by rewrite lookup_insert_ne.
    + by rewrite lookup_insert_eq.
Qed.
End MapPoints.

Lemma rotating_sample_rows n random_state g l r :
  In r (rotating_sample n random_state g l) -> In r l.
Proof.
  unfold rotating_sample. rewrite <- !list_elem_of_In. intros Hr.
  eapply elem_of_rotate, elem_of_sublist; [exact Hr|apply sublist_take].
Qed.

Lemma map_of_four_places :
  exists points,
    map_df rotating_sample 7%Z four_places = Some points
    /\ len points = 2
    /\ 0 < len points <= max_points.
Proof.
  eexists. split; [vm_compute; reflexivity|]. split; [reflexivity|].
  eapply (map_points_located rotating_sample rotating_sample_length
            rotating_sample_rows 7%Z four_places).
  vm_compute. reflexivity.
Defined.

(** ** The stat cards of a filtered subset *)

Lemma series_sum_cons c s :
  series_sum (c :: s) = match c with Some v => (v + series_sum s)%Q | None => series_sum s end.
Proof. by destruct c. Qed.

Lemma series_sum_sublist (cell : Row -> option Q) l1 l2 :
  sublist l1 l2 ->
  (forall r v, In r l2 -> cell r = Some v -> (0 <= v)%Q) ->
  (series_sum (map cell l1) <= series_sum (map cell l2))%Q.
Proof.
  induction 1 as [|r l1 l2 Hsub IH|r l1 l2 Hsub IH]; intros Hpos.
  - apply Qle_refl.
  - cbn [map]. rewrite !series_sum_cons.
    assert (series_sum (map cell l1) <= series_sum (map cell l2))%Q as Hle
      by (apply IH; intros r' v Hr'; apply Hpos; by right).
    destruct (cell r); [|done]. apply Qplus_le_compat; [apply Qle_refl|done].
  - cbn [map]. rewrite series_sum_cons.
    assert (series_sum (map cell l1) <= series_sum (map cell l2))%Q as Hle
      by (apply IH; intros r' v Hr'; apply Hpos; by right).
    destruct (cell r) as [v|] eqn:Hcell; [|done].
    assert (0 <= v)%Q as Hv by (apply (Hpos r v); [by left|done]).
    apply (Qle_trans _ (0 + series_sum (map cell l2))%Q).
    + by rewrite Qplus_0_l.
    + apply Qplus_le_compat; [done|apply Qle_refl].
Qed.

Lemma total_of_sublist df kept col fallback :
  columns kept = columns df ->
  sublist (rows kept) (rows df) ->
  (forall r c v, In r (rows df) -> In c [col; fallback] -> nums r !! c = Some v -> (0 <= v)%Q) ->
  (total_of kept col fallback <= total_of df col fallback)%Q.
Proof.
  intros Hcols Hsub Hpos. unfold total_of, has_column, num_cells. rewrite Hcols.
  repeat case_bool_decide.
  - apply series_sum_sublist; [done|]. intros r v Hr. apply Hpos; [done|by left].
  - apply series_sum_sublist; [done|]. intros r v Hr. apply Hpos; [done|by right; left].
  - apply Qle_refl.
Qed.

Lemma summary_stats_totals filtered_df :
  exists stats,
    calculate_summary_stats filtered_df = Some stats
    /\ total_crashes stats = len filtered_df
    /\ total_injured stats
       = total_of filtered_df "TOTAL_INJURED" "NUMBER_OF_PERSONS_INJURED"
    /\ total_killed stats
       = total_of filtered_df "TOTAL_KILLED" "NUMBER_OF_PERSONS_KILLED".
Proof.
  unfold calculate_summary_stats, summary_stats_body.
  rewrite !column_total_ok. cbn [mbind result_bind].
  destruct (0 <? len filtered_df) eqn:Hlen.
  - apply Nat.ltb_lt in Hlen. rewrite !truediv_count by done.
    eexists. split; [reflexivity|]. done.
  - eexists. split; [reflexivity|]. done.
Qed.

(** X19. Filtering never makes the stat cards grow: when no casualty cell
    of the data set is negative, the cards of any filtered subset show at
    most the crashes, the injured and the killed of the cards of the whole
    data set. *)
Theorem filtered_totals_bounded df filters filtered_df :
  apply_filters df filters = Ok filtered_df ->
  (forall r c v, In r (rows df) -> In c casualty_columns ->
     nums r !! c = Some v -> (0 <= v)%Q) ->
  exists all_stats stats,
    calculate_summary_stats df = Some all_stats
    /\ calculate_summary_stats filtered_df = Some stats
    /\ total_crashes stats <= total_crashes all_stats
    /\ (total_injured stats <= total_injured all_stats)%Q
    /\ (total_killed stats <= total_killed all_stats)%Q.
Proof.
  intros Hfiltered Hpos.
  assert (columns filtered_df = columns df /\ sublist (rows filtered_df) (rows df))
    as [Hcols Hsub].
  { revert Hfiltered. rewrite apply_filters_rows. unfold row_step.
    destruct (forallb _ _); [|done]. intros [= <-]. split; [done|].
    apply filter_sublist. }
  destruct (summary_stats_totals df) as (all_stats & Hall & Hn & Hinj & Hkil).
  destruct (summary_stats_totals filtered_df) as (stats & Hstats & Hn' & Hinj' & Hkil').
  exists all_stats, stats. split; [done|]. split; [done|].
  rewrite Hn, Hn', Hinj, Hinj', Hkil, Hkil'. split; [|split].
  - unfold len. by apply sublist_length.
  - apply total_of_sublist; [done..|]. intros r c v Hr Hc. apply Hpos; [done|].
    unfold casualty_columns. cbn in *. tauto.
  - apply total_of_sublist; [done..|]. intros r c v Hr Hc. apply Hpos; [done|].
    unfold casualty_columns. cbn in *. tauto.
Qed.

Lemma filtered_totals_of_queens :
  exists all_stats stats,
    calculate_summary_stats borough_casualties = Some all_stats
    /\ calculate_summary_stats
         (mkDataFrame (columns borough_casualties) (take 1 (rows borough_casualties)))
       = Some stats
    /\ total_crashes stats <= total_crashes all_stats
    /\ (total_injured stats <= total_injured all_stats)%Q
    /\ (total_killed stats <= total_killed all_stats)%Q.
Proof.
  apply (filtered_totals_bounded borough_casualties (<["borough" := PStr "QUEENS"]> ∅)).
  - vm_compute. reflexivity.
  - intros r c v Hr Hc Hv.
    assert (Hcells : forallb (fun r => forallb (fun c =>
              match nums r !! c with Some v => Qle_bool 0 v | None => true end)
              casualty_columns) (rows borough_casualties) = true)
      by (vm_compute; reflexivity).
    rewrite forallb_forall in Hcells. specialize (Hcells r Hr).
    rewrite forallb_forall in Hcells. specialize (Hcells c Hc).
    rewrite Hv in Hcells. by apply Qle_bool_iff.
Defined.

(** ** The report callback *)

Lemma empty_false_len df : empty df = false -> 0 < len df.
Proof. unfold empty, len. destruct (rows df); [done|]. simpl. lia. Qed.

Lemma active_collect_filters borough year vehicle_type contributing_factor injury_type :
  let filters :=
    collect_filters borough year vehicle_type contributing_factor injury_type in
  let chosen v := if truthy v && negb (py_eq v (PStr "All")) then Some v else None in
  active filters "borough" = chosen borough
  /\ active filters "year" = chosen year
  /\ active filters "vehicle_type" = chosen vehicle_type
  /\ active filters "contributing_factor" = chosen contributing_factor
  /\ active filters "injury_type" = chosen injury_type.
Proof. repeat split; reflexivity. Qed.

(** X20. With every dropdown on "All" or cleared, the report of a data
    set with records is drawn from the whole data set, whatever columns
    it has, and its stat cards count all the records. *)
Theorem report_without_criteria df n_clicks borough year vehicle_type
    contributing_factor injury_type :
  empty df = false ->
  Forall (fun v => truthy v = false \/ py_eq v (PStr "All") = true)
         [borough; year; vehicle_type; contributing_factor; injury_type] ->
  exists stats,
    update_visualizations df n_clicks borough year vehicle_type
      contributing_factor injury_type
    = Report df (Some stats)
    /\ total_crashes stats = len df
    /\ 0 < total_crashes stats.
Proof.
  intros Hempty Hall. pose proof (empty_false_len df Hempty) as Hlen.
  assert (Hsame : apply_filters df
            (collect_filters borough year vehicle_type contributing_factor injury_type)
          = Ok df).
  { rewrite apply_filters_rows.
    unfold columns_read, row_matches, filter_plans,
      borough_plan, year_plan, either_plan, injury_plan.
    destruct (active_collect_filters borough year vehicle_type contributing_factor
                injury_type) as (-> & -> & -> & -> & ->).
    repeat (apply Forall_cons in Hall as [[-> | ->] Hall]);
      rewrite ?andb_false_r; cbn [andb negb]; apply row_step_no_constraint. }
  unfold update_visualizations. rewrite Hempty. cbn [orb].
  destruct (len df =? 0) eqn:Hzero; [apply Nat.eqb_eq in Hzero; lia|].
  rewrite Hsame, Hzero.
  destruct (summary_stats_totals df) as (stats & -> & Hn & _).
  exists stats. split; [done|]. split; [done|]. by rewrite Hn.
Qed.

Lemma report_of_five_crashes :
  exists stats,
    update_visualizations five_crashes (PInt 1) (PStr "All") PNone (PStr "All")
      (PStr "") (PStr "All")
    = Report five_crashes (Some stats)
    /\ total_crashes stats = len five_crashes
    /\ 0 < total_crashes stats.
Proof.
  apply report_without_criteria.
  - reflexivity.
  - repeat constructor; cbn; tauto.
Defined.

(** X21. On a data set that has the twelve columns the filters read, the
    callback never shows the error page, whatever the dropdowns hold: it
    shows "no data available" for an empty data set only, "no data matches"
    when the filters keep no record, and otherwise a report of the records
    kept, with stat cards that count them. *)
Theorem update_visualizations_complete df n_clicks borough year vehicle_type
    contributing_factor injury_type :
  Forall (fun c => has_column df c = true) filter_columns ->
  let filters :=
    collect_filters borough year vehicle_type contributing_factor injury_type in
  match update_visualizations df n_clicks borough year vehicle_type
          contributing_factor injury_type with
  | NoDataAvailable => empty df = true
  | ErrorApplyingFilters _ => False
  | NoDataMatchesFilters =>
      empty df = false
      /\ apply_filters df filters = Ok (mkDataFrame (columns df) [])
  | Report filtered_df summary_stats =>
      empty df = false
      /\ apply_filters df filters = Ok filtered_df
      /\ exists stats,
           summary_stats = Some stats
           /\ total_crashes stats = len filtered_df
           /\ 0 < total_crashes stats
  end.
Proof.
  intros Hcols filters. unfold update_visualizations. fold filters.
  destruct (empty df) eqn:Hempty; [done|]. cbn [orb].
  pose proof (empty_false_len df Hempty) as Hlen.
  destruct (len df =? 0) eqn:Hzero; [apply Nat.eqb_eq in Hzero; lia|].
  rewrite apply_filters_rows. unfold row_step.
  rewrite (columns_read_present df filters Hcols).
  unfold len at 1. cbn [rows].
  destruct (List.filter (row_matches filters) (rows df)) as [|r kept] eqn:Hkept.
  - done.
  - cbn [length Nat.eqb]. split; [done|]. split; [done|].
    destruct (summary_stats_totals {| columns := columns df; rows := r :: kept |})
      as (stats & -> & Hn & _).
    exists stats. split; [done|]. split; [done|]. rewrite Hn. unfold len. simpl. lia.
Qed.

Lemma update_visualizations_of_five_crashes :
  update_visualizations five_crashes (PInt 1) (PStr "QUEENS") (PInt 2021) (PStr "All")
    (PStr "All") (PStr "All")
  = NoDataMatchesFilters
  /\ apply_filters five_crashes
       (collect_filters (PStr "QUEENS") (PInt 2021) (PStr "All") (PStr "All") (PStr "All"))
     = Ok (mkDataFrame (columns five_crashes) []).
Proof.
  assert (Hpage : update_visualizations five_crashes (PInt 1) (PStr "QUEENS") (PInt 2021)
                    (PStr "All") (PStr "All") (PStr "All")
                  = NoDataMatchesFilters) by (vm_compute; reflexivity).
  split; [exact Hpage|].
  pose proof (update_visualizations_complete five_crashes (PInt 1) (PStr "QUEENS")
                (PInt 2021) (PStr "All") (PStr "All") (PStr "All")) as Hcomplete.
  cbv zeta in Hcomplete. rewrite Hpage in Hcomplete. apply Hcomplete.
  repeat constructor.
Defined.

(** ** The year series *)

Section UniqueByKey.
Context {A K : Type} (eqb : A -> A -> bool) (key : A -> K).
Hypothesis eqb_key : forall x y, eqb x y = true <-> key x = key y.

Lemma existsb_eqb_key x seen :
  existsb (eqb x) seen = true <-> In (key x) (map key seen).
Proof.
  rewrite existsb_exists, in_map_iff. split.
  - intros (y & Hy & Heq). exists y. split; [|done]. symmetry. by apply eqb_key.
  - intros (y & Heq & Hy). exists y. split; [done|]. by apply eqb_key.
Qed.

Lemma unique_from_keys seen l :
  NoDup (map key (unique_from eqb seen l))
  /\ (forall x, In x (unique_from eqb seen l) -> ~ In (key x) (map key seen))
  /\ (forall x, In x l ->
        In (key x) (map key seen) \/ In (key x) (map key (unique_from eqb seen l)))
  /\ (forall x, In x (unique_from eqb seen l) -> In x l).
Proof.
  revert seen. induction l as [|y l IH]; intros seen; cbn [unique_from].
  - repeat split; [constructor|done..].
  - destruct (existsb (eqb y) seen) eqn:Hy.
    + apply existsb_eqb_key in Hy.
      destruct (IH seen) as (Hnodup & Hfresh & Hcover & Hsub).
      repeat split; [done|done| |by right; apply Hsub].
      intros x [<-|Hx]; [by left|by apply Hcover].
    + assert (~ In (key y) (map key seen)) as Hnew.
      { intros Hin%existsb_eqb_key. congruence. }
      destruct (IH (y :: seen)) as (Hnodup & Hfresh & Hcover & Hsub).
      repeat split.
      * cbn [map]. apply NoDup_cons. split; [|done].
        rewrite list_elem_of_In, in_map_iff. intros (x & Hkey & Hx).
        apply (Hfresh x Hx). left. done.
      * intros x [<-|Hx]; [done|]. intros Hin. apply (Hfresh x Hx). by right.
      * intros x [<-|Hx]; [right; by left|].
        destruct (Hcover x Hx) as [[Heq|Hin]|Hin]; [|by left|right; by right].
        right. left. done.
      * intros x [<-|Hx]; [by left|right; by apply Hsub].
Qed.

Lemma class_none x reps :
  ~ In (key x) (map key reps) ->
  foldr (fun v acc => (if eqb v x then 1 else 0) + acc) 0 reps = 0.
Proof.
  induction reps as [|w reps IH]; cbn [foldr map]; [done|]. intros Hx.
  destruct (eqb w x) eqn:Hw.
  - apply eqb_key in Hw. exfalso. apply Hx. left. done.
  - rewrite IH; [done|]. intros Hin. apply Hx. by right.
Qed.

Lemma class_one x reps :
  NoDup (map key reps) -> In (key x) (map key reps) ->
  foldr (fun v acc => (if eqb v x then 1 else 0) + acc) 0 reps = 1.
Proof.
  induction reps as [|w reps IH]; cbn [foldr map]; [done|].
  intros [Hw Hnodup]%NoDup_cons. rewrite list_elem_of_In in Hw.
  destruct (eqb w x) eqn:Hwx.
  - apply eqb_key in Hwx. intros _. rewrite class_none; [done|]. by rewrite <- Hwx.
  - intros [Heq|Hx]; [|by rewrite IH].
    apply eqb_key in Heq. congruence.
Qed.

Lemma classes_cover reps l :
  NoDup (map key reps) -> (forall x, In x l -> In (key x) (map key reps)) ->
  foldr (fun v acc => length (List.filter (eqb v) l) + acc) 0 reps = length l.
Proof.
  intros Hnodup. induction l as [|x l IH]; intros Hcover.
  - clear. induction reps as [|v reps IH]; cbn [foldr]; [done|]. exact IH.
  - transitivity
      (foldr (fun v acc => (if eqb v x then 1 else 0) + acc) 0 reps
       + foldr (fun v acc => length (List.filter (eqb v) l) + acc) 0 reps).
    + clear. induction reps as [|v reps IH]; cbn [foldr]; [done|].
      rewrite IH. cbn [List.filter]. destruct (eqb v x); cbn [length]; lia.
    + rewrite class_one by (by auto using in_eq). rewrite IH; [done|].
      intros y Hy. apply Hcover. by right.
Qed.
End UniqueByKey.

Lemma Qeq_bool_Qred x y : Qeq_bool x y = true <-> Qred x = Qred y.
Proof.
  rewrite Qeq_bool_iff. split; [apply Qred_complete|].
  intros Hred. by rewrite <- (Qred_correct x), <- (Qred_correct y), Hred.
Qed.

Lemma Qle_bool_total x y : Qle_bool x y = true \/ Qle_bool y x = true.
Proof.
  rewrite !Qle_bool_iff. destruct (Qlt_le_dec x y) as [Hlt|Hle]; [left|by right].
  by apply Qlt_le_weak.
Qed.

Lemma Qle_bool_trans x y z :
  Qle_bool x y = true -> Qle_bool y z = true -> Qle_bool x z = true.
Proof. rewrite !Qle_bool_iff. apply Qle_trans. Qed.

Lemma ascending_distinct_years years :
  StronglySorted (fun a b => Qle_bool a b = true) years ->
  NoDup (map Qred years) ->
  StronglySorted Qlt years.
Proof.
  induction 1 as [|y years Hsorted IH Hy]; cbn [map]; [constructor|].
  intros [Hnew Hnodup]%NoDup_cons. constructor; [by apply IH|].
  rewrite List.Forall_forall in Hy. apply List.Forall_forall. intros z Hz.
  specialize (Hy z Hz). apply Qle_bool_iff in Hy.
  apply Qle_lt_or_eq in Hy as [Hlt|Heq]; [done|].
  exfalso. apply Hnew. rewrite (Qred_complete _ _ Heq).
  apply list_elem_of_In, in_map, Hz.
Qed.

Lemma StronglySorted_map {A B} (R : B -> B -> Prop) (f : A -> B) l :
  StronglySorted (fun a b => R (f a) (f b)) l -> StronglySorted R (map f l).
Proof.
  induction 1 as [|x l Hl IH Hx]; cbn [map]; constructor; [done|].
  apply List.Forall_map. done.
Qed.

(** X22. The year series lists the distinct years of the subset in
    strictly ascending order, and counts every record that has a year
    exactly once: each entry holds the number of year cells equal to its
    year, which is positive, and the counts add up to the number of
    non-missing year cells. *)
Theorem year_counts_total filtered_df series :
  year_counts filtered_df = Some series ->
  let years := dropna (num_cells filtered_df "CRASH_YEAR") in
  StronglySorted Qlt (map fst series)
  /\ total_size series = length years
  /\ (forall year n, In (year, n) series ->
        In year years /\ 0 < n /\ n = length (List.filter (Qeq_bool year) years))
  /\ (forall year, In year years -> exists year' n, In (year', n) series /\ (year' == year)%Q).
Proof.
  unfold year_counts, getitem_num.
  destruct (has_column filtered_df "CRASH_YEAR"); [|done].
  destruct (0 <? _); [|done].
  cbn [andb mbind result_bind mret result_ret try_except]. intros [= <-].
  fold (num_cells filtered_df "CRASH_YEAR").
  set (years := dropna (num_cells filtered_df "CRASH_YEAR")). cbv zeta.
  destruct (unique_from_keys Qeq_bool Qred Qeq_bool_Qred [] years)
    as (Hnodup & _ & Hcover & Hsub).
  fold (unique Qeq_bool years) in Hnodup, Hcover, Hsub.
  assert (Hperm : sorted Qle_bool (unique Qeq_bool years) ≡ₚ unique Qeq_bool years)
    by apply sorted_perm.
  split; [|split; [|split]].
  - rewrite map_map. cbn [fst]. rewrite map_id.
    apply ascending_distinct_years.
    + apply sorted_strongly; [apply Qle_bool_total|apply Qle_bool_trans].
    + by rewrite Hperm.
  - transitivity
      (foldr (fun v acc => length (List.filter (Qeq_bool v) years) + acc) 0
         (sorted Qle_bool (unique Qeq_bool years))).
    { unfold total_size. clear Hperm.
      induction (sorted Qle_bool (unique Qeq_bool years)) as [|v vs IH];
        cbn [map foldr snd]; [done|]. by rewrite IH. }
    apply (classes_cover Qeq_bool Qred Qeq_bool_Qred).
    + by rewrite Hperm.
    + intros x Hx. destruct (Hcover x Hx) as [[]|Hin].
      rewrite <- list_elem_of_In in *. by rewrite Hperm.
  - intros year n (y & [= <- <-] & Hy)%in_map_iff.
    apply sorted_In in Hy. apply Hsub in Hy. split; [done|]. split; [|done].
    assert (In y (List.filter (Qeq_bool y) years)) as Hin.
    { apply filter_In. split; [done|]. apply Qeq_bool_iff, Qeq_refl. }
    destruct (List.filter (Qeq_bool y) years); [done|]. cbn [length]. lia.
  - intros year Hyear. destruct (Hcover year Hyear) as [[]|Hin].
    apply in_map_iff in Hin as (y & Hkey & Hy).
    exists y, (length (List.filter (Qeq_bool y) years)). split.
    + apply in_map_iff. exists y. split; [done|]. by apply sorted_In.
    + by apply Qeq_bool_iff, Qeq_bool_Qred.
Qed.

Lemma year_counts_of_five_crashes :
  year_counts five_crashes = Some [(2021%Q, 3); (2022%Q, 2)]
  /\ total_size [(2021%Q, 3); (2022%Q, 2)]
     = length (dropna (num_cells five_crashes "CRASH_YEAR")).
Proof.
  assert (H : year_counts five_crashes = Some [(2021%Q, 3); (2022%Q, 2)])
    by (vm_compute; reflexivity).
  split; [exact H|].
  apply (year_counts_total five_crashes _ H).
Defined.
